(** * Glycofy UI: grocery aggregation, exports, sport normalisation,
    day/sport summaries, the fetch wrapper, the week loader and the
    unit helpers, embedded from the browser scripts under [ui/].

    JavaScript strings are modelled as [string]: one [ascii] stands for
    one UTF-16 code unit below 256, so the development covers Latin-1
    text.  A [Map] is an association list in insertion order.  JSON
    numbers of activity records are exact rationals; the rounded kcal
    figures are integers and are added as integers (the additions the
    scripts perform on doubles are exact while the sums stay below 2^53
    in magnitude).  The unit helpers, whose arguments may be [null],
    [undefined] or [NaN], run on binary64 floats. *)

From Stdlib Require Import List String Ascii Bool Arith ZArith QArith Qround Lia.
From Stdlib Require Import Sorted Permutation DecimalString DecimalNat Floats.
Import ListNotations.

Set Warnings "-inexact-float".

Local Close Scope Q_scope.
Local Open Scope string_scope.
Local Open Scope list_scope.
Local Open Scope nat_scope.

(** ** JavaScript strings *)

Module JS.

Definition DQ : string := String "034"%char "".
Definition NL : string := String "010"%char "".

(** [WhiteSpace] and [LineTerminator] code units below 256:
    TAB, LF, VT, FF, CR, SP and NBSP. *)
Definition is_ws (c : ascii) : bool :=
  let n := nat_of_ascii c in
  ((9 <=? n) && (n <=? 13)) || (n =? 32) || (n =? 160).

Fixpoint trimStart (s : string) : string :=
  match s with
  | "" => ""
  | String c r => if is_ws c then trimStart r else s
  end.

Fixpoint trimEnd (s : string) : string :=
  match s with
  | "" => ""
  | String c r =>
      match trimEnd r with
      | "" => if is_ws c then "" else String c ""
      | r' => String c r'
      end
  end.

(** [String.prototype.trim] *)
Definition trim (s : string) : string := trimEnd (trimStart s).

(** [!s] for a string [s] *)
Definition falsy (s : string) : bool :=
  match s with "" => true | _ => false end.

(** [x || ''] for [x] a string, [null] or [undefined] *)
Definition or_empty (x : option string) : string :=
  match x with Some s => s | None => "" end.

(** [x || d] for [x] a string, [null] or [undefined] *)
Definition str_or (x : option string) (d : option string) : option string :=
  match x with
  | Some s => if falsy s then d else x
  | None => d
  end.

(** [Array.prototype.join] *)
Definition join (sep : string) (l : list string) : string :=
  String.concat sep l.

(** template rendering of a non-negative integer *)
Definition dec (n : nat) : string :=
  NilEmpty.string_of_uint (Nat.to_uint n).

(** [String.prototype.includes] *)
Fixpoint includes (s sub : string) : bool :=
  String.prefix sub s ||
  match s with
  | "" => false
  | String _ r => includes r sub
  end.

(** [String.prototype.toLowerCase] on Latin-1: A-Z, and the letters
    U+00C0..U+00DE except the multiplication sign U+00D7. *)
Definition lower_char (c : ascii) : ascii :=
  let n := nat_of_ascii c in
  if ((65 <=? n) && (n <=? 90)) ||
     ((192 <=? n) && (n <=? 222) && negb (n =? 215))
  then ascii_of_nat (n + 32) else c.

Fixpoint toLowerCase (s : string) : string :=
  match s with
  | "" => ""
  | String c r => String (lower_char c) (toLowerCase r)
  end.

(** [s.slice(0, 10)] *)
Definition slice10 (s : string) : string := String.substring 0 10 s.

(** [a < b], [a <= b], [a >= b] on strings: code-unit order *)
Definition lt (a b : string) : bool := String.ltb a b.
Definition le (a b : string) : bool :=
  match String.compare a b with Gt => false | _ => true end.
Definition ge (a b : string) : bool := le b a.

(** A [Map] in insertion order; [eqb] is the key comparison
    (SameValueZero on the keys the scripts use). *)
Definition map (K V : Type) : Type := list (K * V).

Fixpoint get {K V} (eqb : K -> K -> bool) (k : K) (m : map K V) : option V :=
  match m with
  | [] => None
  | (k', v) :: r => if eqb k k' then Some v else get eqb k r
  end.

Fixpoint set {K V} (eqb : K -> K -> bool) (k : K) (v : V) (m : map K V) : map K V :=
  match m with
  | [] => [(k, v)]
  | (k', v') :: r =>
      if eqb k k' then (k, v) :: r else (k', v') :: set eqb k v r
  end.

Definition keys {K V} (m : map K V) : list K := List.map fst m.

Definition values {K V} (m : map K V) : list V := List.map snd m.

End JS.

(** ** Day plans (ui/plan.js, ui/plan-week.js) *)

(** Fields are [None] when absent or [null]; [ingredients] is [None] when
    it is not an array. *)
Record Meal := {
  meal_title : option string;
  ingredients : option (list (option string))
}.

Record DayPlan := {
  plan_date : string;
  meals : option (list Meal);
  grocery_list : option (list (option string))
}.

Module Grocery.

(** The loop body shared by both aggregators:
    [const key = (raw || '').trim(); if (!key) continue;
     counts.set(key, (counts.get(key) || 0) + 1);] *)
Definition tally (counts : JS.map string nat) (raw : option string)
  : JS.map string nat :=
  let key := JS.trim (JS.or_empty raw) in
  if JS.falsy key then counts
  else
    JS.set String.eqb key
      (match JS.get String.eqb key counts with Some n => n | None => 0 end + 1)
      counts.

Definition tally_all (counts : JS.map string nat) (raws : list (option string))
  : JS.map string nat :=
  fold_left tally raws counts.

(** ui/plan-week.js [aggregateIngredients]: per-meal ingredients only. *)
Definition tally_meal (counts : JS.map string nat) (m : Meal) : JS.map string nat :=
  match ingredients m with
  | Some raws => tally_all counts raws
  | None => counts
  end.

Definition tally_plan_meals (counts : JS.map string nat) (p : DayPlan) : JS.map string nat :=
  fold_left tally_meal (match meals p with Some ms => ms | None => [] end) counts.

Definition aggregateIngredients (plans : option (list DayPlan)) : JS.map string nat :=
  fold_left tally_plan_meals (match plans with Some ps => ps | None => [] end) [].

(** ui/plan.js [buildCombinedGrocery], the [items] map: grocery_list only. *)
Definition tally_plan_grocery (items : JS.map string nat) (p : DayPlan) : JS.map string nat :=
  tally_all items (match grocery_list p with Some g => g | None => [] end).

Definition combinedItems (plans : option (list DayPlan)) : JS.map string nat :=
  fold_left tally_plan_grocery (match plans with Some ps => ps | None => [] end) [].

End Grocery.

(** ** The aggregated grocery list as the specification words it *)

Module GrocerySpec.

(** the distinct elements of a list, each at its first occurrence *)
Fixpoint first_seen (l : list string) : list string :=
  match l with
  | [] => []
  | x :: r => x :: filter (fun y => negb (String.eqb y x)) (first_seen r)
  end.

(** trim each string, drop the ones that trim to empty *)
Definition kept (raws : list (option string)) : list string :=
  filter (fun k => negb (JS.falsy k))
         (List.map (fun r => JS.trim (JS.or_empty r)) raws).

(** every distinct string with its number of occurrences, first seen first *)
Definition counted (xs : list string) : JS.map string nat :=
  List.map (fun k => (k, count_occ string_dec xs k)) (first_seen xs).

Definition aggregated (raws : list (option string)) : JS.map string nat :=
  counted (kept raws).

(** the strings of a week in encounter order, per source *)
Definition meal_strings (m : Meal) : list (option string) :=
  match ingredients m with Some l => l | None => [] end.

Definition plan_meal_strings (p : DayPlan) : list (option string) :=
  flat_map meal_strings (match meals p with Some ms => ms | None => [] end).

Definition plan_grocery_strings (p : DayPlan) : list (option string) :=
  match grocery_list p with Some g => g | None => [] end.

(** "grocery_list when that field is present and, only if it is absent,
    the flattened per-meal ingredients" *)
Definition preferred_strings (p : DayPlan) : list (option string) :=
  match grocery_list p with
  | Some g => g
  | None => plan_meal_strings p
  end.

End GrocerySpec.

(** one-plan weeks used in the worked examples *)
Definition week_of_ingredients (l : list string) : option (list DayPlan) :=
  Some [ {| plan_date := "2024-01-01";
            meals := Some [ {| meal_title := None;
                               ingredients := Some (List.map Some l) |} ];
            grocery_list := None |} ].

Definition week_of_grocery (l : list string) : option (list DayPlan) :=
  Some [ {| plan_date := "2024-01-01";
            meals := None;
            grocery_list := Some (List.map Some l) |} ].

(** ** Exports (ui/plan-week.js [exportTxt], [exportCsv];
       ui/plan.js [buildCombinedGrocery]) *)

Module GroceryExport.

(** [v > 1 ? `- ${k}  x${v}` : `- ${k}`] *)
Definition txt_line (e : string * nat) : string :=
  let (k, v) := e in
  if 1 <? v then ("- " ++ k ++ "  x" ++ JS.dec v)%string
  else ("- " ++ k)%string.

(** [k.replace(/DQ/g, DQ DQ)], DQ being the double-quote character *)
Fixpoint double_quotes (k : string) : string :=
  match k with
  | "" => ""
  | String c r =>
      if Ascii.eqb c "034"%char
      then (JS.DQ ++ JS.DQ ++ double_quotes r)%string
      else String c (double_quotes r)
  end.

(** [const safe = DQ + k.replace(/DQ/g, DQ DQ) + DQ; `${safe},${v}`] *)
Definition csv_row (e : string * nat) : string :=
  let (k, v) := e in
  let safe := (JS.DQ ++ double_quotes k ++ JS.DQ)%string in
  (safe ++ "," ++ JS.dec v)%string.

(** [for (const [k,v] of map.entries()) lines.push(f([k,v]))] *)
Definition push_entries (f : string * nat -> string)
    (lines : list string) (m : JS.map string nat) : list string :=
  fold_left (fun acc e => acc ++ [f e]) m lines.

Definition toText (m : JS.map string nat) : string :=
  JS.join JS.NL (push_entries txt_line [] m).

Definition toCsv (m : JS.map string nat) : string :=
  JS.join JS.NL (push_entries csv_row ["item,count"] m).

(** what [download(filename, text)] is called with *)
Record Download := { filename : string; text : string }.

Definition exportTxt (weekPlans : option (list DayPlan)) : Download :=
  {| filename := "grocery-week.txt";
     text := toText (Grocery.aggregateIngredients weekPlans) |}.

Definition exportCsv (weekPlans : option (list DayPlan)) : Download :=
  {| filename := "grocery-week.csv";
     text := toCsv (Grocery.aggregateIngredients weekPlans) |}.

Definition buildCombinedGrocery
    (weekPlans : option (list DayPlan)) (format : string) : string :=
  let items := Grocery.combinedItems weekPlans in
  if String.eqb format "csv" then toCsv items else toText items.

(** a reader of one quoted CSV field: the opening quote, the content with
    doubled quotes read as one, the closing quote.  Returns the field and
    what follows it. *)
Fixpoint read_quoted_body (s : string) : option (string * string) :=
  match s with
  | "" => None
  | String c r =>
      if Ascii.eqb c "034"%char then
        match r with
        | String c' r' =>
            if Ascii.eqb c' "034"%char then
              match read_quoted_body r' with
              | Some (f, rest) => Some (String c f, rest)
              | None => None
              end
            else Some ("", r)
        | "" => Some ("", "")
        end
      else
        match read_quoted_body r with
        | Some (f, rest) => Some (String c f, rest)
        | None => None
        end
  end.

Definition read_quoted (s : string) : option (string * string) :=
  match s with
  | String c r => if Ascii.eqb c "034"%char then read_quoted_body r else None
  | "" => None
  end.

End GroceryExport.

(** [text.split(NL)]: the lines of an exported file *)
Fixpoint split_lines (s : string) : list string :=
  match s with
  | "" => [""]
  | String c r =>
      if Ascii.eqb c "010"%char then "" :: split_lines r
      else match split_lines r with
           | h :: t => String c h :: t
           | [] => [String c ""]
           end
  end.

Fixpoint no_newline (s : string) : bool :=
  match s with
  | "" => true
  | String c r => negb (Ascii.eqb c "010"%char) && no_newline r
  end.

Definition starts_with_quote (s : string) : bool :=
  match s with
  | String c _ => Ascii.eqb c "034"%char
  | "" => false
  end.

(** a plan with both a grocery list and a meal, and one with a meal only *)
Definition plan_both : DayPlan :=
  {| plan_date := "2024-01-01";
     meals := Some [ {| meal_title := Some "Omelette";
                        ingredients := Some [Some "Eggs"] |} ];
     grocery_list := Some [Some "Milk"] |}.

Definition plan_meals_only : DayPlan :=
  {| plan_date := "2024-01-02";
     meals := Some [ {| meal_title := Some "Omelette";
                        ingredients := Some [Some "Eggs"] |} ];
     grocery_list := None |}.

(** ** Activities (ui/activities.js) *)

(** An activity record as the pages read it.  A field is [None] when it is
    absent or [null]; text fields hold strings and numeric fields hold JSON
    numbers. *)
Record Activity := {
  sport_label : option string;
  sport : option string;
  type : option string;
  name : option string;
  distance_m : option Q;
  start_time : option string;
  date : option string;
  kcal : option Q;
  duration_sec : option Q
}.

(** What a script can hold in a sport variable: a string, or a member that
    a plain object inherits from [Object.prototype]. *)
Inductive jsval :=
| VStr (s : string)
| VInherited (member : string).

Module Sport.

(** [x || 0] for [x] a number, [null] or [undefined] *)
Definition num_or0 (x : option Q) : Q :=
  match x with Some q => q | None => 0%Q end.

Definition Qltb (a b : Q) : bool := negb (Qle_bool b a).

(** [Math.round]: the nearest integer, halves going up *)
Definition Math_round (q : Q) : Z := Qfloor (q + (1 # 2))%Q.

(** the object literal [map] of [normalizeSport], in source order *)
Definition sport_table : JS.map string string :=
  [ ("Run", "Running");
    ("TrailRun", "Running");
    ("Ride", "Cycling");
    ("VirtualRide", "Cycling (Virtual)");
    ("WeightTraining", "Strength");
    ("StrengthTraining", "Strength");
    ("Walk", "Walking");
    ("Hike", "Hiking");
    ("Swim", "Swimming");
    ("Rowing", "Rowing");
    ("IndoorCycling", "Cycling (Virtual)");
    ("Crossfit", "CrossFit");
    ("Yoga", "Yoga");
    ("Elliptical", "Elliptical");
    ("StairStepper", "Stair Stepper");
    ("NordicSki", "Skiing");
    ("AlpineSki", "Skiing");
    ("Snowboard", "Snowboard") ].

(** the property names every plain object inherits *)
Definition object_prototype_members : list string :=
  [ "constructor"; "__defineGetter__"; "__defineSetter__"; "hasOwnProperty";
    "__lookupGetter__"; "__lookupSetter__"; "isPrototypeOf";
    "propertyIsEnumerable"; "toString"; "valueOf"; "__proto__";
    "toLocaleString" ].

Definition inherited (key : string) : bool :=
  existsb (String.eqb key) object_prototype_members.

Definition virtual_name (name : string) : bool :=
  JS.includes name "zwift" || JS.includes name "trainerroad" ||
  JS.includes name "virtual".

Definition strength_name (name : string) : bool :=
  JS.includes name "upper body" || JS.includes name "strength" ||
  JS.includes name "core".

Definition normalizeSport (a : Activity) : jsval :=
  let label := JS.str_or (sport_label a) (sport a) in
  match label with
  | Some (String c l) => VStr (String c l)
  | _ =>
      let t := JS.trim (JS.or_empty (type a)) in
      let name := JS.toLowerCase (JS.or_empty (name a)) in
      let dist := num_or0 (distance_m a) in
      match JS.get String.eqb t sport_table with
      | Some v => VStr v
      | None =>
          if inherited t then VInherited t
          else if String.eqb t "Workout" || JS.falsy t then
            if Qltb 1000 dist then
              if virtual_name name then VStr "Cycling (Virtual)"
              else VStr "Cycling"
            else if strength_name name then VStr "Strength"
            else VStr "Workout"
          else VStr t
      end
  end.

End Sport.

(** ** Sport normalisation as the specification words it *)

Module SportSpec.

(** the canonical mapping in the order the specification lists it *)
Definition table : JS.map string string :=
  [ ("Run", "Running"); ("TrailRun", "Running");
    ("Ride", "Cycling");
    ("VirtualRide", "Cycling (Virtual)"); ("IndoorCycling", "Cycling (Virtual)");
    ("WeightTraining", "Strength"); ("StrengthTraining", "Strength");
    ("Walk", "Walking"); ("Hike", "Hiking"); ("Swim", "Swimming");
    ("Rowing", "Rowing"); ("Crossfit", "CrossFit"); ("Yoga", "Yoga");
    ("Elliptical", "Elliptical"); ("StairStepper", "Stair Stepper");
    ("NordicSki", "Skiing"); ("AlpineSki", "Skiing");
    ("Snowboard", "Snowboard") ].

Definition normalized (a : Activity) : string :=
  let t := JS.or_empty (type a) in
  let name := JS.toLowerCase (JS.or_empty (name a)) in
  match JS.get String.eqb t table with
  | Some v => v
  | None =>
      if String.eqb t "" || String.eqb t "Workout" then
        if Sport.Qltb 1000 (Sport.num_or0 (distance_m a)) && Sport.virtual_name name
        then "Cycling (Virtual)"
        else if Sport.strength_name name then "Strength"
        else "Workout"
      else t
  end.

End SportSpec.

Definition activity (ty nm : string) (dist : Q) : Activity :=
  {| sport_label := None; sport := None; type := Some ty; name := Some nm;
     distance_m := Some dist; start_time := None; date := None;
     kcal := None; duration_sec := None |}.

Definition no_label (a : Activity) : bool :=
  match JS.str_or (sport_label a) (sport a) with
  | Some (String _ _) => false
  | _ => true
  end.

Definition labelled_ride : Activity :=
  {| sport_label := Some "Gravel"; sport := None; type := Some "Ride";
     name := Some "Evening loop"; distance_m := Some (30000 # 1)%Q;
     start_time := None; date := None; kcal := None; duration_sec := None |}.

(** ** Client-side summary (ui/activities.js [aggregateClientSide]) *)

Module Summary.

(** A value stored in [by_sport]: a number, or the string that [+] builds
    once its left operand is not a number (the text itself is not kept). *)
Inductive cell :=
| CNum (z : Z)
| CStr.

(** A day of the summary.  [by_sport] is a plain object, kept as its own
    properties in the order they were created; [by_sport_text], the line
    rendered from it once the days are sorted, is left out. *)
Record Day := {
  day_date : string;
  training_kcal : Z;
  planned_kcal : Z;
  by_sport : JS.map string cell
}.

Record Acc := {
  daysMap : JS.map string Day;
  sportMap : JS.map jsval Z;
  actCount : nat;
  totalK : Z
}.

Record Result := {
  total_training_kcal : Z;
  total_planned_kcal : Z;
  activity_count : nat;
  totals_by_sport : list (jsval * Z);
  days : list Day
}.

Definition jsval_eqb (a b : jsval) : bool :=
  match a, b with
  | VStr x, VStr y => String.eqb x y
  | VInherited x, VInherited y => String.eqb x y
  | _, _ => false
  end.

(** how an inherited member reads as a property key: the prototype object
    itself for [__proto__], a native function otherwise (rendered as V8 and
    JavaScriptCore do) *)
Definition native_text (member : string) : string :=
  if String.eqb member "__proto__" then "[object Object]"
  else ("function " ++
        (if String.eqb member "constructor" then "Object" else member) ++
        "() { [native code] }")%string.

Definition prop_key (s : jsval) : string :=
  match s with
  | VStr k => k
  | VInherited m => native_text m
  end.

(** [fmt.dateISO(a.start_time || a.date || new Date())]; [today] is
    [new Date().toISOString().slice(0, 10)]. *)
Definition activity_date (today : string) (a : Activity) : string :=
  match JS.str_or (start_time a) (date a) with
  | Some (String c s) => JS.slice10 (String c s)
  | _ => today
  end.

(** [const within = (dISO) => (dISO >= fromISO && dISO <= toISO)] *)
Definition within (fromISO toISO dISO : string) : bool :=
  JS.ge dISO fromISO && JS.le dISO toISO.

(** [d.by_sport[sport] = (d.by_sport[sport] || 0) + kcal] on a plain object:
    the read falls back on the inherited member, and a write of a primitive
    to [__proto__] is dropped. *)
Definition bump_by_sport (o : JS.map string cell) (key : string) (kcal : Z)
  : JS.map string cell :=
  match JS.get String.eqb key o with
  | Some (CNum n) => JS.set String.eqb key (CNum (n + kcal)) o
  | Some CStr => JS.set String.eqb key CStr o
  | None =>
      if Sport.inherited key then
        if String.eqb key "__proto__" then o
        else JS.set String.eqb key CStr o
      else JS.set String.eqb key (CNum (0 + kcal)) o
  end.

Definition fresh_day (date : string) : Day :=
  {| day_date := date; training_kcal := 0; planned_kcal := 0; by_sport := [] |}.

(** the body of [items.forEach(a => ...)].  The kcal are integers once
    rounded, and are added here as integers: these are the script's sums
    as long as they stay within 2^53 in magnitude, where the additions of
    binary64 are exact; the statements that read the sums keep within
    it. *)
Definition step (today fromISO toISO : string) (acc : Acc) (a : Activity) : Acc :=
  let date := activity_date today a in
  if negb (within fromISO toISO date) then acc
  else
    let kcal := Sport.Math_round (Sport.num_or0 (kcal a)) in
    let sport := Sport.normalizeSport a in
    let d := match JS.get String.eqb date (daysMap acc) with
             | Some d => d
             | None => fresh_day date
             end in
    let d' := {| day_date := day_date d;
                 training_kcal := training_kcal d + kcal;
                 planned_kcal := planned_kcal d;
                 by_sport := bump_by_sport (by_sport d) (prop_key sport) kcal |} in
    {| daysMap := JS.set String.eqb date d' (daysMap acc);
       sportMap :=
         JS.set jsval_eqb sport
           (match JS.get jsval_eqb sport (sportMap acc) with
            | Some n => n
            | None => 0
            end + kcal)%Z
           (sportMap acc);
       actCount := actCount acc + 1;
       totalK := totalK acc + kcal |}.

Definition init : Acc :=
  {| daysMap := []; sportMap := []; actCount := 0; totalK := 0 |}.

(** [Array.prototype.sort(cmp)], as a stable insertion sort.  The standard
    leaves the algorithm to the engine; on elements that [cmp] orders
    consistently every engine returns the same array. *)
Fixpoint insert_by {A} (cmp : A -> A -> Z) (x : A) (l : list A) : list A :=
  match l with
  | [] => [x]
  | y :: r => if (cmp x y <=? 0)%Z then x :: l else y :: insert_by cmp x r
  end.

Definition sort_by {A} (cmp : A -> A -> Z) (l : list A) : list A :=
  fold_right (insert_by cmp) [] l.

(** [(a, b) => (a.date < b.date ? -1 : 1)] *)
Definition date_cmp (a b : Day) : Z :=
  if JS.lt (day_date a) (day_date b) then (-1)%Z else 1%Z.

Definition aggregateClientSide
    (today : string) (items : list Activity) (fromISO toISO : string) : Result :=
  let acc := fold_left (step today fromISO toISO) items init in
  {| total_training_kcal := totalK acc;
     total_planned_kcal := 0;
     activity_count := actCount acc;
     totals_by_sport := sportMap acc;
     days := sort_by date_cmp (JS.values (daysMap acc)) |}.

(** sum of the numeric entries of a [by_sport] object, when all are numbers *)
Fixpoint by_sport_sum (o : JS.map string cell) : option Z :=
  match o with
  | [] => Some 0%Z
  | (_, CNum n) :: r =>
      match by_sport_sum r with
      | Some s => Some (n + s)%Z
      | None => None
      end
  | (_, CStr) :: _ => None
  end.

Definition sumZ (l : list Z) : Z := fold_right Z.add 0%Z l.

Definition in_range (today fromISO toISO : string) (a : Activity) : bool :=
  within fromISO toISO (activity_date today a).

End Summary.

(** the order of two records by a string key *)
Definition key_lt {A : Type} (key : A -> string) (x y : A) : Prop :=
  JS.lt (key x) (key y) = true.

(** ** Summary page (ui/summary.js [groupByDateAndSport], [renderTable]) *)

Module SummaryPage.

Record DayRec := {
  bySport : JS.map string Q;
  trainKcal : Q;
  plannedKcal : Q
}.

Definition inRange (dateISO fromISO toISO : string) : bool :=
  JS.ge dateISO fromISO && JS.le dateISO toISO.

(** [typeof a.kcal === 'number' ? a.kcal
     : Math.round((a.duration_sec || 0) / 60 * 7)] *)
Definition kcalForActivity (a : Activity) : Q :=
  match kcal a with
  | Some k => k
  | None =>
      inject_Z (Sport.Math_round (Sport.num_or0 (duration_sec a) / 60 * 7)%Q)
  end.

(** [(it.type || it.sport || 'Workout').toString()] *)
Definition sport_of (it : Activity) : string :=
  match JS.str_or (type it) (sport it) with
  | Some (String c s) => String c s
  | _ => "Workout"
  end.

Definition fresh_rec : DayRec :=
  {| bySport := []; trainKcal := 0%Q; plannedKcal := 0%Q |}.

(** the body of the loop of [groupByDateAndSport].  The kcal are added
    as exact rationals, which the script's binary64 sums are only where
    its additions do not round; the statements below read the days and
    their order, not these sums. *)
Definition step (today fromISO toISO : string)
    (days : JS.map string DayRec) (it : Activity) : JS.map string DayRec :=
  let d := Summary.activity_date today it in
  if negb (inRange d fromISO toISO) then days
  else
    let sport := sport_of it in
    let kc := kcalForActivity it in
    let rec := match JS.get String.eqb d days with
               | Some r => r
               | None => fresh_rec
               end in
    let rec' :=
      {| bySport :=
           JS.set String.eqb sport
             (match JS.get String.eqb sport (bySport rec) with
              | Some n => n
              | None => 0%Q
              end + kc)%Q
             (bySport rec);
         trainKcal := (trainKcal rec + kc)%Q;
         plannedKcal := plannedKcal rec |} in
    JS.set String.eqb d rec' days.

Definition groupByDateAndSport
    (today : string) (items : list Activity) (fromISO toISO : string)
  : JS.map string DayRec :=
  fold_left (step today fromISO toISO) items [].

(** the comparison of [sort()] without a comparator, on strings *)
Definition default_cmp (a b : string) : Z :=
  if JS.lt a b then (-1)%Z else if JS.lt b a then 1%Z else 0%Z.

(** [renderTable]: the rows, [Array.from(daysMap.keys()).sort()] *)
Definition table_days (daysMap : JS.map string DayRec) : list string :=
  Summary.sort_by default_cmp (JS.keys daysMap).

(** [load]: the count handed to [renderKPIs] *)
Definition activityCount
    (today : string) (items : list Activity) (fromISO toISO : string) : nat :=
  List.length
    (filter (fun a => inRange (Summary.activity_date today a) fromISO toISO) items).

End SummaryPage.

(** the three activities of the range example *)
Definition run_on (day : string) (k : Q) : Activity :=
  {| sport_label := None; sport := None; type := Some "Run"; name := None;
     distance_m := None; start_time := Some day; date := None;
     kcal := Some k; duration_sec := None |}.

Definition january_items : list Activity :=
  [ run_on "2024-01-15T07:30:00Z" (300 # 1)%Q;
    run_on "2024-01-01T18:00:00Z" (250 # 1)%Q;
    run_on "2024-02-01T06:45:00Z" (410 # 1)%Q ].

(** an activity whose sport label is the name of an inherited member *)
Definition labelled_on (label day : string) (k : Q) : Activity :=
  {| sport_label := Some label; sport := None; type := Some "Workout";
     name := None; distance_m := None; start_time := Some day; date := None;
     kcal := Some k; duration_sec := None |}.

(** ** The fetch wrapper (ui/app.js [fetchJSON]) *)

Module Http.

(** A parsed JSON value.  Numbers are kept as integers, rendered in
    decimal as JavaScript does for magnitudes below 10^21. *)
#[warnings="-register-all"]
Inductive json :=
| JNull
| JBool (b : bool)
| JNum (z : Z)
| JStr (s : string)
| JArr (items : list json)
| JObj (fields : list (string * json)).

(** What the script sees of a response.  [json_body] is what [res.json()]
    resolves to ([None]: it rejects, the body does not parse); [text_body]
    likewise for [res.text()]. *)
Record Response := {
  status : nat;
  statusText : string;
  contentType : option string;
  json_body : option json;
  text_body : option string
}.

(** [location]: where the page is, and the assignments made to
    [location.href] so far. *)
Record Location := {
  pathname : string;
  search : string;
  assigned : list string
}.

Inductive value :=
| Data (j : json)
| Text (s : string).

Inductive outcome :=
| Returned (v : value)
| Thrown (message : string).

(** [res.ok] *)
Definition ok (res : Response) : bool :=
  (200 <=? status res) && (status res <=? 299).

Definition truthy (j : json) : bool :=
  match j with
  | JNull => false
  | JBool b => b
  | JNum z => negb (z =? 0)%Z
  | JStr s => negb (JS.falsy s)
  | JArr _ => true
  | JObj _ => true
  end.

(** [String(v)], as [new Error(v)] renders its message *)
Fixpoint toString (j : json) : string :=
  match j with
  | JNull => "null"
  | JBool true => "true"
  | JBool false => "false"
  | JNum z => NilEmpty.string_of_int (Z.to_int z)
  | JStr s => s
  | JArr items =>
      JS.join ","
        (List.map (fun e => match e with JNull => "" | _ => toString e end) items)
  | JObj _ => "[object Object]"
  end.

(** [data.key]: [None] is [undefined] *)
Definition prop (data : json) (key : string) : option json :=
  match data with
  | JObj fields => JS.get String.eqb key fields
  | _ => None
  end.

(** [a || b] *)
Definition or_else (a b : option json) : option json :=
  match a with
  | Some j => if truthy j then a else b
  | None => b
  end.

(** [const detail = data && (data.detail || data.message)] *)
Definition detail_of (data : json) : option json :=
  if truthy data then or_else (prop data "detail") (prop data "message")
  else Some data.

(** [`${res.status} ${res.statusText}`] *)
Definition status_line (res : Response) : string :=
  (JS.dec (status res) ++ " " ++ statusText res)%string.

(** [new Error(x || line).message] *)
Definition message_or (x : option json) (line : string) : string :=
  match x with
  | Some j => if truthy j then toString j else line
  | None => line
  end.

Definition hex_digit (n : nat) : ascii :=
  if n <? 10 then ascii_of_nat (48 + n) else ascii_of_nat (55 + n).

Definition percent (byte : nat) : string :=
  String "%" (String (hex_digit (byte / 16)) (String (hex_digit (byte mod 16)) "")).

(** the characters [encodeURIComponent] leaves alone:
    letters, digits and - _ . ! ~ * ' ( ) *)
Definition unreserved (n : nat) : bool :=
  ((65 <=? n) && (n <=? 90)) || ((97 <=? n) && (n <=? 122)) ||
  ((48 <=? n) && (n <=? 57)) ||
  existsb (Nat.eqb n) [45; 95; 46; 33; 126; 42; 39; 40; 41].

(** [encodeURIComponent] on Latin-1 text: other code units are written as
    the percent-escaped bytes of their UTF-8 form *)
Fixpoint encodeURIComponent (s : string) : string :=
  match s with
  | "" => ""
  | String c r =>
      let n := nat_of_ascii c in
      let escaped :=
        if unreserved n then String c ""
        else if n <? 128 then percent n
        else String.append (percent (192 + n / 64)) (percent (128 + n mod 64)) in
      String.append escaped (encodeURIComponent r)
  end.

Definition login_url (loc : Location) : string :=
  ("/ui/login.html?return=" ++
   encodeURIComponent (pathname loc ++ search loc))%string.

(** [fetchJSON] from the point where [fetch] has resolved to [res] *)
Definition fetchJSON (loc : Location) (res : Response) : outcome * Location :=
  if status res =? 401 then
    (Thrown "Unauthorized",
     {| pathname := pathname loc; search := search loc;
        assigned := assigned loc ++ [login_url loc] |})
  else
    let ct := JS.or_empty (contentType res) in
    if JS.includes ct "application/json" then
      let data := match json_body res with Some j => j | None => JNull end in
      if negb (ok res)
      then (Thrown (message_or (detail_of data) (status_line res)), loc)
      else (Returned (Data data), loc)
    else
      let txt := match text_body res with Some t => t | None => "" end in
      if negb (ok res)
      then (Thrown (if JS.falsy txt then status_line res else txt), loc)
      else (Returned (Text txt), loc).

End Http.




(** ** The week loader (ui/plan-week.js and ui/plan.js [loadWeek])

    The page fields and messages are those of ui/plan-week.js, which awaits
    the seven days together.  ui/plan.js awaits them one after another and
    touches the page at the same two points only, so one [Settle] event
    stands for its seven awaits as well. *)

Module Week.

(** What a load brings back: the plans of the seven days, where
    [fetchJSON] may have returned [null] (here [None]) for a day whose
    body did not parse, or the error that [catch] receives when a request
    fails. *)
Inductive settled :=
| Loaded (plans : list (option DayPlan))
| Failed (message : string).

(** the text of the error alert.  What it shows for the TypeError that
    the engine raises when the script reads [plan.date] of a [null] plan
    is the message of that error, which differs between engines; it has a
    name of its own. *)
Inductive alert :=
| Message (text : string)
| NullPlanError.

(** [for (const p of plans) renderDayCard(grid, p)]: the cards appended
    to the grid, and whether the loop came to its end.  [renderDayCard]
    appends its card as its last step, and throws before that on a plan
    that is [null]. *)
Fixpoint render_cards (plans : list (option DayPlan)) : list DayPlan * bool :=
  match plans with
  | [] => ([], true)
  | Some plan :: rest =>
      let (cards, done) := render_cards rest in (plan :: cards, done)
  | None :: _ => ([], false)
  end.

(** The page between two turns of the event loop.  [grid] holds the day
    cards by the plan each was rendered from; [weekPlans] is
    [window.__glyco_weekPlans]; [in_flight] lists the loads that are waiting
    for their responses, oldest first, each with the number of its trigger
    and the start date it asked for.  The numbers only name the loads: the
    scripts keep no such token. *)
Record Page := {
  week_start : string;
  grid : list DayPlan;
  weekPlans : option (list DayPlan);
  alert_ok : option string;
  alert_err : option alert;
  in_flight : list (nat * string);
  triggered : nat
}.

Inductive event :=
| Edit (start : string)                 (* the user changes the start date *)
| Click                                 (* load or regenerate *)
| Settle (load : nat) (r : settled).    (* a load's responses are all in *)

Definition is_pending (load : nat) (p : Page) : bool :=
  existsb (fun l => Nat.eqb (fst l) load) (in_flight p).

Definition drop_pending (load : nat) (p : Page) : list (nat * string) :=
  filter (fun l => negb (Nat.eqb (fst l) load)) (in_flight p).

(** [loadWeek] up to its [await]: clear the alerts, refuse an empty start
    date, else empty the grid and send the requests. *)
Definition loadWeek_begin (p : Page) : Page :=
  if JS.falsy (week_start p) then
    {| week_start := week_start p; grid := grid p; weekPlans := weekPlans p;
       alert_ok := None; alert_err := Some (Message "Pick a start date.");
       in_flight := in_flight p; triggered := triggered p |}
  else
    {| week_start := week_start p; grid := []; weekPlans := weekPlans p;
       alert_ok := None; alert_err := None;
       in_flight := in_flight p ++ [(triggered p, week_start p)];
       triggered := triggered p + 1 |}.

(** [loadWeek] after its [await]: render the plans into the grid one by
    one and store them, or show the error of the request that failed;
    when a plan is [null] the cards before it stay in the grid, nothing
    is stored and the error of the engine is shown. *)
Definition loadWeek_resume (load : nat) (r : settled) (p : Page) : Page :=
  match r with
  | Loaded plans =>
      let (cards, done) := render_cards plans in
      if done then
        {| week_start := week_start p; grid := grid p ++ cards;
           weekPlans := Some cards;
           alert_ok := Some "Week loaded."; alert_err := alert_err p;
           in_flight := drop_pending load p; triggered := triggered p |}
      else
        {| week_start := week_start p; grid := grid p ++ cards;
           weekPlans := weekPlans p;
           alert_ok := alert_ok p; alert_err := Some NullPlanError;
           in_flight := drop_pending load p; triggered := triggered p |}
  | Failed message =>
      {| week_start := week_start p; grid := grid p; weekPlans := weekPlans p;
         alert_ok := alert_ok p;
         alert_err := Some (Message (if JS.falsy message
                                     then "Failed to load week."
                                     else message));
         in_flight := drop_pending load p; triggered := triggered p |}
  end.

(** one turn of the event loop; [None] when the event cannot happen *)
Definition step (p : Page) (e : event) : option Page :=
  match e with
  | Edit start =>
      Some {| week_start := start; grid := grid p; weekPlans := weekPlans p;
              alert_ok := alert_ok p; alert_err := alert_err p;
              in_flight := in_flight p; triggered := triggered p |}
  | Click => Some (loadWeek_begin p)
  | Settle load r =>
      if is_pending load p then Some (loadWeek_resume load r p) else None
  end.

Fixpoint run (p : Page) (trace : list event) : option Page :=
  match trace with
  | [] => Some p
  | e :: rest =>
      match step p e with
      | Some p' => run p' rest
      | None => None
      end
  end.

Definition fresh (start : string) : Page :=
  {| week_start := start; grid := []; weekPlans := None;
     alert_ok := None; alert_err := None; in_flight := []; triggered := 0 |}.

(** the load triggered last, if any *)
Definition latest (p : Page) : option nat :=
  match triggered p with
  | 0 => None
  | S n => Some n
  end.

End Week.

(** two weeks, a day each for short, and the overlapping schedule: the week
    of 1 January is asked for, then the week of 8 January; the second
    answer arrives first. *)
Definition week_a : list DayPlan :=
  [ {| plan_date := "2024-01-01"; meals := None; grocery_list := Some [Some "Eggs"] |} ].

Definition week_b : list DayPlan :=
  [ {| plan_date := "2024-01-08"; meals := None; grocery_list := Some [Some "Milk"] |} ].

Definition overlapping_loads : list Week.event :=
  [ Week.Click; Week.Edit "2024-01-08"; Week.Click;
    Week.Settle 1 (Week.Loaded (List.map Some week_b));
    Week.Settle 0 (Week.Loaded (List.map Some week_a)) ].

(** no load is triggered while another is in flight *)
Fixpoint no_overlap (p : Week.Page) (trace : list Week.event) : bool :=
  match trace with
  | [] => true
  | e :: rest =>
      match e with
      | Week.Click => match Week.in_flight p with [] => true | _ => false end
      | _ => true
      end &&
      match Week.step p e with
      | Some p' => no_overlap p' rest
      | None => true
      end
  end.

(** at most the latest load is in flight, and the grid is empty meanwhile *)
Definition one_in_flight (p : Week.Page) : Prop :=
  Week.in_flight p = [] \/
  exists n s, Week.in_flight p = [(n, s)] /\ Week.triggered p = S n /\
              Week.grid p = [].

Definition sequential_loads : list Week.event :=
  [ Week.Click; Week.Settle 0 (Week.Loaded (List.map Some week_a));
    Week.Edit "2024-01-08"; Week.Click ].

(** ** Unit helpers (ui/app.js [Unit], ui/profile.js [Unit]) *)

(** What the helpers are handed and hand back: [undefined], [null], a
    binary64 number ([NaN] included) or the empty string. *)
Inductive value :=
| Undefined
| Null
| Num (x : float)
| Empty.

Module Float64.

Definition EPSILON : float := 0x1p-52%float.
Definition two52 : float := 0x1p52%float.

(** [ToNumber] *)
Definition ToNumber (v : value) : float :=
  match v with
  | Undefined => PrimFloat.nan
  | Null => 0%float
  | Num x => x
  | Empty => 0%float
  end.

(** [v == null] *)
Definition nullish (v : value) : bool :=
  match v with
  | Undefined | Null => true
  | _ => false
  end.

(** the global [isNaN] *)
Definition isNaN (v : value) : bool := PrimFloat.is_nan (ToNumber v).

(** [Math.round]: the closest integer, a tie going towards +infinity;
    the sign of a zero result is that of the argument. *)
Definition round (x : float) : float :=
  if PrimFloat.is_nan x || PrimFloat.is_infinity x then x
  else
    let a := PrimFloat.abs x in
    if PrimFloat.leb two52 a then x
    else
      let t := PrimFloat.sub (PrimFloat.add a two52) two52 in
      let fl := if PrimFloat.ltb a t then PrimFloat.sub t 1%float else t in
      let frac := PrimFloat.sub a fl in
      if PrimFloat.get_sign x then
        PrimFloat.opp
          (if PrimFloat.ltb 0.5%float frac then PrimFloat.add fl 1%float else fl)
      else
        if PrimFloat.leb 0.5%float frac then PrimFloat.add fl 1%float else fl.

End Float64.

(** ui/app.js *)
Module AppUnit.

Definition kgToLb (kg : value) : value :=
  if negb (Float64.nullish kg)
  then Num (PrimFloat.mul (Float64.ToNumber kg) 2.2046226218%float)
  else Null.

Definition lbToKg (lb : value) : value :=
  if negb (Float64.nullish lb)
  then Num (PrimFloat.div (Float64.ToNumber lb) 2.2046226218%float)
  else Null.

Definition cmToIn (cm : value) : value :=
  if negb (Float64.nullish cm)
  then Num (PrimFloat.div (Float64.ToNumber cm) 2.54%float)
  else Null.

Definition inToCm (inch : value) : value :=
  if negb (Float64.nullish inch)
  then Num (PrimFloat.mul (Float64.ToNumber inch) 2.54%float)
  else Null.

(** [n => Math.round((n + Number.EPSILON) * 10) / 10] *)
Definition round1 (n : value) : value :=
  Num (PrimFloat.div
         (Float64.round
            (PrimFloat.mul
               (PrimFloat.add (Float64.ToNumber n) Float64.EPSILON) 10%float))
         10%float).

(** [n => Math.round(n)] *)
Definition round0 (n : value) : value :=
  Num (Float64.round (Float64.ToNumber n)).

End AppUnit.

(** ui/profile.js *)
Module ProfileUnit.

Definition unknown (v : value) : bool :=
  Float64.nullish v || Float64.isNaN v.

Definition kgToLb (kg : value) : value :=
  if unknown kg then Null
  else Num (PrimFloat.mul (Float64.ToNumber kg) 2.2046226218%float).

Definition lbToKg (lb : value) : value :=
  if unknown lb then Null
  else Num (PrimFloat.div (Float64.ToNumber lb) 2.2046226218%float).

Definition cmToIn (cm : value) : value :=
  if unknown cm then Null
  else Num (PrimFloat.div (Float64.ToNumber cm) 2.54%float).

Definition inToCm (inch : value) : value :=
  if unknown inch then Null
  else Num (PrimFloat.mul (Float64.ToNumber inch) 2.54%float).

(** [n => (n == null || isNaN(n) ? '' : Math.round(n * 10) / 10)] *)
Definition round1 (n : value) : value :=
  if unknown n then Empty
  else Num (PrimFloat.div
              (Float64.round (PrimFloat.mul (Float64.ToNumber n) 10%float))
              10%float).

End ProfileUnit.

(** an input that is missing, or not a number *)
Definition missing_or_NaN (v : value) : bool :=
  match v with
  | Undefined | Null => true
  | Num x => PrimFloat.is_nan x
  | Empty => false
  end.

(** an explicit no-value result: [null] or the empty string *)
Definition no_value (v : value) : bool :=
  match v with
  | Null | Empty => true
  | _ => false
  end.

(** every character of [s] is white space *)
Fixpoint all_ws (s : string) : bool :=
  match s with
  | "" => true
  | String c r => JS.is_ws c && all_ws r
  end.

Definition first_char (s : string) : option ascii :=
  match s with
  | "" => None
  | String c _ => Some c
  end.

Fixpoint last_char (s : string) : option ascii :=
  match s with
  | "" => None
  | String c "" => Some c
  | String _ r => last_char r
  end.

Definition is_ws_opt (c : option ascii) : bool :=
  match c with
  | Some x => JS.is_ws x
  | None => false
  end.

(** a plan with its grocery list, or its meals, replaced *)
Definition with_grocery_list (g : option (list (option string))) (p : DayPlan)
  : DayPlan :=
  {| plan_date := plan_date p; meals := meals p; grocery_list := g |}.

Definition with_meals (ms : option (list Meal)) (p : DayPlan) : DayPlan :=
  {| plan_date := plan_date p; meals := ms; grocery_list := grocery_list p |}.

(** ** Week boundaries (ui/plan-week.js [mondayUTC], [weekDates];
       ui/plan.js [startOfWeekUTC], [datesOfWeek])

    A [Date] is kept as the number of its UTC day, counted from 1970-01-01
    (a Thursday); [None] is an invalid Date.  The operations of the
    language on dates are those of ECMA-262, on whole days. *)

Module JSDate.
Local Open Scope Z_scope.

Definition DayFromYear (y : Z) : Z :=
  365 * (y - 1970) + (y - 1969) / 4 - (y - 1901) / 100 + (y - 1601) / 400.

(** the largest year that begins on or before the day *)
Definition YearFromTime (d : Z) : Z :=
  let y := 1970 + (d * 400) / 146097 in
  if d <? DayFromYear y then y - 1
  else if DayFromYear (y + 1) <=? d then y + 1
  else y.

Definition DaysInYear (y : Z) : Z :=
  if y mod 400 =? 0 then 366
  else if y mod 100 =? 0 then 365
  else if y mod 4 =? 0 then 366
  else 365.

Definition InLeapYear (y : Z) : Z := if DaysInYear y =? 366 then 1 else 0.

Definition DayWithinYear (d : Z) : Z := d - DayFromYear (YearFromTime d).

Definition MonthFromTime (d : Z) : Z :=
  let w := DayWithinYear d in
  let L := InLeapYear (YearFromTime d) in
  if w <? 31 then 0
  else if w <? 59 + L then 1
  else if w <? 90 + L then 2
  else if w <? 120 + L then 3
  else if w <? 151 + L then 4
  else if w <? 181 + L then 5
  else if w <? 212 + L then 6
  else if w <? 243 + L then 7
  else if w <? 273 + L then 8
  else if w <? 304 + L then 9
  else if w <? 334 + L then 10
  else 11.

(** the days of the year before the first of a month *)
Definition days_before (month L : Z) : Z :=
  match month with
  | 0 => 0
  | 1 => 31
  | 2 => 59 + L
  | 3 => 90 + L
  | 4 => 120 + L
  | 5 => 151 + L
  | 6 => 181 + L
  | 7 => 212 + L
  | 8 => 243 + L
  | 9 => 273 + L
  | 10 => 304 + L
  | _ => 334 + L
  end.

Definition DateFromTime (d : Z) : Z :=
  DayWithinYear d
  - days_before (MonthFromTime d) (InLeapYear (YearFromTime d)) + 1.

Definition WeekDay (d : Z) : Z := (d + 4) mod 7.

Definition MakeDay (year month date : Z) : Z :=
  let ym := year + month / 12 in
  let mn := month mod 12 in
  DayFromYear ym + days_before mn (InLeapYear ym) + date - 1.

(** the years 0 to 99 are read as 1900 to 1999 *)
Definition MakeFullYear (year : Z) : Z :=
  if (0 <=? year) && (year <=? 99) then 1900 + year else year.

(** a Date holds at most 100 000 000 days either side of 1970-01-01 *)
Definition TimeClip (d : Z) : option Z :=
  if Z.abs d <=? 100000000 then Some d else None.

(** [Date.UTC(year, month, date)] *)
Definition UTC (year month date : Z) : option Z :=
  TimeClip (MakeDay (MakeFullYear year) month date).

(** [t.setUTCDate(date)] *)
Definition setUTCDate (t date : Z) : option Z :=
  TimeClip (MakeDay (YearFromTime t) (MonthFromTime t) date).

(** a non-negative integer in [width] decimal digits at least *)
Definition padded (width : nat) (n : Z) : string :=
  let digits := JS.dec (Z.to_nat n) in
  String.append
    (string_of_list_ascii
       (List.repeat "0"%char (width - String.length digits)%nat))
    digits.

(** the date part of [toISOString()] on a valid Date: the year in four
    digits from 0 to 9999, with a sign and in six digits otherwise *)
Definition toISOString_date (d : Z) : string :=
  let y := YearFromTime d in
  let year :=
    if (0 <=? y) && (y <=? 9999) then padded 4 y
    else String.append (if y <? 0 then "-"%string else "+"%string)
                       (padded 6 (Z.abs y)) in
  (year ++ "-" ++ padded 2 (MonthFromTime d + 1) ++ "-" ++
   padded 2 (DateFromTime d))%string.

End JSDate.

Module WeekDates.
Local Open Scope Z_scope.

(** [mondayUTC(d)], [startOfWeekUTC(d)] for a valid Date [d] *)
Definition mondayUTC (d : Z) : option Z :=
  match JSDate.UTC (JSDate.YearFromTime d) (JSDate.MonthFromTime d)
                   (JSDate.DateFromTime d) with
  | None => None
  | Some dt =>
      let dow := JSDate.WeekDay dt in
      let offset := Z.rem (dow + 6) 7 in
      JSDate.setUTCDate dt (JSDate.DateFromTime dt - offset)
  end.

(** [fmt.dateISO(d)] on a valid Date: [d.toISOString().slice(0, 10)] *)
Definition dateISO (d : Z) : string := JS.slice10 (JSDate.toISOString_date d).

(** the loop of [weekDates]; [None] is the RangeError that [fmt.dateISO]
    lets [toISOString] throw on an invalid Date *)
Fixpoint dates_from (startUtc : Z) (steps : list Z) : option (list string) :=
  match steps with
  | [] => Some []
  | i :: rest =>
      match JSDate.setUTCDate startUtc (JSDate.DateFromTime startUtc + i) with
      | None => None
      | Some d => option_map (cons (dateISO d)) (dates_from startUtc rest)
      end
  end.

(** [weekDates(startUtc)], [datesOfWeek(s)] for a valid Date *)
Definition weekDates (startUtc : Z) : option (list string) :=
  dates_from startUtc [0; 1; 2; 3; 4; 5; 6].

End WeekDates.

(** ** A reader for the CSV export

    The header line, then for every record a newline, a quoted field (doubled
    quotes read as one), a comma and a decimal count.  [fuel] bounds the
    number of records. *)

Module CsvReader.

Definition is_digit (c : ascii) : bool :=
  let n := nat_of_ascii c in (48 <=? n) && (n <=? 57).

Fixpoint read_digits (s : string) : string * string :=
  match s with
  | "" => ("", "")
  | String c r =>
      if is_digit c then
        let (ds, rest) := read_digits r in (String c ds, rest)
      else ("", s)
  end.

Definition read_count (s : string) : option (nat * string) :=
  let (ds, rest) := read_digits s in
  match ds with
  | "" => None
  | _ =>
      match NilEmpty.uint_of_string ds with
      | Some u => Some (Nat.of_uint u, rest)
      | None => None
      end
  end.

Fixpoint read_rows (fuel : nat) (s : string) : option (list (string * nat)) :=
  match s with
  | "" => Some []
  | String c r =>
      if negb (Ascii.eqb c "010"%char) then None
      else
        match fuel with
        | 0 => None
        | S fuel' =>
            match GroceryExport.read_quoted r with
            | Some (k, String comma rest) =>
                if Ascii.eqb comma ","%char then
                  match read_count rest with
                  | Some (n, rest') =>
                      match read_rows fuel' rest' with
                      | Some rows => Some ((k, n) :: rows)
                      | None => None
                      end
                  | None => None
                  end
                else None
            | _ => None
            end
        end
  end.

Fixpoint strip_prefix (p s : string) : option string :=
  match p, s with
  | "", _ => Some s
  | String a p', String b s' =>
      if Ascii.eqb a b then strip_prefix p' s' else None
  | _, "" => None
  end.

Definition read_csv (s : string) : option (list (string * nat)) :=
  match strip_prefix "item,count" s with
  | Some rest => read_rows (String.length s) rest
  | None => None
  end.

Fixpoint all_digits (s : string) : bool :=
  match s with
  | "" => true
  | String c r => is_digit c && all_digits r
  end.

Definition stops_digits (rest : string) : bool :=
  match rest with
  | "" => true
  | String c _ => negb (is_digit c)
  end.

End CsvReader.

(** the records of the CSV export, each behind its newline *)
Fixpoint rows_text (m : JS.map string nat) : string :=
  match m with
  | [] => ""
  | e :: r => (JS.NL ++ GroceryExport.csv_row e ++ rows_text r)%string
  end.

(** [counts.get(key) || 0] *)
Definition count_of (k : string) (m : JS.map string nat) : nat :=
  match JS.get String.eqb k m with
  | Some n => n
  | None => 0
  end.

(** [Math.round(Number(a.kcal || 0))] *)
Definition rounded_kcal (a : Activity) : Z :=
  Sport.Math_round (Sport.num_or0 (kcal a)).

(** the counted activities that fall on one date *)
Definition on_date (today fromISO toISO day : string) (items : list Activity)
  : list Activity :=
  filter (fun a => Summary.in_range today fromISO toISO a &&
                   String.eqb (Summary.activity_date today a) day) items.

Definition empty_result : Summary.Result :=
  {| Summary.total_training_kcal := 0; Summary.total_planned_kcal := 0;
     Summary.activity_count := 0; Summary.totals_by_sport := [];
     Summary.days := [] |}.

(** ** Token helpers and API wrapper of the module build (web/app.js) *)

Module WebApp.

(** [Storage]: [getItem] gives [None] for [null]. *)
Definition Storage : Type := JS.map string string.

Definition getItem (k : string) (s : Storage) : option string :=
  JS.get String.eqb k s.

Definition setItem (k v : string) (s : Storage) : Storage :=
  JS.set String.eqb k v s.

Definition removeItem (k : string) (s : Storage) : Storage :=
  filter (fun e => negb (String.eqb (fst e) k)) s.

(** [window.ACCESS] (a string once set), the two storages, where the page
    is, and the targets handed to [location.replace]. *)
Record Browser := {
  ACCESS : option string;
  localStorage : Storage;
  sessionStorage : Storage;
  pathname : string;
  search : string;
  replaced : list string
}.

Definition with_access (a : option string) (b : Browser) : Browser :=
  {| ACCESS := a; localStorage := localStorage b;
     sessionStorage := sessionStorage b; pathname := pathname b;
     search := search b; replaced := replaced b |}.

(** the chain of [||] over the eight slots of [getToken] *)
Definition stored (b : Browser) : option string :=
  JS.str_or (getItem "ACCESS" (localStorage b))
  (JS.str_or (getItem "ACCESS" (sessionStorage b))
  (JS.str_or (getItem "access_token" (localStorage b))
  (JS.str_or (getItem "access_token" (sessionStorage b))
  (JS.str_or (getItem "TOKEN" (localStorage b))
  (JS.str_or (getItem "TOKEN" (sessionStorage b))
  (JS.str_or (getItem "token" (localStorage b))
             (getItem "token" (sessionStorage b)))))))).

Definition getToken (b : Browser) : string * Browser :=
  match ACCESS b with
  | Some (String c a) => (String c a, b)
  | _ =>
      match stored b with
      | Some (String c t) => (String c t, with_access (Some (String c t)) b)
      | _ => ("", b)
      end
  end.

Definition setToken (t : string) (b : Browser) : Browser :=
  {| ACCESS := Some t;
     localStorage := setItem "ACCESS" t (localStorage b);
     sessionStorage := setItem "ACCESS" t (sessionStorage b);
     pathname := pathname b; search := search b; replaced := replaced b |}.

Definition token_keys : list string := ["ACCESS"; "access_token"; "TOKEN"; "token"].

Definition clearToken (b : Browser) : Browser :=
  fold_left
    (fun acc k =>
       {| ACCESS := ACCESS acc;
          localStorage := removeItem k (localStorage acc);
          sessionStorage := removeItem k (sessionStorage acc);
          pathname := pathname acc; search := search acc;
          replaced := replaced acc |})
    token_keys (with_access (Some "") b).

(** a page load: the storages stay, [window.ACCESS] is gone *)
Definition reload (b : Browser) : Browser := with_access None b.

Inductive outcome (A : Type) :=
| Returned (v : A)
| Thrown (message : string)
| Rejected.                (* [r.json()] or [r.text()] rejected *)

Arguments Returned {A} v.
Arguments Thrown {A} message.
Arguments Rejected {A}.

Definition login_target (returnUrl : string) : string :=
  ("/ui/login.html?return=" ++ Http.encodeURIComponent returnUrl)%string.

(** [ensureAuthOrRedirect(returnUrl)] *)
Definition ensureAuthOrRedirect (returnUrl : string) (b : Browser)
  : outcome string * Browser :=
  let (t, b1) := getToken b in
  if negb (JS.falsy t) then (Returned t, b1)
  else
    let target :=
      login_target (if JS.falsy returnUrl
                    then (pathname b1 ++ search b1)%string else returnUrl) in
    (Thrown ("Auth required; redirecting to " ++ target)%string,
     {| ACCESS := ACCESS b1; localStorage := localStorage b1;
        sessionStorage := sessionStorage b1; pathname := pathname b1;
        search := search b1; replaced := replaced b1 ++ [target] |}).

(** [isJson ? await r.json() : await r.text()]; [None]: the promise rejects *)
Definition read_body (res : Http.Response) : option Http.value :=
  if JS.includes (JS.or_empty (Http.contentType res)) "application/json"
  then option_map Http.Data (Http.json_body res)
  else option_map Http.Text (Http.text_body res).

(** [api(path, opts)] from the point where [fetch] has resolved to [res],
    with the browser as it is then; [stringify] is [JSON.stringify]. *)
Definition api (stringify : Http.json -> string)
    (b : Browser) (res : Http.Response) : outcome Http.value * Browser :=
  match read_body res with
  | None => (Rejected, b)
  | Some data =>
      if negb (Http.ok res) then
        let failed :=
          Thrown (match data with
                  | Http.Data j => stringify j
                  | Http.Text t => t
                  end) in
        if Http.status res =? 401 then
          match ensureAuthOrRedirect (pathname b ++ search b)%string b with
          | (Returned _, b1) => (failed, b1)
          | (Thrown m, b1) => (Thrown m, b1)
          | (Rejected, b1) => (Rejected, b1)
          end
        else (failed, b)
      else (Returned data, b)
  end.

End WebApp.





(** ** The way back from the login page (ui/login.js [getReturnPath]) *)

(** What the browser does between the assignment of [location.href] and
    [searchParams.get]: the query of the URL parser and the parser of
    [URLSearchParams], both as the URL Standard gives them, on Latin-1
    text. *)
Module Url.

Definition is_char (n : nat) (c : ascii) : bool := Nat.eqb (nat_of_ascii c) n.

(** remove every tab, line feed and carriage return *)
Fixpoint strip_tab_newline (s : string) : string :=
  match s with
  | "" => ""
  | String c r =>
      if is_char 9 c || is_char 10 c || is_char 13 c
      then strip_tab_newline r
      else String c (strip_tab_newline r)
  end.

Definition c0_or_space (c : ascii) : bool := nat_of_ascii c <=? 32.

Fixpoint drop_leading (s : string) : string :=
  match s with
  | "" => ""
  | String c r => if c0_or_space c then drop_leading r else s
  end.

Fixpoint drop_trailing (s : string) : string :=
  match s with
  | "" => ""
  | String c r =>
      match drop_trailing r with
      | "" => if c0_or_space c then "" else String c ""
      | r' => String c r'
      end
  end.

(** the text before the first [stop] *)
Fixpoint before (stop : nat) (s : string) : string :=
  match s with
  | "" => ""
  | String c r => if is_char stop c then "" else String c (before stop r)
  end.

(** the text after the first [stop]; [None]: there is none *)
Fixpoint after (stop : nat) (s : string) : option string :=
  match s with
  | "" => None
  | String c r => if is_char stop c then Some r else after stop r
  end.

(** the special-query percent-encode set: the C0 controls, what lies
    above the tilde, and space, double quote, hash, less-than,
    greater-than and the apostrophe *)
Definition special_query_set (n : nat) : bool :=
  (n <=? 32) || (126 <? n) || existsb (Nat.eqb n) [34; 35; 60; 62; 39].

(** the bytes of the UTF-8 form of a Latin-1 code unit *)
Definition utf8_bytes (c : ascii) : list nat :=
  let n := nat_of_ascii c in
  if n <? 128 then [n] else [192 + n / 64; 128 + n mod 64].

Fixpoint query_encode (s : string) : string :=
  match s with
  | "" => ""
  | String c r =>
      String.append
        (if special_query_set (nat_of_ascii c)
         then String.concat "" (List.map Http.percent (utf8_bytes c))
         else String c "")
        (query_encode r)
  end.

(** The query the parser keeps for [href], a reference that begins with
    a path; [None]: the reference has no question mark before its
    fragment. *)
Definition query_of (href : string) : option string :=
  let input := strip_tab_newline (drop_trailing (drop_leading href)) in
  option_map query_encode (after 63 (before 35 input)).

Definition hex_value (c : ascii) : option nat :=
  let n := nat_of_ascii c in
  if (48 <=? n) && (n <=? 57) then Some (n - 48)
  else if (65 <=? n) && (n <=? 70) then Some (n - 55)
  else if (97 <=? n) && (n <=? 102) then Some (n - 87)
  else None.

(** percent-decode of a byte sequence *)
Fixpoint percent_decode (s : string) : string :=
  match s with
  | "" => ""
  | String c r =>
      if is_char 37 c then
        match r with
        | String h (String l r') =>
            match hex_value h, hex_value l with
            | Some x, Some y => String (ascii_of_nat (16 * x + y)) (percent_decode r')
            | _, _ => String c (percent_decode r)
            end
        | _ => String c (percent_decode r)
        end
      else String c (percent_decode r)
  end.

(** UTF-8 encode *)
Fixpoint utf8_encode (s : string) : string :=
  match s with
  | "" => ""
  | String c r =>
      String.append
        (string_of_list_ascii (List.map ascii_of_nat (utf8_bytes c)))
        (utf8_encode r)
  end.

(** UTF-8 decode, where the text it gives stays within Latin-1; [None]:
    it does not (a code point above 255, or U+FFFD for a byte sequence
    that is not UTF-8). *)
Fixpoint utf8_decode (s : string) : option string :=
  match s with
  | "" => Some ""
  | String c r =>
      let n := nat_of_ascii c in
      if n <? 128 then option_map (String c) (utf8_decode r)
      else if (194 <=? n) && (n <=? 195) then
        match r with
        | String c' r' =>
            let m := nat_of_ascii c' in
            if (128 <=? m) && (m <=? 191)
            then option_map (String (ascii_of_nat ((n - 192) * 64 + (m - 128))))
                            (utf8_decode r')
            else None
        | "" => None
        end
      else None
  end.

Fixpoint plus_to_space (s : string) : string :=
  match s with
  | "" => ""
  | String c r =>
      String (if is_char 43 c then " "%char else c) (plus_to_space r)
  end.

(** split on the ampersand *)
Fixpoint sequences (s : string) : list string :=
  match s with
  | "" => [""]
  | String c r =>
      if is_char 38 c then "" :: sequences r
      else match sequences r with
           | first :: others => String c first :: others
           | [] => [String c ""]
           end
  end.

Definition decode (bytes : string) : option string :=
  utf8_decode (percent_decode (plus_to_space bytes)).

(** name and value of one sequence *)
Definition tuple (bytes : string) : option string * option string :=
  match after 61 bytes with
  | Some value => (decode (before 61 bytes), decode value)
  | None => (decode bytes, Some "")
  end.

(** the list of [URLSearchParams] for a query *)
Definition parse (query : string) : list (option string * option string) :=
  List.map tuple
    (filter (fun b => negb (JS.falsy b)) (sequences (utf8_encode query))).

(** [searchParams.get(name)]: [None] is [null], [Some None] a value that
    leaves Latin-1 *)
Definition searchParams_get (name : string) (query : option string)
  : option (option string) :=
  match query with
  | None => None
  | Some q =>
      match find (fun t => match fst t with
                           | Some n => String.eqb n name
                           | None => false
                           end) (parse q) with
      | Some t => Some (snd t)
      | None => None
      end
  end.

End Url.

Module Login.

(** [ret.startsWith('/')] *)
Definition startsWith_slash (s : string) : bool :=
  match s with
  | String c _ => Url.is_char 47 c
  | "" => false
  end.

(** [getReturnPath()] on the login page reached through [href]; [None]
    where the value of the parameter leaves Latin-1. *)
Definition getReturnPath (href : string) : option string :=
  match Url.searchParams_get "return" (Url.query_of href) with
  | None => Some "/ui/plan.html"
  | Some None => None
  | Some (Some ret) =>
      Some (if negb (JS.falsy ret) && startsWith_slash ret
            then ret else "/ui/plan.html")
  end.

End Login.

(** a character below 128 that is no ampersand, plus sign, hash, control
    or space *)
Definition quiet_char (c : ascii) : bool :=
  let n := nat_of_ascii c in
  (32 <? n) && (n <? 128) &&
  negb (Nat.eqb n 35) && negb (Nat.eqb n 38) && negb (Nat.eqb n 43).

Fixpoint quiet_text (s : string) : bool :=
  match s with
  | "" => true
  | String c r => quiet_char c && quiet_text r
  end.

(** what the query of the URL holds for one character of the page's
    address *)
Definition escaped_in_query (c : ascii) : string :=
  Url.query_encode (Http.encodeURIComponent (String c "")).

(** ** The login form (ui/login.js [handleFormSubmit]) *)

Module LoginForm.

(** the text of the message box; one literal ends in a character outside
    Latin-1 and has a name of its own *)
Inductive text :=
| Literal (s : string)
| SigningIn.

(** The form between two turns of the event loop: the flag of the
    handler's closure, the submit button, the message box with its class,
    the calls of [doLogin] so far with how many of them still wait for
    their answer, and the timers set for the redirect. *)
Record Form := {
  inFlight : bool;
  disabled : bool;
  msg : option (text * string);
  sent : list (string * string);
  awaiting : nat;
  timers : nat
}.

Inductive event :=
| Submit (email password : option string)  (* the values of the two fields,
                                              [None] where the field is missing *)
| Settle (error : option string).          (* [doLogin] returned, or threw an
                                              error with this message *)

(** the submit handler up to its [await] *)
Definition submit (email password : option string) (f : Form) : Form :=
  if inFlight f then f
  else
    let email := option_map JS.trim email in
    let password := JS.or_empty password in
    if JS.falsy (JS.or_empty email) || JS.falsy password then
      {| inFlight := false; disabled := disabled f;
         msg := Some (Literal "Please enter both email and password.", "error");
         sent := sent f; awaiting := awaiting f; timers := timers f |}
    else
      {| inFlight := true; disabled := true;
         msg := Some (SigningIn, "notice");
         sent := sent f ++ [(JS.or_empty email, password)];
         awaiting := awaiting f + 1; timers := timers f |}.

(** the submit handler after its [await] *)
Definition settle (error : option string) (f : Form) : Form :=
  match error with
  | None =>
      {| inFlight := false; disabled := false; msg := msg f;
         sent := sent f; awaiting := awaiting f - 1; timers := timers f + 1 |}
  | Some message =>
      {| inFlight := false; disabled := false;
         msg := Some (Literal (if JS.falsy message then "Login failed"
                               else message), "error");
         sent := sent f; awaiting := awaiting f - 1; timers := timers f |}
  end.

(** one turn of the event loop; [None] when the event cannot happen *)
Definition step (f : Form) (e : event) : option Form :=
  match e with
  | Submit email password => Some (submit email password f)
  | Settle error =>
      if awaiting f =? 0 then None else Some (settle error f)
  end.

Fixpoint run (f : Form) (trace : list event) : option Form :=
  match trace with
  | [] => Some f
  | e :: rest =>
      match step f e with
      | Some f' => run f' rest
      | None => None
      end
  end.

Definition fresh : Form :=
  {| inFlight := false; disabled := false; msg := None;
     sent := []; awaiting := 0; timers := 0 |}.

Definition is_settle (e : event) : bool :=
  match e with Settle _ => true | Submit _ _ => false end.

End LoginForm.

(** the form is submitted three times in a row, the third time after the
    server refused the first *)
Definition impatient_login : list LoginForm.event :=
  [ LoginForm.Submit (Some " ann@example.org ") (Some "secret");
    LoginForm.Submit (Some "ann@example.org") (Some "secret");
    LoginForm.Settle (Some "Invalid credentials");
    LoginForm.Submit (Some "ann@example.org") (Some "Secret") ].

(** what holds of the form after [settles] answers *)
Definition form_ok (settles : nat) (f : LoginForm.Form) : Prop :=
  LoginForm.awaiting f <= 1 /\
  LoginForm.inFlight f = (LoginForm.awaiting f =? 1) /\
  LoginForm.disabled f = LoginForm.inFlight f /\
  List.length (LoginForm.sent f) = settles + LoginForm.awaiting f /\
  Forall (fun c => fst c <> "" /\ JS.trim (fst c) = fst c /\ snd c <> "")
         (LoginForm.sent f).

(** ** Paging of the activities page (module build) *)

(** Page numbers, page size and totals are counts; the script only adds,
    multiplies and compares them, which is exact on such numbers. *)

Module ActivitiesPage.

Definition pageSize : nat := 25.

(** what [renderTable] writes below the table *)
Inductive meta :=
| Showing (first last total : nat)
| NoActivities.

(** [page] and [lastTotal] of the script, what the page shows, and the
    pages asked of the server so far *)
Record Pager := {
  page : nat;
  lastTotal : nat;
  metaEl : option meta;
  pageBadge : option nat;
  prev_disabled : bool;
  next_disabled : bool;
  requested : list nat
}.

Inductive event :=
| Filter                                   (* the filter or the clear button *)
| Prev
| Next
| Render (total : option nat) (items : nat).  (* a load's payload arrives: its
                                                 [total] and how many items *)

(** [load()] up to its [await]: the query carries the current page *)
Definition load (p : Pager) : Pager :=
  {| page := page p; lastTotal := lastTotal p; metaEl := metaEl p;
     pageBadge := pageBadge p; prev_disabled := prev_disabled p;
     next_disabled := next_disabled p; requested := requested p ++ [page p] |}.

Definition with_page (n : nat) (p : Pager) : Pager :=
  {| page := n; lastTotal := lastTotal p; metaEl := metaEl p;
     pageBadge := pageBadge p; prev_disabled := prev_disabled p;
     next_disabled := next_disabled p; requested := requested p |}.

(** [payload.total || items.length] *)
Definition total_of (total : option nat) (items : nat) : nat :=
  match total with
  | Some (S n) => S n
  | _ => items
  end.

(** the part of [renderTable] that sets the paging *)
Definition renderTable (total : option nat) (items : nat) (p : Pager) : Pager :=
  let lastTotal := total_of total items in
  let start := (page p - 1) * pageSize + 1 in
  let last := Nat.min (page p * pageSize) lastTotal in
  {| page := page p; lastTotal := lastTotal;
     metaEl := Some (if lastTotal =? 0 then NoActivities
                     else Showing start last lastTotal);
     pageBadge := Some (page p);
     prev_disabled := page p <=? 1;
     next_disabled := lastTotal <=? page p * pageSize;
     requested := requested p |}.

Definition step (p : Pager) (e : event) : Pager :=
  match e with
  | Filter => load (with_page 1 p)
  | Prev => if 1 <? page p then load (with_page (page p - 1) p) else p
  | Next =>
      if page p * pageSize <? lastTotal p
      then load (with_page (page p + 1) p) else p
  | Render total items => renderTable total items p
  end.

Definition run (p : Pager) (trace : list event) : Pager :=
  fold_left step trace p.

(** the page once it has opened with a token stored *)
Definition opened : Pager :=
  load {| page := 1; lastTotal := 0; metaEl := None; pageBadge := None;
          prev_disabled := false; next_disabled := false; requested := [] |}.

End ActivitiesPage.

(** every payload of the trace counts [T] activities *)
Definition counts (T : nat) (e : ActivitiesPage.event) : bool :=
  match e with
  | ActivitiesPage.Render total items =>
      Nat.eqb (ActivitiesPage.total_of total items) T
  | _ => true
  end.

(** page [n] holds at least one of [T] activities, or is the first *)
Definition page_exists (T n : nat) : Prop :=
  n = 1 \/ (1 <= n /\ (n - 1) * ActivitiesPage.pageSize < T).

Definition meta_ok (T : nat) (m : option ActivitiesPage.meta) : Prop :=
  match m with
  | Some (ActivitiesPage.Showing first last total) =>
      total = T /\ 1 <= first /\ first <= last /\ last <= T /\
      last < first + ActivitiesPage.pageSize
  | Some ActivitiesPage.NoActivities => T = 0
  | None => True
  end.

Definition pager_ok (T : nat) (p : ActivitiesPage.Pager) : Prop :=
  page_exists T (ActivitiesPage.page p) /\
  (ActivitiesPage.lastTotal p = 0 \/ ActivitiesPage.lastTotal p = T) /\
  Forall (page_exists T) (ActivitiesPage.requested p) /\
  meta_ok T (ActivitiesPage.metaEl p).

(** sixty activities: three pages; the user pages forward four times *)
Definition paging_forward : list ActivitiesPage.event :=
  [ ActivitiesPage.Render (Some 60) 25;
    ActivitiesPage.Next; ActivitiesPage.Render (Some 60) 25;
    ActivitiesPage.Next; ActivitiesPage.Render (Some 60) 10;
    ActivitiesPage.Next; ActivitiesPage.Next ].

(** a number that is NaN *)
Definition NaN_number (v : value) : bool :=
  match v with
  | Num x => PrimFloat.is_nan x
  | _ => false
  end.

(** The sums stay exact: the magnitudes of the rounded kcal of the counted
    activities add up to at most 2^53.  Every sum that the script forms of
    them is then an integer that binary64 holds, so that none of its
    additions rounds. *)
Definition sums_exact (today fromISO toISO : string) (items : list Activity)
  : Prop :=
  (Summary.sumZ
     (List.map (fun a => Z.abs (rounded_kcal a))
        (filter (Summary.in_range today fromISO toISO) items)) <= 2 ^ 53)%Z.

(** * Properties *)

(** ** [trim] removes exactly the white space at both ends *)

Section Trim.

Lemma str_app_nil_r (s : string) : (s ++ "")%string = s.
Proof. induction s as [|c s IH]; simpl; [reflexivity | now rewrite IH]. Qed.

Lemma trimStart_split (s : string) :
  exists pre : string,
    s = (pre ++ JS.trimStart s)%string /\ all_ws pre = true /\
    is_ws_opt (first_char (JS.trimStart s)) = false.
Proof.
  induction s as [|c s [pre [Heq [Hws Hfirst]]]]; simpl.
  - exists "". repeat split.
  - destruct (JS.is_ws c) eqn:E.
    + exists (String c pre). simpl. rewrite E, Hws. repeat split; [|assumption].
      now rewrite <- Heq.
    + exists "". simpl. repeat split. exact E.
Qed.

Lemma trimEnd_split (s : string) :
  exists post : string,
    s = (JS.trimEnd s ++ post)%string /\ all_ws post = true /\
    is_ws_opt (last_char (JS.trimEnd s)) = false.
Proof.
  induction s as [|c s [post [Heq [Hws Hlast]]]]; simpl.
  - exists "". repeat split.
  - destruct (JS.trimEnd s) as [|c' r'] eqn:E.
    + simpl in Heq. subst s. destruct (JS.is_ws c) eqn:Ec.
      * exists (String c post). simpl. rewrite Ec, Hws. repeat split.
      * exists post. simpl. rewrite Ec. repeat split. assumption.
    + exists post. split; [|split; [assumption|]].
      * simpl. simpl in Heq. now rewrite <- Heq.
      * exact Hlast.
Qed.

Lemma trimEnd_first_char (s : string) :
  is_ws_opt (first_char s) = false ->
  is_ws_opt (first_char (JS.trimEnd s)) = false.
Proof.
  destruct s as [|c r]; simpl; [reflexivity|]. intros Hc.
  destruct (JS.trimEnd r); [|exact Hc].
  rewrite Hc. exact Hc.
Qed.

Lemma trim_split (s : string) :
  exists pre post : string,
    s = (pre ++ JS.trim s ++ post)%string /\
    all_ws pre = true /\ all_ws post = true /\
    is_ws_opt (first_char (JS.trim s)) = false /\
    is_ws_opt (last_char (JS.trim s)) = false.
Proof.
  destruct (trimStart_split s) as [pre [Hs [Hpre Hfirst]]].
  destruct (trimEnd_split (JS.trimStart s)) as [post [He [Hpost Hlast]]].
  exists pre, post. unfold JS.trim.
  split; [now rewrite <- He|].
  split; [assumption|]. split; [assumption|].
  split; [now apply trimEnd_first_char | assumption].
Qed.

End Trim.

Section FirstSeen.
Import GrocerySpec.

Lemma existsb_eqb_In (k : string) (xs : list string) :
  existsb (String.eqb k) xs = true <-> In k xs.
Proof.
  rewrite existsb_exists. split.
  - intros [x [Hin Heq]]. apply String.eqb_eq in Heq. now subst.
  - intros Hin. exists k. split; [assumption | apply String.eqb_refl].
Qed.

Lemma first_seen_In (xs : list string) (k : string) :
  In k (first_seen xs) <-> In k xs.
Proof.
  induction xs as [|x r IH]; simpl; [tauto|].
  rewrite filter_In, IH, negb_true_iff, String.eqb_neq.
  destruct (string_dec x k); [subst; tauto|].
  split; intros [H|H]; try tauto. right. split; [assumption | congruence].
Qed.

Lemma first_seen_NoDup (xs : list string) : NoDup (first_seen xs).
Proof.
  induction xs as [|x r IH]; simpl; constructor.
  - rewrite filter_In, String.eqb_refl. simpl. intros [_ H]. discriminate.
  - now apply NoDup_filter.
Qed.

Lemma first_seen_snoc (xs : list string) (k : string) :
  first_seen (xs ++ [k]) =
  if existsb (String.eqb k) xs then first_seen xs else first_seen xs ++ [k].
Proof.
  induction xs as [|x r IH]; simpl; [reflexivity|].
  rewrite IH. destruct (String.eqb_spec k x) as [->|Hne]; simpl.
  - destruct (existsb (String.eqb x) r); [reflexivity|].
    rewrite filter_app. simpl. rewrite String.eqb_refl. simpl.
    now rewrite app_nil_r.
  - destruct (existsb (String.eqb k) r); [reflexivity|].
    rewrite filter_app. simpl.
    apply String.eqb_neq in Hne. rewrite Hne. reflexivity.
Qed.

Lemma existsb_first_seen (xs : list string) (k : string) :
  existsb (String.eqb k) (first_seen xs) = existsb (String.eqb k) xs.
Proof.
  apply eq_true_iff_eq. now rewrite !existsb_eqb_In, first_seen_In.
Qed.

Lemma count_occ_snoc (xs : list string) (k k' : string) :
  count_occ string_dec (xs ++ [k]) k' =
  count_occ string_dec xs k' + (if string_dec k k' then 1 else 0).
Proof.
  rewrite count_occ_app. simpl. destruct (string_dec k k'); reflexivity.
Qed.

End FirstSeen.

Section MapFacts.

Lemma get_tabulate (f : string -> nat) (ks : list string) (k : string) :
  JS.get String.eqb k (List.map (fun x => (x, f x)) ks) =
  if existsb (String.eqb k) ks then Some (f k) else None.
Proof.
  induction ks as [|x r IH]; simpl; [reflexivity|].
  destruct (String.eqb_spec k x) as [->|]; simpl; [reflexivity | exact IH].
Qed.

Lemma set_tabulate (f g : string -> nat) (ks : list string) (k : string) (v : nat) :
  NoDup ks ->
  (forall k', k' <> k -> g k' = f k') ->
  g k = v ->
  JS.set String.eqb k v (List.map (fun x => (x, f x)) ks) =
  List.map (fun x => (x, g x))
           (if existsb (String.eqb k) ks then ks else ks ++ [k]).
Proof.
  intros Hnd Hfg Hv. induction ks as [|x r IH]; simpl.
  - now subst.
  - inversion Hnd as [|? ? Hnotin Hnd']; subst x0 l.
    destruct (String.eqb_spec k x) as [->|Hne]; simpl.
    + f_equal; [now rewrite Hv|].
      apply map_ext_in. intros a Ha. rewrite Hfg; [reflexivity|].
      intros ->. contradiction.
    + rewrite (IH Hnd').
      destruct (existsb (String.eqb k) r); simpl;
        rewrite Hfg by congruence; reflexivity.
Qed.

End MapFacts.

Section Tally.
Import GrocerySpec.

Lemma kept_app (a b : list (option string)) : kept (a ++ b) = kept a ++ kept b.
Proof. unfold kept. now rewrite map_app, filter_app. Qed.

Lemma kept_nonempty (raws : list (option string)) (k : string) :
  In k (kept raws) -> k <> "".
Proof.
  unfold kept. rewrite filter_In. intros [_ H] ->. discriminate.
Qed.

Lemma tally_counted (xs : list string) (raw : option string) :
  Grocery.tally (counted xs) raw = counted (xs ++ kept [raw]).
Proof.
  unfold Grocery.tally, kept. simpl.
  set (key := JS.trim (JS.or_empty raw)).
  destruct (JS.falsy key); simpl; [now rewrite app_nil_r|].
  unfold counted.
  rewrite get_tabulate, first_seen_snoc, existsb_first_seen.
  rewrite <- (existsb_first_seen xs key) at 2.
  apply set_tabulate.
  - apply first_seen_NoDup.
  - intros k' Hne. rewrite count_occ_snoc.
    destruct (string_dec key k'); [congruence | lia].
  - rewrite count_occ_snoc.
    destruct (string_dec key key); [|congruence].
    destruct (existsb (String.eqb key) xs) eqn:E; [reflexivity|].
    assert (Hn : ~ In key xs).
    { intros Hin. apply existsb_eqb_In in Hin. congruence. }
    apply (count_occ_not_In string_dec) in Hn. now rewrite Hn.
Qed.

Lemma tally_all_counted (raws : list (option string)) (xs : list string) :
  Grocery.tally_all (counted xs) raws = counted (xs ++ kept raws).
Proof.
  unfold Grocery.tally_all. revert xs.
  induction raws as [|r raws IH]; intros xs; simpl.
  - now rewrite app_nil_r.
  - rewrite tally_counted, IH, <- app_assoc, <- kept_app. reflexivity.
Qed.

Lemma tally_meals_counted (ms : list Meal) (xs : list string) :
  fold_left Grocery.tally_meal ms (counted xs) =
  counted (xs ++ kept (flat_map meal_strings ms)).
Proof.
  revert xs. induction ms as [|m ms IH]; intros xs; simpl.
  - now rewrite app_nil_r.
  - rewrite kept_app, app_assoc, <- IH. f_equal.
    unfold Grocery.tally_meal, meal_strings.
    destruct (ingredients m); [apply tally_all_counted|].
    now rewrite app_nil_r.
Qed.

Lemma aggregateIngredients_counted (plans : list DayPlan) :
  Grocery.aggregateIngredients (Some plans) =
  aggregated (flat_map plan_meal_strings plans).
Proof.
  unfold Grocery.aggregateIngredients, aggregated.
  change (@nil (string * nat)) with (counted []).
  change (kept (flat_map plan_meal_strings plans))
    with ([] ++ kept (flat_map plan_meal_strings plans)).
  generalize (@nil string) as xs.
  induction plans as [|p ps IH]; intros xs; simpl.
  - now rewrite app_nil_r.
  - rewrite kept_app, app_assoc, <- IH. f_equal.
    apply tally_meals_counted.
Qed.

Lemma combinedItems_counted (plans : list DayPlan) :
  Grocery.combinedItems (Some plans) =
  aggregated (flat_map plan_grocery_strings plans).
Proof.
  unfold Grocery.combinedItems, aggregated.
  change (@nil (string * nat)) with (counted []).
  change (kept (flat_map plan_grocery_strings plans))
    with ([] ++ kept (flat_map plan_grocery_strings plans)).
  generalize (@nil string) as xs.
  induction plans as [|p ps IH]; intros xs; simpl.
  - now rewrite app_nil_r.
  - rewrite kept_app, app_assoc, <- IH. f_equal.
    apply tally_all_counted.
Qed.

Lemma counted_entry (xs : list string) (k : string) (n : nat) :
  In (k, n) (counted xs) ->
  In k xs /\ n = count_occ string_dec xs k /\ 1 <= n.
Proof.
  unfold counted. rewrite in_map_iff. intros [x [Heq Hin]].
  inversion Heq; subst. rewrite first_seen_In in Hin.
  split; [assumption|]. split; [reflexivity|].
  now apply (count_occ_In string_dec).
Qed.

End Tally.

(** C1: [trim] takes white space, and nothing else, off both ends of a
    string.  Both aggregators (ui/plan-week.js [aggregateIngredients] over
    the per-meal ingredients, ui/plan.js [buildCombinedGrocery] over the
    grocery lists) return, for the strings they meet in encounter order, the
    trimmed non-empty strings with their numbers of occurrences, keys in
    first-seen order and compared case-sensitively; every key is non-empty,
    occurs once among the keys and has count at least 1; and
    ["Eggs"; "eggs "; "Eggs"; "Milk"] gives Eggs:2, eggs:1, Milk:1 in that
    order. *)
Theorem grocery_aggregation_first_seen_counts :
  (forall s : string,
      exists pre post : string,
        s = (pre ++ JS.trim s ++ post)%string /\
        all_ws pre = true /\ all_ws post = true /\
        is_ws_opt (first_char (JS.trim s)) = false /\
        is_ws_opt (last_char (JS.trim s)) = false) /\
  (forall raws : list (option string),
      Grocery.tally_all [] raws = GrocerySpec.aggregated raws) /\
  (forall plans : list DayPlan,
      Grocery.aggregateIngredients (Some plans) =
        GrocerySpec.aggregated (flat_map GrocerySpec.plan_meal_strings plans) /\
      Grocery.combinedItems (Some plans) =
        GrocerySpec.aggregated (flat_map GrocerySpec.plan_grocery_strings plans)) /\
  (forall (raws : list (option string)) (k : string) (n : nat),
      In (k, n) (GrocerySpec.aggregated raws) ->
      k <> "" /\ 1 <= n /\
      n = count_occ string_dec (GrocerySpec.kept raws) k) /\
  (forall raws : list (option string),
      NoDup (JS.keys (GrocerySpec.aggregated raws))) /\
  Grocery.aggregateIngredients
    (week_of_ingredients ["Eggs"; "eggs "; "Eggs"; "Milk"]) =
    [("Eggs", 2); ("eggs", 1); ("Milk", 1)] /\
  Grocery.combinedItems
    (week_of_grocery ["Eggs"; "eggs "; "Eggs"; "Milk"]) =
    [("Eggs", 2); ("eggs", 1); ("Milk", 1)].
Proof.
  split; [exact trim_split|].
  split; [|split; [|split; [|split; [|split]]]].
  - intros raws. apply (tally_all_counted raws []).
  - intros plans. split.
    + apply aggregateIngredients_counted.
    + apply combinedItems_counted.
  - intros raws k n Hin. apply counted_entry in Hin.
    destruct Hin as [Hk [Hn H1]]. split; [|split; assumption].
    now apply kept_nonempty with (raws := raws).
  - intros raws. unfold JS.keys, GrocerySpec.aggregated, GrocerySpec.counted.
    rewrite map_map. simpl. rewrite map_id. apply first_seen_NoDup.
  - reflexivity.
  - reflexivity.
Qed.

Section Exports.
Import GroceryExport.

Lemma str_app_assoc (a b c : string) :
  ((a ++ b) ++ c)%string = (a ++ (b ++ c))%string.
Proof. induction a as [|x a IH]; simpl; [reflexivity | now rewrite IH]. Qed.

Lemma push_entries_map (f : string * nat -> string) (m : JS.map string nat) (lines : list string) :
  push_entries f lines m = lines ++ List.map f m.
Proof.
  unfold push_entries. revert lines.
  induction m as [|e m IH]; intros lines; simpl.
  - now rewrite app_nil_r.
  - rewrite IH, <- app_assoc. reflexivity.
Qed.

Lemma no_newline_app (a b : string) :
  no_newline (a ++ b) = no_newline a && no_newline b.
Proof.
  induction a as [|c a IH]; simpl; [reflexivity|].
  now rewrite IH, andb_assoc.
Qed.

Lemma split_lines_single (a : string) :
  no_newline a = true -> split_lines a = [a].
Proof.
  induction a as [|c a IH]; simpl; [reflexivity|].
  intros H. apply andb_prop in H. destruct H as [Hc Ha].
  apply negb_true_iff in Hc. rewrite Hc, (IH Ha). reflexivity.
Qed.

Lemma split_lines_cons (a b : string) :
  no_newline a = true ->
  split_lines (a ++ String "010"%char b) = a :: split_lines b.
Proof.
  induction a as [|c a IH]; simpl; [reflexivity|].
  intros H. apply andb_prop in H. destruct H as [Hc Ha].
  apply negb_true_iff in Hc. rewrite Hc, (IH Ha). reflexivity.
Qed.

Lemma split_lines_join (ls : list string) :
  ls <> [] ->
  forallb no_newline ls = true ->
  split_lines (JS.join JS.NL ls) = ls.
Proof.
  unfold JS.join.
  induction ls as [|a ls IH]; [congruence|].
  intros _ H. simpl in H. apply andb_prop in H. destruct H as [Ha Hls].
  destruct ls as [|b ls].
  - simpl. now apply split_lines_single.
  - change (concat JS.NL (a :: b :: ls))
      with (a ++ String "010"%char (concat JS.NL (b :: ls)))%string.
    rewrite split_lines_cons by assumption.
    f_equal. apply IH; [discriminate | assumption].
Qed.

Lemma no_newline_uint (d : Decimal.uint) :
  no_newline (NilEmpty.string_of_uint d) = true.
Proof. induction d; simpl; auto. Qed.

Lemma no_newline_txt_line (k : string) (v : nat) :
  no_newline k = true -> no_newline (txt_line (k, v)) = true.
Proof.
  intros Hk. unfold txt_line.
  destruct (1 <? v); simpl; rewrite ?no_newline_app, Hk; simpl; [|reflexivity].
  apply no_newline_uint.
Qed.

Lemma double_quotes_app (a b : string) :
  double_quotes (a ++ b) = (double_quotes a ++ double_quotes b)%string.
Proof.
  induction a as [|c a IH]; simpl; [reflexivity|].
  rewrite IH. destruct (Ascii.eqb c "034"); reflexivity.
Qed.

Lemma read_quoted_double_quotes (k rest : string) :
  starts_with_quote rest = false ->
  read_quoted (JS.DQ ++ double_quotes k ++ JS.DQ ++ rest) = Some (k, rest).
Proof.
  intros Hrest. simpl.
  induction k as [|c k IH]; simpl.
  - destruct rest as [|c' r']; [reflexivity|].
    simpl in Hrest. rewrite Hrest. reflexivity.
  - destruct (Ascii.eqb c "034") eqn:E; simpl.
    + apply Ascii.eqb_eq in E. subst c. now rewrite IH.
    + rewrite E, IH. reflexivity.
Qed.

End Exports.

(** C5: the plain-text export is the per-item lines, in the list's insertion
    order, joined by single newlines; the line of an item is "- item" when
    its count is 1 and "- item  xN" (two spaces) when its count N exceeds 1;
    when no key holds a newline the text splits back into exactly one line
    per item; [exportTxt] and [buildCombinedGrocery] hand out this text; and
    Eggs:2, Milk:1 gives "- Eggs  x2", newline, "- Milk". *)
Theorem toText_one_line_per_item :
  (forall m : JS.map string nat,
      GroceryExport.toText m = JS.join JS.NL (List.map GroceryExport.txt_line m)) /\
  (forall k : string, GroceryExport.txt_line (k, 1) = ("- " ++ k)%string) /\
  (forall (k : string) (v : nat),
      1 < v ->
      GroceryExport.txt_line (k, v) = ("- " ++ k ++ "  x" ++ JS.dec v)%string) /\
  (forall m : JS.map string nat,
      m <> [] ->
      forallb no_newline (JS.keys m) = true ->
      split_lines (GroceryExport.toText m) = List.map GroceryExport.txt_line m) /\
  (forall plans : option (list DayPlan),
      GroceryExport.exportTxt plans =
        {| GroceryExport.filename := "grocery-week.txt";
           GroceryExport.text :=
             GroceryExport.toText (Grocery.aggregateIngredients plans) |} /\
      GroceryExport.buildCombinedGrocery plans "txt" =
        GroceryExport.toText (Grocery.combinedItems plans)) /\
  GroceryExport.toText [("Eggs", 2); ("Milk", 1)] =
    ("- Eggs  x2" ++ JS.NL ++ "- Milk")%string.
Proof.
  assert (Hmap : forall m : JS.map string nat,
             GroceryExport.toText m =
             JS.join JS.NL (List.map GroceryExport.txt_line m)).
  { intros m. unfold GroceryExport.toText.
    now rewrite push_entries_map. }
  split; [exact Hmap|].
  split; [reflexivity|].
  split.
  { intros k v Hv. unfold GroceryExport.txt_line.
    apply Nat.ltb_lt in Hv. now rewrite Hv. }
  split.
  { intros m Hne Hkeys. rewrite Hmap. apply split_lines_join.
    - destruct m; [congruence | discriminate].
    - unfold JS.keys in Hkeys. rewrite forallb_forall in *.
      intros line Hin. apply in_map_iff in Hin.
      destruct Hin as [[k v] [<- Hin]].
      apply no_newline_txt_line. apply Hkeys.
      apply in_map_iff. now exists (k, v). }
  split; [|reflexivity].
  intros plans. split; reflexivity.
Qed.

(** C6: the CSV export is the header line item,count followed by one row per
    item in insertion order, joined by newlines; a row is the item between
    double quotes with each of its double quotes doubled, a comma, and the
    count in decimal; reading the quoted field back returns the item; and
    the one-item list whose key is Item, space, quote, A, quote, with count
    1, gives the header, a newline, and the row made of a quote, Item, space,
    two quotes, A, three quotes, a comma and 1. *)
Theorem toCsv_header_and_quoted_rows :
  (forall m : JS.map string nat,
      GroceryExport.toCsv m =
      JS.join JS.NL ("item,count" :: List.map GroceryExport.csv_row m)) /\
  (forall (k : string) (v : nat),
      GroceryExport.csv_row (k, v) =
      (JS.DQ ++ GroceryExport.double_quotes k ++ JS.DQ ++ "," ++ JS.dec v)%string) /\
  (forall a b : string,
      GroceryExport.double_quotes (a ++ JS.DQ ++ b) =
      (GroceryExport.double_quotes a ++ JS.DQ ++ JS.DQ ++
       GroceryExport.double_quotes b)%string) /\
  (forall (k : string) (v : nat),
      GroceryExport.read_quoted (GroceryExport.csv_row (k, v)) =
      Some (k, ("," ++ JS.dec v)%string)) /\
  (forall plans : option (list DayPlan),
      GroceryExport.exportCsv plans =
        {| GroceryExport.filename := "grocery-week.csv";
           GroceryExport.text :=
             GroceryExport.toCsv (Grocery.aggregateIngredients plans) |} /\
      GroceryExport.buildCombinedGrocery plans "csv" =
        GroceryExport.toCsv (Grocery.combinedItems plans)) /\
  GroceryExport.toCsv [(("Item " ++ JS.DQ ++ "A" ++ JS.DQ)%string, 1)] =
    ("item,count" ++ JS.NL ++
     JS.DQ ++ "Item " ++ JS.DQ ++ JS.DQ ++ "A" ++ JS.DQ ++ JS.DQ ++ JS.DQ ++
     ",1")%string.
Proof.
  split.
  { intros m. unfold GroceryExport.toCsv. now rewrite push_entries_map. }
  split.
  { intros k v. unfold GroceryExport.csv_row.
    now rewrite !str_app_assoc. }
  split.
  { intros a b. rewrite double_quotes_app. reflexivity. }
  split.
  { intros k v. unfold GroceryExport.csv_row.
    rewrite !str_app_assoc.
    now apply read_quoted_double_quotes. }
  split; [|reflexivity].
  intros plans. split; reflexivity.
Qed.

Lemma flat_map_agree {A B : Type} (f g : A -> list B) (l : list A) :
  (forall a, In a l -> f a = g a) -> flat_map f l = flat_map g l.
Proof.
  induction l as [|a l IH]; simpl; intros H; [reflexivity|].
  rewrite (H a), IH by auto. reflexivity.
Qed.

(** C2, as stated, fails: with a grocery list (Milk) and a meal (Eggs) in one
    record, [aggregateIngredients] counts Eggs, not the grocery list; with no
    grocery list, [buildCombinedGrocery] counts nothing instead of falling
    back on the meal. *)
Lemma preferred_source_not_followed :
  (Grocery.aggregateIngredients (Some [plan_both]) = [("Eggs", 1)] /\
   Grocery.aggregateIngredients (Some [plan_both]) <>
     GrocerySpec.aggregated (flat_map GrocerySpec.preferred_strings [plan_both])) /\
  (Grocery.combinedItems (Some [plan_meals_only]) = [] /\
   Grocery.combinedItems (Some [plan_meals_only]) <>
     GrocerySpec.aggregated
       (flat_map GrocerySpec.preferred_strings [plan_meals_only])).
Proof. repeat split; try reflexivity; vm_compute; discriminate. Qed.

(** C2, amended: each aggregator has one source.  [aggregateIngredients]
    (ui/plan-week.js) folds the flattened per-meal ingredients of every
    record and never reads grocery_list; [buildCombinedGrocery] (ui/plan.js)
    folds grocery_list, an absent one counting as empty, and never reads the
    meals.  Each result is the trim-skip-count fold over the strings so
    selected, so the first agrees with the preferred selection when no record
    has a grocery list, the second when every record has one. *)
Theorem grocery_sources_one_per_aggregator (plans : list DayPlan) :
  (Grocery.aggregateIngredients (Some plans) =
     Grocery.tally_all [] (flat_map GrocerySpec.plan_meal_strings plans) /\
   Grocery.aggregateIngredients (Some plans) =
     GrocerySpec.aggregated (flat_map GrocerySpec.plan_meal_strings plans)) /\
  (Grocery.combinedItems (Some plans) =
     Grocery.tally_all [] (flat_map GrocerySpec.plan_grocery_strings plans) /\
   Grocery.combinedItems (Some plans) =
     GrocerySpec.aggregated (flat_map GrocerySpec.plan_grocery_strings plans)) /\
  (forall g : option (list (option string)),
      Grocery.aggregateIngredients (Some (List.map (with_grocery_list g) plans)) =
      Grocery.aggregateIngredients (Some plans)) /\
  (forall ms : option (list Meal),
      Grocery.combinedItems (Some (List.map (with_meals ms) plans)) =
      Grocery.combinedItems (Some plans)) /\
  ((forall p, In p plans -> grocery_list p = None) ->
   Grocery.aggregateIngredients (Some plans) =
     GrocerySpec.aggregated (flat_map GrocerySpec.preferred_strings plans)) /\
  ((forall p, In p plans -> grocery_list p <> None) ->
   Grocery.combinedItems (Some plans) =
     GrocerySpec.aggregated (flat_map GrocerySpec.preferred_strings plans)).
Proof.
  assert (Hfold : forall raws,
             Grocery.tally_all [] raws = GrocerySpec.aggregated raws).
  { intros raws. apply (tally_all_counted raws []). }
  assert (Hm := aggregateIngredients_counted plans).
  assert (Hg := combinedItems_counted plans).
  split; [split; [now rewrite Hfold | exact Hm]|].
  split; [split; [now rewrite Hfold | exact Hg]|].
  split; [|split; [|split]].
  - intros g. rewrite !aggregateIngredients_counted. f_equal.
    rewrite flat_map_concat_map, map_map, <- flat_map_concat_map.
    reflexivity.
  - intros ms. rewrite !combinedItems_counted. f_equal.
    rewrite flat_map_concat_map, map_map, <- flat_map_concat_map.
    reflexivity.
  - intros Hall. rewrite Hm. f_equal. apply flat_map_agree. intros p Hp.
    unfold GrocerySpec.preferred_strings. now rewrite (Hall p Hp).
  - intros Hall. rewrite Hg. f_equal. apply flat_map_agree. intros p Hp.
    unfold GrocerySpec.preferred_strings, GrocerySpec.plan_grocery_strings.
    specialize (Hall p Hp). destruct (grocery_list p); congruence.
Qed.

Section SportFacts.
Import Sport.

Lemma get_None_keys {V : Type} (k : string) (m : JS.map string V) :
  JS.get String.eqb k m = None <-> ~ In k (JS.keys m).
Proof.
  induction m as [|[k' v] m IH]; simpl; [tauto|].
  destruct (String.eqb_spec k k') as [->|Hne].
  - split; [discriminate | intros H; exfalso; apply H; now left].
  - rewrite IH. split; [intros H [E|I]; [congruence | tauto] | tauto].
Qed.

Lemma sport_table_lookup (t v : string) :
  In (t, v) sport_table -> JS.get String.eqb t sport_table = Some v.
Proof.
  unfold sport_table. simpl.
  intros H.
  repeat (destruct H as [H|H]; [inversion H; subst; reflexivity|]).
  contradiction.
Qed.

Lemma Qltb_lt (a b : Q) : Qltb a b = true <-> (a < b)%Q.
Proof.
  unfold Qltb. rewrite negb_true_iff.
  destruct (Qle_bool b a) eqn:E.
  - apply Qle_bool_iff in E. split; [discriminate|].
    intros H. exfalso. now apply (Qlt_not_le a b).
  - split; [intros _ | reflexivity].
    apply Qnot_le_lt. intros H. apply Qle_bool_iff in H. congruence.
Qed.

End SportFacts.

(** C3, as stated, fails: an unlabelled activity (empty type) of 5000 m
    named Morning Ride is classed Cycling, not Workout; and a sport label on
    the record wins over the type table. *)
Lemma normalizeSport_not_as_specified :
  (Sport.normalizeSport (activity "" "Morning Ride" (5000 # 1)) = VStr "Cycling" /\
   Sport.normalizeSport (activity "" "Morning Ride" (5000 # 1)) <>
     VStr (SportSpec.normalized (activity "" "Morning Ride" (5000 # 1)))) /\
  (Sport.normalizeSport labelled_ride = VStr "Gravel" /\
   Sport.normalizeSport labelled_ride <>
     VStr (SportSpec.normalized labelled_ride)).
Proof. repeat split; try reflexivity; vm_compute; discriminate. Qed.

(** C3, amended: a non-empty sport_label (else sport) is returned as it is.
    Otherwise, with t the trimmed type: a type of the table (the same
    eighteen pairs as the canonical mapping) gives its table value; an empty
    or Workout type gives, over 1000 m, Cycling (Virtual) when the
    lower-cased name contains zwift, trainerroad or virtual and Cycling when
    it does not, and, up to 1000 m, Strength when the lower-cased name
    contains upper body, strength or core and Workout when it does not; any
    other type that is not the name of an inherited object member is
    returned trimmed.  Type Ride gives Cycling; an empty type with 5000 m and
    name Zwift Ride gives Cycling (Virtual). *)
Theorem normalizeSport_by_cases :
  (forall (a : Activity) (l : string),
      JS.str_or (sport_label a) (sport a) = Some l -> l <> "" ->
      Sport.normalizeSport a = VStr l) /\
  (forall t v : string,
      In (t, v) SportSpec.table <-> In (t, v) Sport.sport_table) /\
  (forall a : Activity,
      no_label a = true ->
      let t := JS.trim (JS.or_empty (type a)) in
      let nm := JS.toLowerCase (JS.or_empty (name a)) in
      let dist := Sport.num_or0 (distance_m a) in
      (forall v : string,
          In (t, v) Sport.sport_table -> Sport.normalizeSport a = VStr v) /\
      (~ In t (JS.keys Sport.sport_table) ->
       Sport.inherited t = false -> t <> "" -> t <> "Workout" ->
       Sport.normalizeSport a = VStr t) /\
      (t = "" \/ t = "Workout" ->
       ((1000 < dist)%Q -> Sport.virtual_name nm = true ->
        Sport.normalizeSport a = VStr "Cycling (Virtual)") /\
       ((1000 < dist)%Q -> Sport.virtual_name nm = false ->
        Sport.normalizeSport a = VStr "Cycling") /\
       ((dist <= 1000)%Q -> Sport.strength_name nm = true ->
        Sport.normalizeSport a = VStr "Strength") /\
       ((dist <= 1000)%Q -> Sport.strength_name nm = false ->
        Sport.normalizeSport a = VStr "Workout"))) /\
  Sport.normalizeSport (activity "Ride" "Lunch Ride" (20000 # 1)) = VStr "Cycling" /\
  Sport.normalizeSport (activity "" "Zwift Ride" (5000 # 1)) =
    VStr "Cycling (Virtual)".
Proof.
  split.
  { intros a l Hl Hne. unfold Sport.normalizeSport. rewrite Hl.
    destruct l; [congruence | reflexivity]. }
  split.
  { intros t v. unfold SportSpec.table, Sport.sport_table. simpl. tauto. }
  split; [|split; reflexivity].
  intros a Hno t nm dist.
  assert (Hbody : Sport.normalizeSport a =
            match JS.get String.eqb t Sport.sport_table with
            | Some v => VStr v
            | None =>
                if Sport.inherited t then VInherited t
                else if String.eqb t "Workout" || JS.falsy t then
                  if Sport.Qltb 1000 dist then
                    if Sport.virtual_name nm then VStr "Cycling (Virtual)"
                    else VStr "Cycling"
                  else if Sport.strength_name nm then VStr "Strength"
                  else VStr "Workout"
                else VStr t
            end).
  { unfold Sport.normalizeSport, no_label in *.
    destruct (JS.str_or (sport_label a) (sport a)) as [[|c l]|];
      try discriminate; reflexivity. }
  split; [|split].
  - intros v Hin. rewrite Hbody, (sport_table_lookup t v Hin). reflexivity.
  - intros Hnot Hinh Hne Hw. rewrite Hbody.
    apply get_None_keys in Hnot. rewrite Hnot, Hinh.
    apply String.eqb_neq in Hw. rewrite Hw.
    destruct t; [congruence | reflexivity].
  - intros Ht.
    assert (Hsel : Sport.normalizeSport a =
              if Sport.Qltb 1000 dist then
                if Sport.virtual_name nm then VStr "Cycling (Virtual)"
                else VStr "Cycling"
              else if Sport.strength_name nm then VStr "Strength"
              else VStr "Workout").
    { rewrite Hbody. destruct Ht as [-> | ->]; reflexivity. }
    assert (Hle : (dist <= 1000)%Q -> Sport.Qltb 1000 dist = false).
    { intros H. destruct (Sport.Qltb 1000 dist) eqn:E; [|reflexivity].
      apply Qltb_lt in E. exfalso. now apply (Qlt_not_le 1000 dist). }
    repeat split; intros Hd Hn; rewrite Hsel.
    + apply Qltb_lt in Hd. now rewrite Hd, Hn.
    + apply Qltb_lt in Hd. now rewrite Hd, Hn.
    + now rewrite (Hle Hd), Hn.
    + now rewrite (Hle Hd), Hn.
Qed.

(** ** Code-unit order on strings *)

Section StringOrder.

Lemma ascii_compare_refl (c : ascii) : Ascii.compare c c = Eq.
Proof. unfold Ascii.compare. apply N.compare_refl. Qed.

Lemma ascii_compare_lt_trans (x y z : ascii) :
  Ascii.compare x y = Lt -> Ascii.compare y z = Lt -> Ascii.compare x z = Lt.
Proof.
  unfold Ascii.compare. rewrite !N.compare_lt_iff. apply N.lt_trans.
Qed.

Lemma string_compare_refl (s : string) : String.compare s s = Eq.
Proof.
  induction s as [|c s IH]; simpl; [reflexivity|].
  now rewrite ascii_compare_refl.
Qed.

Lemma string_compare_lt_trans (a b c : string) :
  String.compare a b = Lt -> String.compare b c = Lt -> String.compare a c = Lt.
Proof.
  revert b c. induction a as [|x a IH]; intros [|y b] [|z c]; simpl;
    try discriminate; try reflexivity.
  destruct (Ascii.compare x y) eqn:Exy; try discriminate;
    destruct (Ascii.compare y z) eqn:Eyz; try discriminate; intros Hab Hbc.
  - apply Ascii.compare_eq_iff in Exy, Eyz. subst.
    rewrite ascii_compare_refl. now apply IH with (b := b).
  - apply Ascii.compare_eq_iff in Exy. subst. now rewrite Eyz.
  - apply Ascii.compare_eq_iff in Eyz. subst. now rewrite Exy.
  - now rewrite (ascii_compare_lt_trans x y z).
Qed.

Lemma lt_irrefl (a : string) : JS.lt a a = false.
Proof. unfold JS.lt, String.ltb. now rewrite string_compare_refl. Qed.

Lemma lt_trans (a b c : string) :
  JS.lt a b = true -> JS.lt b c = true -> JS.lt a c = true.
Proof.
  unfold JS.lt, String.ltb. intros Hab Hbc.
  destruct (String.compare a b) eqn:E1; try discriminate.
  destruct (String.compare b c) eqn:E2; try discriminate.
  now rewrite (string_compare_lt_trans a b c).
Qed.

Lemma lt_total (a b : string) :
  a <> b -> JS.lt a b = false -> JS.lt b a = true.
Proof.
  unfold JS.lt, String.ltb. intros Hne.
  rewrite (String.compare_antisym b a).
  destruct (String.compare a b) eqn:E; simpl; try reflexivity; try discriminate.
  apply String.compare_eq_iff in E. contradiction.
Qed.

Lemma le_lt_or_eq (a b : string) :
  JS.le a b = true <-> JS.lt a b = true \/ a = b.
Proof.
  unfold JS.le, JS.lt, String.ltb.
  destruct (String.compare a b) eqn:E.
  - apply String.compare_eq_iff in E. tauto.
  - tauto.
  - split; [discriminate|]. intros [H | ->]; [discriminate|].
    rewrite string_compare_refl in E. discriminate.
Qed.

End StringOrder.

(** ** Sorting by a comparator that agrees with the key order *)

Section SortBy.
Context {A : Type} (key : A -> string) (cmp : A -> A -> Z).

Hypothesis cmp_key :
  forall x y, key x <> key y -> (cmp x y <=? 0)%Z = JS.lt (key x) (key y).

Lemma insert_by_perm (x : A) (l : list A) :
  Permutation (Summary.insert_by cmp x l) (x :: l).
Proof.
  induction l as [|y r IH]; simpl; [reflexivity|].
  destruct (cmp x y <=? 0)%Z; [reflexivity|].
  rewrite IH. apply perm_swap.
Qed.

Lemma sort_by_perm (l : list A) : Permutation (Summary.sort_by cmp l) l.
Proof.
  induction l as [|x l IH]; simpl; [reflexivity|].
  rewrite insert_by_perm. now constructor.
Qed.

Lemma insert_by_sorted (x : A) (l : list A) :
  StronglySorted (key_lt key) l ->
  (forall y, In y l -> key x <> key y) ->
  StronglySorted (key_lt key) (Summary.insert_by cmp x l).
Proof.
  induction l as [|y r IH]; intros Hs Hne; simpl.
  - repeat constructor.
  - inversion Hs as [|? ? Hr Hy]; subst.
    assert (Hxy : key x <> key y) by (apply Hne; now left).
    rewrite (cmp_key x y Hxy).
    destruct (JS.lt (key x) (key y)) eqn:E.
    + constructor; [assumption|]. constructor; [exact E|].
      rewrite Forall_forall in *. intros z Hz.
      unfold key_lt. apply lt_trans with (b := key y); [exact E | now apply Hy].
    + constructor.
      * apply IH; [assumption|]. intros z Hz. apply Hne. now right.
      * rewrite Forall_forall in *. intros z Hz.
        apply (Permutation_in _ (insert_by_perm x r)) in Hz.
        destruct Hz as [<- | Hz]; [|now apply Hy].
        unfold key_lt. apply lt_total; [congruence | exact E].
Qed.

Lemma sort_by_sorted (l : list A) :
  NoDup (List.map key l) -> StronglySorted (key_lt key) (Summary.sort_by cmp l).
Proof.
  induction l as [|x l IH]; simpl; intros Hnd; [constructor|].
  inversion Hnd as [|? ? Hx Hl]; subst.
  apply insert_by_sorted; [now apply IH|].
  intros y Hy Heq. apply Hx. rewrite Heq.
  apply in_map. now apply (Permutation_in _ (sort_by_perm l)).
Qed.

End SortBy.

(** ** The accumulators of [aggregateClientSide] *)

Section MapSet.
Context {V : Type}.

Lemma keys_set (k : string) (v : V) (m : JS.map string V) :
  JS.keys (JS.set String.eqb k v m) =
  if existsb (String.eqb k) (JS.keys m) then JS.keys m else JS.keys m ++ [k].
Proof.
  unfold JS.keys.
  induction m as [|[k' v'] m IH]; simpl; [reflexivity|].
  destruct (String.eqb_spec k k') as [->|Hne]; simpl; [reflexivity|].
  rewrite IH.
  destruct (existsb (String.eqb k) (List.map fst m)); reflexivity.
Qed.

Lemma in_set (k : string) (v : V) (m : JS.map string V) (e : string * V) :
  In e (JS.set String.eqb k v m) -> e = (k, v) \/ In e m.
Proof.
  induction m as [|[k' v'] m IH]; simpl.
  - intros [<- | []]. now left.
  - destruct (String.eqb k k'); simpl.
    + intros [<- | H]; [now left | right; now right].
    + intros [<- | H]; [right; now left|].
      destruct (IH H) as [-> | H']; [now left | right; now right].
Qed.

Lemma get_in (k : string) (v : V) (m : JS.map string V) :
  JS.get String.eqb k m = Some v -> In (k, v) m.
Proof.
  induction m as [|[k' v'] m IH]; simpl; [discriminate|].
  destruct (String.eqb_spec k k') as [->|Hne].
  - intros [= ->]. now left.
  - intros H. right. now apply IH.
Qed.

End MapSet.

Section Aggregate.
Import Summary.
Variables today fromISO toISO : string.

Let run (l : list Activity) : Acc := fold_left (step today fromISO toISO) l init.
Let inr : Activity -> bool := in_range today fromISO toISO.

Lemma step_out (acc : Acc) (a : Activity) :
  inr a = false -> step today fromISO toISO acc a = acc.
Proof.
  unfold inr, in_range, step. intros H. now rewrite H.
Qed.

Lemma fold_step_filter (l : list Activity) (acc : Acc) :
  fold_left (step today fromISO toISO) (filter inr l) acc =
  fold_left (step today fromISO toISO) l acc.
Proof.
  revert acc. induction l as [|a l IH]; intros acc; simpl; [reflexivity|].
  destruct (inr a) eqn:E; simpl; [apply IH|].
  rewrite (step_out acc a E). apply IH.
Qed.

Lemma run_snoc (l : list Activity) (a : Activity) :
  run (l ++ [a]) = step today fromISO toISO (run l) a.
Proof. unfold run. now rewrite fold_left_app. Qed.

Lemma filter_snoc (l : list Activity) (a : Activity) :
  filter inr (l ++ [a]) = filter inr l ++ (if inr a then [a] else []).
Proof. rewrite filter_app. simpl. destruct (inr a); reflexivity. Qed.

Lemma run_count (l : list Activity) :
  actCount (run l) = List.length (filter inr l).
Proof.
  induction l as [|a l IH] using rev_ind; [reflexivity|].
  rewrite run_snoc, filter_snoc.
  destruct (inr a) eqn:E.
  - unfold step. unfold inr, in_range in E. rewrite E. simpl.
    rewrite IH, length_app. reflexivity.
  - rewrite (step_out _ a E), app_nil_r. exact IH.
Qed.

Lemma run_keys (l : list Activity) :
  JS.keys (daysMap (run l)) =
  GrocerySpec.first_seen (List.map (activity_date today) (filter inr l)).
Proof.
  induction l as [|a l IH] using rev_ind; [reflexivity|].
  rewrite run_snoc, filter_snoc.
  destruct (inr a) eqn:E.
  - unfold step. unfold inr, in_range in E. rewrite E. simpl.
    rewrite keys_set, IH, map_app. simpl.
    rewrite first_seen_snoc, existsb_first_seen. reflexivity.
  - rewrite (step_out _ a E), app_nil_r. exact IH.
Qed.

Lemma run_day_dates (l : list Activity) (k : string) (d : Day) :
  In (k, d) (daysMap (run l)) -> day_date d = k.
Proof.
  revert k d. induction l as [|a l IH] using rev_ind; intros k d; [intros []|].
  rewrite run_snoc.
  destruct (inr a) eqn:E; [|now rewrite (step_out _ a E); apply IH].
  unfold step. unfold inr, in_range in E. rewrite E. simpl.
  intros Hin. apply in_set in Hin. destruct Hin as [Heq | Hin]; [|now apply IH].
  inversion Heq; subst. simpl.
  destruct (JS.get String.eqb (activity_date today a) (daysMap (run l))) eqn:G.
  - apply get_in in G. now apply IH.
  - reflexivity.
Qed.

Lemma run_value_dates (l : list Activity) :
  List.map day_date (JS.values (daysMap (run l))) = JS.keys (daysMap (run l)).
Proof.
  assert (H := run_day_dates l). revert H.
  generalize (daysMap (run l)) as m.
  induction m as [|[k d] m IH]; simpl; intros H; [reflexivity|].
  f_equal; [apply H; now left|].
  apply IH. intros k' d' Hin. apply H. now right.
Qed.

Lemma date_cmp_key (x y : Day) :
  day_date x <> day_date y ->
  (date_cmp x y <=? 0)%Z = JS.lt (day_date x) (day_date y).
Proof.
  intros _. unfold date_cmp. destruct (JS.lt (day_date x) (day_date y)); reflexivity.
Qed.

Lemma days_sorted (items : list Activity) :
  StronglySorted (key_lt day_date)
    (days (aggregateClientSide today items fromISO toISO)).
Proof.
  unfold aggregateClientSide. simpl.
  apply sort_by_sorted; [exact date_cmp_key|].
  fold (run items). rewrite run_value_dates, run_keys.
  apply first_seen_NoDup.
Qed.

Lemma days_dates (items : list Activity) (d : string) :
  In d (List.map day_date (days (aggregateClientSide today items fromISO toISO)))
  <-> exists a, In a items /\ inr a = true /\ activity_date today a = d.
Proof.
  unfold aggregateClientSide. simpl. fold (run items).
  assert (Hp := Permutation_map day_date
             (sort_by_perm date_cmp (JS.values (daysMap (run items))))).
  assert (Hin : In d (List.map day_date
                  (sort_by date_cmp (JS.values (daysMap (run items))))) <->
                In d (List.map day_date (JS.values (daysMap (run items))))).
  { split; apply Permutation_in; [exact Hp | now apply Permutation_sym]. }
  rewrite Hin, run_value_dates, run_keys, first_seen_In, in_map_iff.
  split.
  - intros [a [Hd Ha]]. apply filter_In in Ha. exists a. tauto.
  - intros [a [Ha [Hr Hd]]]. exists a. split; [assumption|].
    apply filter_In. tauto.
Qed.

Lemma aggregate_filter (items : list Activity) :
  aggregateClientSide today (filter inr items) fromISO toISO =
  aggregateClientSide today items fromISO toISO.
Proof.
  unfold aggregateClientSide. now rewrite fold_step_filter.
Qed.

Lemma aggregate_count (items : list Activity) :
  activity_count (aggregateClientSide today items fromISO toISO) =
  List.length (filter inr items).
Proof. unfold aggregateClientSide. simpl. apply run_count. Qed.

End Aggregate.

Section SummaryPageFacts.
Import SummaryPage.
Variables today fromISO toISO : string.

Let inr (a : Activity) : bool :=
  inRange (Summary.activity_date today a) fromISO toISO.

Lemma group_keys (items : list Activity) :
  JS.keys (groupByDateAndSport today items fromISO toISO) =
  GrocerySpec.first_seen
    (List.map (Summary.activity_date today) (filter inr items)).
Proof.
  unfold groupByDateAndSport.
  induction items as [|a l IH] using rev_ind; [reflexivity|].
  rewrite fold_left_app, filter_app, map_app. simpl.
  unfold step at 1. fold (inr a).
  destruct (inr a); simpl.
  - rewrite keys_set, IH, first_seen_snoc, existsb_first_seen. reflexivity.
  - now rewrite app_nil_r.
Qed.

Lemma default_cmp_key (x y : string) :
  x <> y -> (default_cmp x y <=? 0)%Z = JS.lt x y.
Proof.
  intros Hne. unfold default_cmp.
  destruct (JS.lt x y) eqn:E; [reflexivity|].
  now rewrite (lt_total x y Hne E).
Qed.

Lemma table_days_sorted (items : list Activity) :
  StronglySorted (key_lt (fun d : string => d))
    (table_days (groupByDateAndSport today items fromISO toISO)).
Proof.
  unfold table_days.
  apply sort_by_sorted; [exact default_cmp_key|].
  rewrite map_id, group_keys. apply first_seen_NoDup.
Qed.

End SummaryPageFacts.

(** C4, as stated, fails for the summary page: of activities on
    2024-01-15, 2024-01-01 and 2024-02-01 with range 2024-01-01 to
    2024-01-31, [groupByDateAndSport] returns a map whose days come in
    the order 2024-01-15, 2024-01-01, the order in which they were first
    met, which is not ascending; [aggregateClientSide] returns them
    ascending. *)
Lemma groupByDateAndSport_days_as_first_met :
  JS.keys (SummaryPage.groupByDateAndSport "2024-03-10" january_items
             "2024-01-01" "2024-01-31") = ["2024-01-15"; "2024-01-01"] /\
  JS.lt "2024-01-01" "2024-01-15" = true /\
  List.map Summary.day_date
    (Summary.days (Summary.aggregateClientSide "2024-03-10" january_items
                     "2024-01-01" "2024-01-31")) =
    ["2024-01-01"; "2024-01-15"].
Proof. repeat split; reflexivity. Qed.

(** C4, amended: for every list of activities and inclusive range, the
    activities counted by [aggregateClientSide] are exactly those whose
    date (first ten characters of start_time, else of date, else today)
    lies between from and to in string order; the others change nothing in
    the result; the returned days are exactly the dates of the counted
    activities, in strictly ascending string order.  The summary page
    counts the same activities; the map that [groupByDateAndSport] returns
    holds their dates in the order in which each is first met, and it is
    [renderTable] that lists them in ascending order.  Of activities on
    2024-01-15, 2024-01-01 and 2024-02-01 with range 2024-01-01 to
    2024-01-31, the first two are counted and the days of
    [aggregateClientSide] are 2024-01-01, 2024-01-15. *)
Theorem range_filter_and_day_order :
  (forall (today : string) (items : list Activity) (fromISO toISO : string),
      let r := Summary.aggregateClientSide today items fromISO toISO in
      let inside := filter (Summary.in_range today fromISO toISO) items in
      (forall a : Activity,
          In a inside <->
          In a items /\
          JS.le fromISO (Summary.activity_date today a) = true /\
          JS.le (Summary.activity_date today a) toISO = true) /\
      Summary.activity_count r = List.length inside /\
      Summary.aggregateClientSide today inside fromISO toISO = r /\
      (forall d : string,
          In d (List.map Summary.day_date (Summary.days r)) <->
          In d (List.map (Summary.activity_date today) inside)) /\
      StronglySorted (key_lt Summary.day_date) (Summary.days r) /\
      SummaryPage.activityCount today items fromISO toISO = List.length inside /\
      JS.keys (SummaryPage.groupByDateAndSport today items fromISO toISO) =
        GrocerySpec.first_seen (List.map (Summary.activity_date today) inside) /\
      (forall d : string,
          In d (SummaryPage.table_days
                  (SummaryPage.groupByDateAndSport today items fromISO toISO)) <->
          In d (List.map (Summary.activity_date today) inside)) /\
      StronglySorted (key_lt (fun d : string => d))
        (SummaryPage.table_days
           (SummaryPage.groupByDateAndSport today items fromISO toISO))) /\
  (let r := Summary.aggregateClientSide "2024-03-10" january_items
              "2024-01-01" "2024-01-31" in
   Summary.activity_count r = 2 /\
   List.map Summary.day_date (Summary.days r) = ["2024-01-01"; "2024-01-15"] /\
   Summary.total_training_kcal r = 550%Z).
Proof.
  split; [|repeat split; reflexivity].
  intros today items fromISO toISO r inside.
  split.
  { intros a. unfold inside. rewrite filter_In.
    unfold Summary.in_range, Summary.within, JS.ge.
    rewrite andb_true_iff. tauto. }
  split; [apply aggregate_count|].
  split; [apply aggregate_filter|].
  split.
  { intros d. unfold r. rewrite days_dates, in_map_iff. unfold inside.
    split.
    - intros [a [Ha [Hr Hd]]]. exists a. rewrite filter_In. tauto.
    - intros [a [Hd Ha]]. apply filter_In in Ha. exists a. tauto. }
  split; [apply days_sorted|].
  split; [reflexivity|].
  split; [apply group_keys|].
  split; [|apply table_days_sorted].
  intros d. unfold SummaryPage.table_days.
  assert (Hp := sort_by_perm SummaryPage.default_cmp
                  (JS.keys (SummaryPage.groupByDateAndSport today items fromISO toISO))).
  assert (Hin : In d (Summary.sort_by SummaryPage.default_cmp
                  (JS.keys (SummaryPage.groupByDateAndSport today items fromISO toISO))) <->
                In d (JS.keys (SummaryPage.groupByDateAndSport today items fromISO toISO))).
  { split; apply Permutation_in; [exact Hp | now apply Permutation_sym]. }
  rewrite Hin, group_keys, first_seen_In. reflexivity.
Qed.

(** ** Totals kept by [aggregateClientSide] *)

Section Sums.
Import Summary.

Lemma sumZ_app (a b : list Z) : sumZ (a ++ b) = (sumZ a + sumZ b)%Z.
Proof. induction a as [|x a IH]; simpl; [reflexivity | rewrite IH; lia]. Qed.

Lemma sumZ_perm (a b : list Z) : Permutation a b -> sumZ a = sumZ b.
Proof. induction 1; simpl; lia. Qed.

Lemma sum_values_set {K V : Type} (eqb : K -> K -> bool) (f : V -> Z)
    (k : K) (v : V) (m : JS.map K V) :
  sumZ (List.map f (JS.values (JS.set eqb k v m))) =
  (sumZ (List.map f (JS.values m))
   - match JS.get eqb k m with Some o => f o | None => 0 end + f v)%Z.
Proof.
  unfold JS.values.
  induction m as [|[k' v'] m IH]; simpl; [lia|].
  destruct (eqb k k'); simpl; [lia|]. rewrite IH. lia.
Qed.

Lemma by_sport_sum_get (o : JS.map string cell) (s : Z) (key : string) :
  by_sport_sum o = Some s -> JS.get String.eqb key o <> Some CStr.
Proof.
  revert s. induction o as [|[k c] o IH]; simpl; intros s Hs; [discriminate|].
  destruct c as [n|]; [|discriminate].
  destruct (by_sport_sum o) as [s'|] eqn:E; [|discriminate].
  destruct (String.eqb key k); [discriminate | now apply (IH s')].
Qed.

Lemma by_sport_sum_set (o : JS.map string cell) (s kcal : Z) (key : string) :
  by_sport_sum o = Some s ->
  by_sport_sum
    (JS.set String.eqb key
       (CNum (match JS.get String.eqb key o with
              | Some (CNum n) => n
              | _ => 0
              end + kcal)) o) = Some (s + kcal)%Z.
Proof.
  revert s. induction o as [|[k c] o IH]; simpl; intros s Hs.
  - injection Hs as <-. f_equal. lia.
  - destruct c as [n|]; [|discriminate].
    destruct (by_sport_sum o) as [s'|] eqn:E; [|discriminate].
    injection Hs as <-.
    destruct (String.eqb key k); simpl.
    + rewrite E. f_equal. lia.
    + rewrite (IH s' eq_refl). f_equal. lia.
Qed.

Lemma bump_by_sport_sum (o : JS.map string cell) (s kcal : Z) (key : string) :
  Sport.inherited key = false ->
  by_sport_sum o = Some s ->
  by_sport_sum (bump_by_sport o key kcal) = Some (s + kcal)%Z.
Proof.
  intros Hk Hs. unfold bump_by_sport.
  assert (Hset := by_sport_sum_set o s kcal key Hs).
  assert (Hget := by_sport_sum_get o s key Hs).
  destruct (JS.get String.eqb key o) as [[n|]|]; [exact Hset | congruence |].
  rewrite Hk. exact Hset.
Qed.

End Sums.

Section Totals.
Import Summary.
Variables today fromISO toISO : string.

Let run (l : list Activity) : Acc := fold_left (step today fromISO toISO) l init.
Let inr : Activity -> bool := in_range today fromISO toISO.

Lemma run_total_days (l : list Activity) :
  totalK (run l) = sumZ (List.map training_kcal (JS.values (daysMap (run l)))).
Proof.
  induction l as [|a l IH] using rev_ind; [reflexivity|].
  unfold run in *. rewrite fold_left_app. simpl.
  set (acc := fold_left (step today fromISO toISO) l init) in *.
  unfold step. destruct (within fromISO toISO (activity_date today a)); simpl;
    [|exact IH].
  rewrite sum_values_set, IH. simpl.
  destruct (JS.get String.eqb (activity_date today a) (daysMap acc)); simpl; lia.
Qed.

Lemma run_total_sports (l : list Activity) :
  totalK (run l) = sumZ (JS.values (sportMap (run l))).
Proof.
  induction l as [|a l IH] using rev_ind; [reflexivity|].
  unfold run in *. rewrite fold_left_app. simpl.
  set (acc := fold_left (step today fromISO toISO) l init) in *.
  unfold step. destruct (within fromISO toISO (activity_date today a)); simpl;
    [|exact IH].
  rewrite <- (map_id (JS.values (JS.set _ _ _ _))).
  rewrite (sum_values_set jsval_eqb (fun z => z)), map_id, IH.
  destruct (JS.get jsval_eqb (Sport.normalizeSport a) (sportMap acc)); lia.
Qed.

Lemma run_by_sport (l : list Activity) :
  (forall a, In a l -> inr a = true ->
     Sport.inherited (prop_key (Sport.normalizeSport a)) = false) ->
  forall k d, In (k, d) (daysMap (run l)) ->
    by_sport_sum (by_sport d) = Some (training_kcal d).
Proof.
  induction l as [|a l IH] using rev_ind; intros Hkeys k d; [intros []|].
  assert (IH' : forall k d, In (k, d) (daysMap (run l)) ->
                  by_sport_sum (by_sport d) = Some (training_kcal d)).
  { apply IH. intros b Hb. apply Hkeys. apply in_or_app. now left. }
  assert (Ha : inr a = true ->
               Sport.inherited (prop_key (Sport.normalizeSport a)) = false).
  { apply Hkeys. apply in_or_app. right. now left. }
  unfold run in *. rewrite fold_left_app. simpl.
  set (acc := fold_left (step today fromISO toISO) l init) in *.
  unfold step. unfold inr, in_range in Ha.
  destruct (within fromISO toISO (activity_date today a)); simpl;
    [|now apply IH'].
  intros Hin. apply in_set in Hin. destruct Hin as [Heq | Hin]; [|now apply IH' with k].
  inversion Heq; subst. simpl.
  apply bump_by_sport_sum; [now apply Ha|].
  destruct (JS.get String.eqb (activity_date today a) (daysMap acc)) eqn:G.
  - apply get_in in G. now apply IH' with (activity_date today a).
  - reflexivity.
Qed.

End Totals.

(** C10 at a failing input: one activity of 400 kcal labelled constructor,
    inside the range.  The day's training_kcal is 400, but its by_sport
    object holds a string under that label, not 400; labelled __proto__, the
    by_sport object stays empty. *)
Theorem by_sport_inherited_label_breaks_day_sum :
  (let r := Summary.aggregateClientSide "2024-03-10"
              [labelled_on "constructor" "2024-01-15T12:00:00Z" (400 # 1)]
              "2024-01-01" "2024-01-31" in
   Summary.days r =
     [ {| Summary.day_date := "2024-01-15";
          Summary.training_kcal := 400;
          Summary.planned_kcal := 0;
          Summary.by_sport := [("constructor", Summary.CStr)] |} ] /\
   List.map (fun d => Summary.by_sport_sum (Summary.by_sport d)) (Summary.days r) =
     [None]) /\
  (let r := Summary.aggregateClientSide "2024-03-10"
              [labelled_on "__proto__" "2024-01-15T12:00:00Z" (400 # 1)]
              "2024-01-01" "2024-01-31" in
   Summary.days r =
     [ {| Summary.day_date := "2024-01-15";
          Summary.training_kcal := 400;
          Summary.planned_kcal := 0;
          Summary.by_sport := [] |} ] /\
   List.map (fun d => Summary.by_sport_sum (Summary.by_sport d)) (Summary.days r) =
     [Some 0%Z]).
Proof. repeat split; reflexivity. Qed.


(** ** The week loader under interleaved loads *)

Section WeekLoads.
Import Week.

Lemma run_app (p : Page) (t1 t2 : list event) :
  run p (t1 ++ t2) =
  match run p t1 with Some q => run q t2 | None => None end.
Proof.
  revert p. induction t1 as [|e t1 IH]; intros p; simpl; [reflexivity|].
  destruct (step p e); [apply IH | reflexivity].
Qed.

Lemma step_one_in_flight (p p' : Page) (e : event) :
  one_in_flight p ->
  match e with Click => in_flight p = [] | _ => True end ->
  step p e = Some p' ->
  one_in_flight p'.
Proof.
  intros Hinv Hclick Hstep. destruct e as [start | | load r]; simpl in Hstep.
  - injection Hstep as <-. exact Hinv.
  - injection Hstep as <-. unfold loadWeek_begin.
    destruct (JS.falsy (week_start p)).
    + left. exact Hclick.
    + right. exists (triggered p), (week_start p). simpl.
      rewrite Hclick. repeat split. lia.
  - destruct (is_pending load p) eqn:Hp; [|discriminate].
    injection Hstep as <-. left.
    destruct Hinv as [Hnil | [n [s [Hfl _]]]].
    + unfold is_pending in Hp. rewrite Hnil in Hp. discriminate.
    + unfold is_pending in Hp. rewrite Hfl in Hp. simpl in Hp.
      rewrite orb_false_r in Hp.
      destruct r as [plans|message]; simpl;
        [destruct (render_cards plans) as [cards done]; destruct done|];
        simpl; unfold drop_pending; rewrite Hfl; simpl;
        rewrite Hp; reflexivity.
Qed.

Lemma run_one_in_flight (trace : list event) (p p' : Page) :
  one_in_flight p ->
  no_overlap p trace = true ->
  run p trace = Some p' ->
  one_in_flight p'.
Proof.
  revert p. induction trace as [|e rest IH]; intros p Hinv Hno Hrun; simpl in *.
  - now injection Hrun as <-.
  - apply andb_prop in Hno. destruct Hno as [Hclick Hrest].
    destruct (step p e) as [q|] eqn:Hstep; [|discriminate].
    apply (IH q); [|assumption|assumption].
    apply (step_one_in_flight p q e Hinv); [|assumption].
    destruct e; try exact I. destruct (in_flight p); [reflexivity | discriminate].
Qed.

Lemma render_cards_all (plans : list DayPlan) :
  render_cards (List.map Some plans) = (plans, true).
Proof.
  induction plans as [|plan rest IH]; simpl; [reflexivity|].
  now rewrite IH.
Qed.

Lemma render_cards_null (before : list DayPlan) (rest : list (option DayPlan)) :
  render_cards (List.map Some before ++ None :: rest) = (before, false).
Proof.
  induction before as [|plan before IH]; simpl; [reflexivity|].
  now rewrite IH.
Qed.

Lemma drop_pending_done (load : nat) (p : Page) :
  existsb (fun l => Nat.eqb (fst l) load) (drop_pending load p) = false.
Proof.
  unfold drop_pending.
  induction (in_flight p) as [|[n s] l IH]; simpl; [reflexivity|].
  destruct (Nat.eqb n load) eqn:E; simpl; [exact IH|].
  now rewrite E.
Qed.

Lemma no_overlap_prefix (t1 t2 : list event) (p : Page) :
  no_overlap p (t1 ++ t2) = true -> no_overlap p t1 = true.
Proof.
  revert p. induction t1 as [|e t1 IH]; intros p; simpl; [reflexivity|].
  intros H. apply andb_prop in H. destruct H as [H1 H2]. rewrite H1. simpl.
  destruct (step p e); [now apply IH | reflexivity].
Qed.

End WeekLoads.

(** C8, as stated, fails: the week of 1 January is asked for, then the week
    of 8 January; the second answer arrives first, the first one last.  The
    page ends with the first load's plans stored and its card appended
    behind the second load's, although load 1 was triggered last. *)
Lemma stale_load_overwrites_newer :
  Week.run (Week.fresh "2024-01-01") overlapping_loads =
    Some {| Week.week_start := "2024-01-08";
            Week.grid := week_b ++ week_a;
            Week.weekPlans := Some week_a;
            Week.alert_ok := Some "Week loaded.";
            Week.alert_err := None;
            Week.in_flight := [];
            Week.triggered := 2 |} /\
  week_a <> week_b.
Proof. split; [reflexivity | discriminate]. Qed.

(** C8, amended: the loader keeps no generation token.  A load that
    settles with its plans, none of them null, appends their cards to the
    grid (emptied only when a load is triggered) and stores the plans,
    whatever was triggered since.  A load whose request fails leaves the
    grid and the stored plans alone.  A load that brings back a null plan
    appends the cards of the plans before it, stores nothing and shows the
    error.  So the stored plans are those of the load that last settled
    with all its plans; when no load is triggered while another is in
    flight and the last load settles with all its plans, that is the load
    triggered last, and the grid shows its cards only. *)
Theorem loadWeek_last_settled_wins :
  (forall (p : Week.Page) (load : nat) (plans : list DayPlan),
      Week.is_pending load p = true ->
      exists p' : Week.Page,
        Week.step p (Week.Settle load (Week.Loaded (List.map Some plans))) = Some p' /\
        Week.weekPlans p' = Some plans /\
        Week.grid p' = Week.grid p ++ plans /\
        Week.is_pending load p' = false) /\
  (forall (p : Week.Page) (load : nat) (message : string),
      Week.is_pending load p = true ->
      exists p' : Week.Page,
        Week.step p (Week.Settle load (Week.Failed message)) = Some p' /\
        Week.weekPlans p' = Week.weekPlans p /\
        Week.grid p' = Week.grid p /\
        Week.is_pending load p' = false) /\
  (forall (p : Week.Page) (load : nat) (before : list DayPlan)
          (rest : list (option DayPlan)),
      Week.is_pending load p = true ->
      exists p' : Week.Page,
        Week.step p (Week.Settle load
                       (Week.Loaded (List.map Some before ++ None :: rest))) = Some p' /\
        Week.weekPlans p' = Week.weekPlans p /\
        Week.grid p' = Week.grid p ++ before /\
        Week.alert_err p' = Some Week.NullPlanError /\
        Week.alert_ok p' = Week.alert_ok p /\
        Week.is_pending load p' = false) /\
  (forall (p p' : Week.Page) (trace : list Week.event)
          (load : nat) (plans : list DayPlan),
      Week.in_flight p = [] ->
      no_overlap p (trace ++ [Week.Settle load (Week.Loaded (List.map Some plans))]) = true ->
      Week.run p (trace ++ [Week.Settle load (Week.Loaded (List.map Some plans))]) = Some p' ->
      Week.latest p' = Some load /\
      Week.weekPlans p' = Some plans /\
      Week.grid p' = plans /\
      Week.in_flight p' = []) /\
  (no_overlap (Week.fresh "2024-01-01") (sequential_loads ++
       [Week.Settle 1 (Week.Loaded (List.map Some week_b))]) = true /\
   Week.run (Week.fresh "2024-01-01") (sequential_loads ++
       [Week.Settle 1 (Week.Loaded (List.map Some week_b))]) =
     Some {| Week.week_start := "2024-01-08";
             Week.grid := week_b;
             Week.weekPlans := Some week_b;
             Week.alert_ok := Some "Week loaded.";
             Week.alert_err := None;
             Week.in_flight := [];
             Week.triggered := 2 |}).
Proof.
  split; [|split; [|split; [|split; [|split; reflexivity]]]].
  - intros p load plans Hp. simpl. rewrite Hp.
    unfold Week.loadWeek_resume. rewrite render_cards_all. eexists.
    split; [reflexivity|]. simpl. repeat split.
    apply drop_pending_done.
  - intros p load message Hp. simpl. rewrite Hp. eexists.
    split; [reflexivity|]. simpl. repeat split.
    apply drop_pending_done.
  - intros p load before rest Hp. simpl. rewrite Hp.
    unfold Week.loadWeek_resume. rewrite render_cards_null. eexists.
    split; [reflexivity|]. simpl. repeat split.
    apply drop_pending_done.
  - intros p p' trace load plans Hnil Hno Hrun.
    rewrite run_app in Hrun.
    destruct (Week.run p trace) as [q|] eqn:Hq; [|discriminate].
    assert (Hinv : one_in_flight q).
    { apply (run_one_in_flight trace p q); [now left | | exact Hq].
      now apply no_overlap_prefix in Hno. }
    simpl in Hrun.
    destruct (Week.is_pending load q) eqn:Hp; [|discriminate].
    injection Hrun as <-.
    destruct Hinv as [Hnone | [n [s [Hfl [Htr Hgrid]]]]].
    + unfold Week.is_pending in Hp. rewrite Hnone in Hp. discriminate.
    + unfold Week.is_pending in Hp. rewrite Hfl in Hp. simpl in Hp.
      rewrite orb_false_r in Hp. apply Nat.eqb_eq in Hp. subst n.
      unfold Week.loadWeek_resume. rewrite render_cards_all.
      unfold Week.latest, Week.drop_pending. simpl.
      rewrite Htr, Hgrid, Hfl. simpl. rewrite Nat.eqb_refl. simpl.
      repeat split.
Qed.

(** ** Unit helpers on missing and non-numeric inputs *)

Section Units.

Lemma profile_unknown (v : value) :
  missing_or_NaN v = true -> ProfileUnit.unknown v = true.
Proof.
  destruct v as [| |x|]; simpl; intros H; try reflexivity; try discriminate.
  unfold ProfileUnit.unknown, Float64.isNaN. simpl. exact H.
Qed.

(** in ui/profile.js every helper answers a missing or NaN input with
    [null] (the conversions) or the empty string (the rounding) *)
Lemma profile_units_no_value (v : value) :
  missing_or_NaN v = true ->
  ProfileUnit.kgToLb v = Null /\ ProfileUnit.lbToKg v = Null /\
  ProfileUnit.cmToIn v = Null /\ ProfileUnit.inToCm v = Null /\
  ProfileUnit.round1 v = Empty.
Proof.
  intros H. apply profile_unknown in H.
  unfold ProfileUnit.kgToLb, ProfileUnit.lbToKg, ProfileUnit.cmToIn,
    ProfileUnit.inToCm, ProfileUnit.round1.
  rewrite H. repeat split.
Qed.

(** in ui/app.js the four conversions answer [null] and [undefined]
    with [null] *)
Lemma app_conversions_null (v : value) :
  Float64.nullish v = true ->
  AppUnit.kgToLb v = Null /\ AppUnit.lbToKg v = Null /\
  AppUnit.cmToIn v = Null /\ AppUnit.inToCm v = Null.
Proof.
  intros H.
  unfold AppUnit.kgToLb, AppUnit.lbToKg, AppUnit.cmToIn, AppUnit.inToCm.
  rewrite H. repeat split.
Qed.

Lemma profile_units_no_value_NaN :
  missing_or_NaN (Num PrimFloat.nan) = true /\
  (ProfileUnit.kgToLb (Num PrimFloat.nan) = Null /\
   ProfileUnit.lbToKg (Num PrimFloat.nan) = Null /\
   ProfileUnit.cmToIn (Num PrimFloat.nan) = Null /\
   ProfileUnit.inToCm (Num PrimFloat.nan) = Null /\
   ProfileUnit.round1 (Num PrimFloat.nan) = Empty).
Proof.
  split; [reflexivity|].
  apply (profile_units_no_value (Num PrimFloat.nan)). reflexivity.
Defined.

Lemma app_conversions_null_undefined :
  Float64.nullish Undefined = true /\
  (AppUnit.kgToLb Undefined = Null /\ AppUnit.lbToKg Undefined = Null /\
   AppUnit.cmToIn Undefined = Null /\ AppUnit.inToCm Undefined = Null).
Proof.
  split; [reflexivity|].
  apply (app_conversions_null Undefined). reflexivity.
Defined.

End Units.

(** X2: the unit conversions of the two pages agree on the inputs that
    are undefined, null, the empty string or a number.  On each of these
    but a NaN number the helpers kgToLb, lbToKg, cmToIn and inToCm of
    ui/app.js and of ui/profile.js return the same value; on a NaN number
    those of ui/profile.js return null where those of ui/app.js return a
    number.  Other inputs (other strings, objects) are not covered. *)
Theorem unit_conversions_agree (v : value) :
  (NaN_number v = false ->
     AppUnit.kgToLb v = ProfileUnit.kgToLb v /\
     AppUnit.lbToKg v = ProfileUnit.lbToKg v /\
     AppUnit.cmToIn v = ProfileUnit.cmToIn v /\
     AppUnit.inToCm v = ProfileUnit.inToCm v) /\
  (NaN_number v = true ->
     ProfileUnit.kgToLb v = Null /\ ProfileUnit.lbToKg v = Null /\
     ProfileUnit.cmToIn v = Null /\ ProfileUnit.inToCm v = Null /\
     (exists y, AppUnit.kgToLb v = Num y) /\
     (exists y, AppUnit.lbToKg v = Num y) /\
     (exists y, AppUnit.cmToIn v = Num y) /\
     (exists y, AppUnit.inToCm v = Num y)).
Proof.
  unfold AppUnit.kgToLb, AppUnit.lbToKg, AppUnit.cmToIn, AppUnit.inToCm,
    ProfileUnit.kgToLb, ProfileUnit.lbToKg, ProfileUnit.cmToIn,
    ProfileUnit.inToCm, ProfileUnit.unknown, Float64.isNaN.
  destruct v as [| |x|]; cbn [NaN_number Float64.nullish Float64.ToNumber negb orb].
  - split; [repeat split|discriminate].
  - split; [repeat split|discriminate].
  - split; intros H; rewrite H.
    + repeat split.
    + repeat split; eexists; reflexivity.
  - split; [intros _; vm_compute; repeat split|discriminate].
Qed.

(** C9 at a failing input: the rounding helpers of ui/app.js turn [null]
    into the number 0, the same result as for the input 0, also behind a
    conversion that answered [null]; the helper of the same name in
    ui/profile.js returns the empty string there. *)
Theorem app_rounding_of_null_is_zero :
  AppUnit.kgToLb Null = Null /\
  AppUnit.round1 Null = Num 0%float /\
  AppUnit.round0 Null = Num 0%float /\
  AppUnit.round1 (Num 0%float) = Num 0%float /\
  AppUnit.round1 (AppUnit.cmToIn Null) = Num 0%float /\
  no_value (AppUnit.round1 Null) = false /\
  ProfileUnit.round1 Null = Empty /\
  ProfileUnit.round1 (ProfileUnit.cmToIn Null) = Empty.
Proof. repeat split; vm_compute; reflexivity. Qed.

(** ** Week boundaries *)

Section Weeks.
Import JSDate WeekDates.
Local Open Scope Z_scope.

Lemma DayFromYear_step (y : Z) :
  365 <= DayFromYear (y + 1) - DayFromYear y <= 366.
Proof. unfold DayFromYear. Z.div_mod_to_equations. lia. Qed.

Lemma DayFromYear_mono (y z : Z) : y <= z -> DayFromYear y <= DayFromYear z.
Proof. unfold DayFromYear. intros H. Z.div_mod_to_equations. lia. Qed.

(** [YearFromTime] is the year of ECMA-262: the largest one that begins
    on or before the day *)
Lemma YearFromTime_spec (d : Z) :
  DayFromYear (YearFromTime d) <= d < DayFromYear (YearFromTime d + 1).
Proof.
  unfold YearFromTime.
  set (y := 1970 + d * 400 / 146097).
  assert (H0 := DayFromYear_step (y - 1)).
  assert (H1 := DayFromYear_step y).
  assert (H2 := DayFromYear_step (y + 1)).
  replace (y - 1 + 1) with y in * by lia.
  assert (E : DayFromYear (y - 1) <= d < DayFromYear (y + 2)).
  { unfold y, DayFromYear. Z.div_mod_to_equations. lia. }
  replace (y + 1 + 1) with (y + 2) in * by lia.
  destruct (d <? DayFromYear y) eqn:A.
  - apply Z.ltb_lt in A. replace (y - 1 + 1) with y by lia. lia.
  - apply Z.ltb_ge in A.
    destruct (DayFromYear (y + 1) <=? d) eqn:B.
    + apply Z.leb_le in B. replace (y + 1 + 1) with (y + 2) by lia. lia.
    + apply Z.leb_gt in B. lia.
Qed.

Lemma MonthFromTime_range (d : Z) : 0 <= MonthFromTime d <= 11.
Proof.
  unfold MonthFromTime.
  repeat match goal with |- context [if ?c then _ else _] => destruct c end; lia.
Qed.

Lemma InLeapYear_range (y : Z) : 0 <= InLeapYear y <= 1.
Proof. unfold InLeapYear. destruct (DaysInYear y =? 366); lia. Qed.

Lemma days_before_range (m L : Z) :
  0 <= m <= 11 -> 0 <= L <= 1 -> 0 <= days_before m L <= 335.
Proof.
  intros Hm HL.
  assert (C : m = 0 \/ m = 1 \/ m = 2 \/ m = 3 \/ m = 4 \/ m = 5 \/ m = 6 \/
              m = 7 \/ m = 8 \/ m = 9 \/ m = 10 \/ m = 11) by lia.
  destruct C as [->|[->|[->|[->|[->|[->|[->|[->|[->|[->|[->| ->]]]]]]]]]]];
    cbv beta iota delta [days_before]; lia.
Qed.

Lemma MakeDay_in_month (y m date : Z) :
  0 <= m <= 11 ->
  MakeDay y m date = DayFromYear y + days_before m (InLeapYear y) + date - 1.
Proof.
  intros Hm. unfold MakeDay.
  rewrite (Z.div_small m 12), (Z.mod_small m 12) by lia.
  now rewrite Z.add_0_r.
Qed.

(** setting the date of a day to its own date plus [k] moves it by [k] days *)
Lemma MakeDay_own (d k : Z) :
  MakeDay (YearFromTime d) (MonthFromTime d) (DateFromTime d + k) = d + k.
Proof.
  rewrite MakeDay_in_month by apply MonthFromTime_range.
  unfold DateFromTime, DayWithinYear. lia.
Qed.

Lemma TimeClip_valid (d : Z) :
  -100000000 <= d <= 100000000 -> TimeClip d = Some d.
Proof.
  intros H. unfold TimeClip.
  destruct (Z.abs d <=? 100000000) eqn:E; [reflexivity|].
  apply Z.leb_gt in E. lia.
Qed.

(** from a valid day, six days back at most, on a Monday *)
Lemma back_to_monday (dt : Z) :
  -99999994 <= dt <= 100000000 ->
  exists m,
    setUTCDate dt (DateFromTime dt - Z.rem (WeekDay dt + 6) 7) = Some m /\
    WeekDay m = 1 /\ m <= dt < m + 7.
Proof.
  intros H. unfold setUTCDate.
  assert (Hw : 0 <= WeekDay dt < 7) by (unfold WeekDay; apply Z.mod_pos_bound; lia).
  rewrite Z.rem_mod_nonneg by lia.
  assert (Ho : 0 <= (WeekDay dt + 6) mod 7 < 7) by (apply Z.mod_pos_bound; lia).
  replace (DateFromTime dt - (WeekDay dt + 6) mod 7)
    with (DateFromTime dt + - ((WeekDay dt + 6) mod 7)) by lia.
  rewrite MakeDay_own.
  exists (dt + - ((WeekDay dt + 6) mod 7)).
  split; [apply TimeClip_valid; lia|].
  split; [|lia].
  unfold WeekDay in *. Z.div_mod_to_equations. lia.
Qed.

Lemma dates_from_valid (s : Z) (steps : list Z) :
  (forall i, In i steps -> -100000000 <= s + i <= 100000000) ->
  dates_from s steps = Some (List.map (fun i => dateISO (s + i)) steps).
Proof.
  induction steps as [|i rest IH]; intros H; [reflexivity|].
  cbn [dates_from List.map]. unfold setUTCDate.
  rewrite MakeDay_own, TimeClip_valid by (apply H; now left).
  rewrite IH by (intros j Hj; apply H; now right).
  reflexivity.
Qed.

Lemma monday_of_ordinary_year (day : Z) :
  -99999994 <= day <= 100000000 ->
  YearFromTime day < 0 \/ 99 < YearFromTime day ->
  exists m,
    mondayUTC day = Some m /\ WeekDay m = 1 /\ m <= day < m + 7.
Proof.
  intros Hvalid Hy. unfold mondayUTC, UTC, MakeFullYear.
  replace ((0 <=? YearFromTime day) && (YearFromTime day <=? 99)) with false.
  2:{ symmetry. apply andb_false_iff.
      destruct Hy; [left; apply Z.leb_gt | right; apply Z.leb_gt]; lia. }
  replace (DateFromTime day) with (DateFromTime day + 0) by lia.
  rewrite MakeDay_own, Z.add_0_r, TimeClip_valid by lia.
  apply back_to_monday. lia.
Qed.

(** X3: the start of the week.  For a valid Date that lies at least six
    days after the first day a Date can hold: when its year is not one of
    0 to 99, [mondayUTC] returns a Monday, that day or one of the six days
    before it; when its year is one of 0 to 99, which Date.UTC reads as
    1900 to 1999, it returns the Monday of the week of the same month and
    date 1900 years later. *)
Theorem mondayUTC_is_monday (day : Z)
    (Hvalid : (-99999994 <= day <= 100000000)%Z) :
  ((JSDate.YearFromTime day < 0 \/ 99 < JSDate.YearFromTime day)%Z ->
   exists m,
     WeekDates.mondayUTC day = Some m /\
     JSDate.WeekDay m = 1%Z /\ (m <= day < m + 7)%Z) /\
  ((0 <= JSDate.YearFromTime day <= 99)%Z ->
   exists m,
     WeekDates.mondayUTC day = Some m /\
     JSDate.WeekDay m = 1%Z /\
     (let there :=
        JSDate.MakeDay (1900 + JSDate.YearFromTime day)
          (JSDate.MonthFromTime day) (JSDate.DateFromTime day) in
      m <= there < m + 7)%Z /\
     (day + 650000 < m)%Z).
Proof.
  split; [now apply monday_of_ordinary_year|].
  unfold WeekDates.mondayUTC, JSDate.UTC, JSDate.MakeFullYear.
  - intros Hy.
    replace ((0 <=? JSDate.YearFromTime day) && (JSDate.YearFromTime day <=? 99))
      with true.
    2:{ symmetry. apply andb_true_iff. split; apply Z.leb_le; lia. }
    set (there := JSDate.MakeDay (1900 + JSDate.YearFromTime day)
                    (JSDate.MonthFromTime day) (JSDate.DateFromTime day)).
    assert (Hm := MonthFromTime_range day).
    assert (Hs := YearFromTime_spec day).
    assert (H100 := DayFromYear_mono (JSDate.YearFromTime day + 1) 100 ltac:(lia)).
    assert (H0 := DayFromYear_mono 0 (JSDate.YearFromTime day) ltac:(lia)).
    assert (Hstep := DayFromYear_step (JSDate.YearFromTime day)).
    assert (H1900 := DayFromYear_mono 1900 (1900 + JSDate.YearFromTime day) ltac:(lia)).
    assert (H1999 := DayFromYear_mono (1900 + JSDate.YearFromTime day) 1999 ltac:(lia)).
    assert (Hb1 := days_before_range (JSDate.MonthFromTime day)
                     (JSDate.InLeapYear (JSDate.YearFromTime day)) Hm
                     (InLeapYear_range _)).
    assert (Hb2 := days_before_range (JSDate.MonthFromTime day)
                     (JSDate.InLeapYear (1900 + JSDate.YearFromTime day)) Hm
                     (InLeapYear_range _)).
    assert (Hthere : (-26000 <= there <= 12000)%Z).
    { unfold there. rewrite MakeDay_in_month by exact Hm.
      unfold JSDate.DateFromTime, JSDate.DayWithinYear.
      change (JSDate.DayFromYear 1900) with (-25567)%Z in H1900.
      change (JSDate.DayFromYear 1999) with 10592%Z in H1999.
      lia. }
    change (JSDate.DayFromYear 100) with (-683003)%Z in H100.
    rewrite TimeClip_valid by lia.
    destruct (back_to_monday there ltac:(lia)) as [m (Hset & Hw & Hr)].
    exists m. repeat split; try assumption; lia.
Qed.

Lemma mondayUTC_of_17_January_2024 :
  (-99999994 <= 19739 <= 100000000)%Z /\
  (99 < JSDate.YearFromTime 19739)%Z /\
  exists m,
    WeekDates.mondayUTC 19739 = Some m /\
    JSDate.WeekDay m = 1%Z /\ (m <= 19739 < m + 7)%Z.
Proof.
  assert (H : (-99999994 <= 19739 <= 100000000)%Z) by lia.
  split; [exact H|]. split; [reflexivity|].
  apply (proj1 (mondayUTC_is_monday 19739 H)). right. reflexivity.
Defined.

(** X4: the week listed from the start of the week.  For a valid Date
    whose year is not one of 0 to 99 and that lies at least six days from
    either end of what a Date can hold, [weekDates] applied to the Date
    that [mondayUTC] returns gives the date strings of the seven days
    from that Monday on, in order, and the date string of the day itself
    is one of them.  For Wednesday 17 January 2024 these are 2024-01-15
    to 2024-01-21. *)
Theorem weekDates_contains_day (day : Z)
    (Hvalid : (-99999994 <= day <= 99999994)%Z)
    (Hyear : (JSDate.YearFromTime day < 0 \/ 99 < JSDate.YearFromTime day)%Z) :
  (exists m,
     WeekDates.mondayUTC day = Some m /\
     WeekDates.weekDates m =
       Some (List.map (fun i => WeekDates.dateISO (m + i)%Z)
               [0; 1; 2; 3; 4; 5; 6]%Z) /\
     In (WeekDates.dateISO day)
        (List.map (fun i => WeekDates.dateISO (m + i)%Z)
           [0; 1; 2; 3; 4; 5; 6]%Z)) /\
  (WeekDates.mondayUTC 19739 = Some 19737%Z /\
   WeekDates.weekDates 19737 =
     Some ["2024-01-15"; "2024-01-16"; "2024-01-17"; "2024-01-18";
           "2024-01-19"; "2024-01-20"; "2024-01-21"]%string).
Proof.
  split; [|split; vm_compute; reflexivity].
  assert (Hv : (-99999994 <= day <= 100000000)%Z) by lia.
  destruct (monday_of_ordinary_year day Hv Hyear) as [m (Hm & _ & Hr)].
  exists m. split; [exact Hm|]. split.
  - unfold WeekDates.weekDates. apply dates_from_valid.
    intros i Hi. cbn in Hi. lia.
  - apply in_map_iff. exists (day - m)%Z. split; [f_equal; lia|].
    cbn. lia.
Qed.

Lemma weekDates_of_17_January_2024 :
  (-99999994 <= 19739 <= 99999994)%Z /\
  (99 < JSDate.YearFromTime 19739)%Z /\
  WeekDates.dateISO 19739 = "2024-01-17"%string /\
  exists m,
    WeekDates.mondayUTC 19739 = Some m /\
    WeekDates.weekDates m =
      Some (List.map (fun i => WeekDates.dateISO (m + i)%Z)
              [0; 1; 2; 3; 4; 5; 6]%Z) /\
    In (WeekDates.dateISO 19739)
       (List.map (fun i => WeekDates.dateISO (m + i)%Z)
          [0; 1; 2; 3; 4; 5; 6]%Z).
Proof.
  assert (H : (-99999994 <= 19739 <= 99999994)%Z) by lia.
  assert (Y : (JSDate.YearFromTime 19739 < 0 \/ 99 < JSDate.YearFromTime 19739)%Z)
    by (right; reflexivity).
  split; [exact H|]. split; [reflexivity|]. split; [reflexivity|].
  exact (proj1 (weekDates_contains_day 19739 H Y)).
Defined.

End Weeks.

(** ** Reading the CSV export back *)

Section CsvRoundTrip.
Import GroceryExport CsvReader.

Lemma join_rows (h : string) (m : JS.map string nat) :
  JS.join JS.NL (h :: List.map csv_row m) = (h ++ rows_text m)%string.
Proof.
  unfold JS.join. revert h. induction m as [|e m IH]; intros h.
  - simpl. now rewrite str_app_nil_r.
  - change (concat JS.NL (h :: List.map csv_row (e :: m)))
      with (h ++ JS.NL ++ concat JS.NL (csv_row e :: List.map csv_row m))%string.
    rewrite (IH (csv_row e)). reflexivity.
Qed.

Lemma all_digits_uint (d : Decimal.uint) :
  all_digits (NilEmpty.string_of_uint d) = true.
Proof. induction d; simpl; auto. Qed.

Lemma to_uint_not_nil (n : nat) : Nat.to_uint n <> Decimal.Nil.
Proof.
  rewrite <- (DecimalNat.Unsigned.of_to n) at 1.
  rewrite DecimalNat.Unsigned.to_of. unfold Decimal.unorm.
  destruct (Decimal.nzhead (Nat.to_uint n)); discriminate.
Qed.

Lemma dec_not_empty (n : nat) : JS.dec n <> "".
Proof.
  unfold JS.dec. assert (H := to_uint_not_nil n).
  destruct (Nat.to_uint n); simpl; congruence.
Qed.

Lemma read_digits_app (ds rest : string) :
  all_digits ds = true -> stops_digits rest = true ->
  read_digits (ds ++ rest) = (ds, rest).
Proof.
  intros Hds Hrest. induction ds as [|c ds IH].
  - destruct rest as [|c r]; [reflexivity|].
    cbn [append read_digits stops_digits] in *.
    apply negb_true_iff in Hrest. now rewrite Hrest.
  - cbn [append read_digits all_digits] in *.
    apply andb_prop in Hds. destruct Hds as [Hc Hds].
    rewrite Hc, (IH Hds). reflexivity.
Qed.

Lemma read_count_dec (n : nat) (rest : string) :
  stops_digits rest = true ->
  read_count (JS.dec n ++ rest) = Some (n, rest).
Proof.
  intros Hrest. unfold read_count.
  rewrite read_digits_app;
    [| apply all_digits_uint | assumption].
  assert (Hne := dec_not_empty n). unfold JS.dec in *.
  destruct (NilEmpty.string_of_uint (Nat.to_uint n)) eqn:E; [congruence|].
  rewrite <- E, NilEmpty.usu, DecimalNat.Unsigned.of_to. reflexivity.
Qed.

Lemma stops_digits_rows (m : JS.map string nat) :
  stops_digits (rows_text m) = true.
Proof. destruct m; reflexivity. Qed.

Lemma read_rows_step (fuel : nat) (r : string) :
  read_rows (S fuel) (String "010"%char r) =
  match read_quoted r with
  | Some (k, String comma rest) =>
      if Ascii.eqb comma ","%char then
        match read_count rest with
        | Some (n, rest') =>
            match read_rows fuel rest' with
            | Some rows => Some ((k, n) :: rows)
            | None => None
            end
        | None => None
        end
      else None
  | _ => None
  end.
Proof. reflexivity. Qed.

Lemma read_rows_text (m : JS.map string nat) (fuel : nat) :
  List.length m <= fuel -> read_rows fuel (rows_text m) = Some m.
Proof.
  revert fuel. induction m as [|[k v] m IH]; intros fuel Hfuel.
  - destruct fuel; reflexivity.
  - destruct fuel as [|fuel]; [simpl in Hfuel; lia|].
    change (rows_text ((k, v) :: m))
      with (String "010"%char
              ((JS.DQ ++ double_quotes k ++ JS.DQ) ++ "," ++ JS.dec v)
               ++ rows_text m)%string.
    change (String "010"%char
              ((JS.DQ ++ double_quotes k ++ JS.DQ) ++ "," ++ JS.dec v)
               ++ rows_text m)%string
      with (String "010"%char
              (((JS.DQ ++ double_quotes k ++ JS.DQ) ++ "," ++ JS.dec v)
               ++ rows_text m))%string.
    rewrite read_rows_step, !str_app_assoc.
    rewrite read_quoted_double_quotes by reflexivity.
    change ("," ++ JS.dec v ++ rows_text m)%string
      with (String ","%char (JS.dec v ++ rows_text m)).
    cbv beta iota. rewrite Ascii.eqb_refl.
    rewrite read_count_dec by apply stops_digits_rows.
    rewrite IH by (simpl in Hfuel; lia). reflexivity.
Qed.

Lemma str_length_app (a b : string) :
  String.length (a ++ b) = String.length a + String.length b.
Proof. induction a as [|c a IH]; simpl; [reflexivity | now rewrite IH]. Qed.

Lemma rows_text_length (m : JS.map string nat) :
  List.length m <= String.length (rows_text m).
Proof.
  induction m as [|e m IH]; [simpl; lia|].
  change (rows_text (e :: m))
    with (String "010"%char (csv_row e ++ rows_text m)).
  cbn [String.length List.length]. rewrite str_length_app. lia.
Qed.

End CsvRoundTrip.

(** X5: the CSV export can be read back: a reader that takes the header,
    then per record a newline, a quoted field with doubled quotes read as
    one, a comma and a decimal count, returns the exported list, item for
    item, whatever the items contain (quotes, commas, newlines).  So two
    different lists never export to the same file, and the file written by
    [exportCsv] and [buildCombinedGrocery] holds the aggregated list. *)
Theorem toCsv_reads_back :
  (forall m : JS.map string nat,
      CsvReader.read_csv (GroceryExport.toCsv m) = Some m) /\
  (forall m1 m2 : JS.map string nat,
      GroceryExport.toCsv m1 = GroceryExport.toCsv m2 -> m1 = m2) /\
  (forall plans : option (list DayPlan),
      CsvReader.read_csv (GroceryExport.text (GroceryExport.exportCsv plans)) =
        Some (Grocery.aggregateIngredients plans) /\
      CsvReader.read_csv (GroceryExport.buildCombinedGrocery plans "csv") =
        Some (Grocery.combinedItems plans)).
Proof.
  assert (Hread : forall m : JS.map string nat,
             CsvReader.read_csv (GroceryExport.toCsv m) = Some m).
  { intros m. unfold GroceryExport.toCsv.
    rewrite push_entries_map. simpl app. rewrite join_rows.
    unfold CsvReader.read_csv.
    change (CsvReader.strip_prefix "item,count" ("item,count" ++ rows_text m))
      with (Some (rows_text m)).
    apply read_rows_text.
    rewrite str_length_app. assert (H := rows_text_length m). lia. }
  split; [exact Hread|]. split.
  - intros m1 m2 Heq.
    assert (H : Some m1 = Some m2) by (rewrite <- !Hread; now rewrite Heq).
    now injection H.
  - intros plans. split; apply Hread.
Qed.

(** ** What the grocery counts add up to *)

Section GroceryTotals.
Import GrocerySpec.

Lemma list_sum_filter_ne (f : string -> nat) (x : string) (l : list string) :
  NoDup l ->
  list_sum (List.map f l) =
  (if existsb (String.eqb x) l then f x else 0) +
  list_sum (List.map f (filter (fun y => negb (String.eqb y x)) l)).
Proof.
  induction l as [|y l IH]; intros Hnd; simpl; [reflexivity|].
  inversion Hnd as [|? ? Hy Hl]; subst.
  rewrite (IH Hl). rewrite (String.eqb_sym y x).
  destruct (String.eqb_spec x y) as [->|Hne]; simpl.
  - assert (E : existsb (String.eqb y) l = false).
    { destruct (existsb (String.eqb y) l) eqn:E; [|reflexivity].
      apply existsb_eqb_In in E. contradiction. }
    rewrite E. lia.
  - destruct (existsb (String.eqb x) l); lia.
Qed.

Lemma counted_sum (xs : list string) :
  list_sum (List.map snd (counted xs)) = List.length xs.
Proof.
  unfold counted. rewrite map_map. simpl.
  induction xs as [|x r IH]; simpl; [reflexivity|].
  destruct (string_dec x x) as [_|]; [|congruence].
  f_equal.
  rewrite (map_ext_in _ (fun k => count_occ string_dec r k)).
  - rewrite <- IH.
    rewrite (list_sum_filter_ne (fun k => count_occ string_dec r k) x
               (first_seen r) (first_seen_NoDup r)).
    rewrite existsb_first_seen.
    destruct (existsb (String.eqb x) r) eqn:E; [reflexivity|].
    assert (Hn : ~ In x r).
    { intros Hin. apply existsb_eqb_In in Hin. congruence. }
    apply (count_occ_not_In string_dec) in Hn. now rewrite Hn.
  - intros k Hk. apply filter_In in Hk. destruct Hk as [_ Hk].
    apply negb_true_iff, String.eqb_neq in Hk.
    destruct (string_dec x k); congruence.
Qed.

Lemma count_of_counted (xs : list string) (k : string) :
  count_of k (counted xs) = count_occ string_dec xs k.
Proof.
  unfold count_of, counted. rewrite get_tabulate, existsb_first_seen.
  destruct (existsb (String.eqb k) xs) eqn:E; [reflexivity|].
  assert (Hn : ~ In k xs).
  { intros Hin. apply existsb_eqb_In in Hin. congruence. }
  apply (count_occ_not_In string_dec) in Hn. now rewrite Hn.
Qed.

Lemma filter_perm {A : Type} (p : A -> bool) (l l' : list A) :
  Permutation l l' -> Permutation (filter p l) (filter p l').
Proof.
  induction 1; simpl.
  - constructor.
  - destruct (p x); [now constructor | assumption].
  - destruct (p x), (p y); try reflexivity. apply perm_swap.
  - now transitivity (filter p l').
Qed.

Lemma trimStart_fixed (t : string) :
  is_ws_opt (first_char t) = false -> JS.trimStart t = t.
Proof. destruct t as [|c r]; simpl; [reflexivity|]. now intros ->. Qed.

Lemma trimEnd_fixed (t : string) :
  is_ws_opt (last_char t) = false -> JS.trimEnd t = t.
Proof.
  induction t as [|c r IH]; simpl; [reflexivity|].
  destruct r as [|c' r'].
  - simpl. now intros ->.
  - intros H. rewrite (IH H). reflexivity.
Qed.

Lemma trim_idempotent (s : string) : JS.trim (JS.trim s) = JS.trim s.
Proof.
  destruct (trim_split s) as [pre [post [_ [_ [_ [Hf Hl]]]]]].
  unfold JS.trim at 1. rewrite (trimStart_fixed _ Hf). now apply trimEnd_fixed.
Qed.

End GroceryTotals.

(** X6: the counts of an aggregated grocery list add up to the number of
    non-blank strings that went in; the count of an item does not depend
    on the order of the input; aggregating one list after another adds the
    counts item by item; and every key is already trimmed, so aggregating
    the keys again changes none of them. *)
Theorem grocery_counts_add_up :
  (forall raws : list (option string),
      list_sum (List.map snd (Grocery.tally_all [] raws)) =
      List.length (GrocerySpec.kept raws)) /\
  (forall (raws raws' : list (option string)) (k : string),
      Permutation raws raws' ->
      count_of k (Grocery.tally_all [] raws) =
      count_of k (Grocery.tally_all [] raws')) /\
  (forall (a b : list (option string)) (k : string),
      count_of k (Grocery.tally_all (Grocery.tally_all [] a) b) =
      count_of k (Grocery.tally_all [] a) + count_of k (Grocery.tally_all [] b)) /\
  (forall (raws : list (option string)) (k : string),
      In k (JS.keys (Grocery.tally_all [] raws)) -> JS.trim k = k) /\
  (forall raws : list (option string),
      JS.keys (Grocery.tally_all []
                 (List.map Some (JS.keys (Grocery.tally_all [] raws)))) =
      JS.keys (Grocery.tally_all [] raws)).
Proof.
  assert (Hfold : forall raws,
             Grocery.tally_all [] raws = GrocerySpec.aggregated raws).
  { intros raws. apply (tally_all_counted raws []). }
  assert (Htrim : forall raws k, In k (GrocerySpec.kept raws) -> JS.trim k = k).
  { intros raws k Hin. unfold GrocerySpec.kept in Hin.
    apply filter_In in Hin. destruct Hin as [Hin _].
    apply in_map_iff in Hin. destruct Hin as [r [<- _]].
    apply trim_idempotent. }
  assert (Hkeys : forall raws,
             JS.keys (GrocerySpec.aggregated raws) =
             GrocerySpec.first_seen (GrocerySpec.kept raws)).
  { intros raws. unfold JS.keys, GrocerySpec.aggregated, GrocerySpec.counted.
    rewrite map_map. simpl. apply map_id. }
  split; [|split; [|split; [|split]]].
  - intros raws. rewrite Hfold. apply counted_sum.
  - intros raws raws' k Hp. rewrite !Hfold.
    unfold GrocerySpec.aggregated. rewrite !count_of_counted.
    apply Permutation_count_occ. unfold GrocerySpec.kept.
    apply filter_perm. now apply Permutation_map.
  - intros a b k.
    assert (Hab := tally_all_counted b (GrocerySpec.kept a)).
    rewrite (Hfold a), (Hfold b). unfold GrocerySpec.aggregated.
    rewrite Hab, !count_of_counted. apply count_occ_app.
  - intros raws k. rewrite Hfold, Hkeys, first_seen_In. apply Htrim.
  - intros raws. rewrite !Hfold, !Hkeys.
    set (ks := GrocerySpec.first_seen (GrocerySpec.kept raws)).
    assert (Hk : GrocerySpec.kept (List.map Some ks) = ks).
    { unfold GrocerySpec.kept. rewrite map_map. simpl.
      assert (Hall : forall k, In k ks -> JS.trim k = k /\ JS.falsy k = false).
      { intros k Hin. unfold ks in Hin. rewrite first_seen_In in Hin.
        split; [now apply (Htrim raws)|].
        apply kept_nonempty in Hin. destruct k; [congruence | reflexivity]. }
      clearbody ks. induction ks as [|k ks IH]; simpl; [reflexivity|].
      destruct (Hall k (or_introl eq_refl)) as [Ht Hf].
      rewrite Ht, Hf. simpl. f_equal. apply IH.
      intros k' Hin. apply Hall. now right. }
    rewrite Hk. unfold ks.
    generalize (GrocerySpec.kept raws) as xs. intros xs.
    assert (Hnd := first_seen_NoDup xs).
    induction (GrocerySpec.first_seen xs) as [|x l IH]; simpl; [reflexivity|].
    inversion Hnd as [|? ? Hx Hl]; subst. f_equal.
    rewrite (IH Hl).
    clear IH Hl Hnd. induction l as [|y l IH]; simpl; [reflexivity|].
    destruct (String.eqb_spec y x) as [->|Hne]; simpl.
    + exfalso. apply Hx. now left.
    + f_equal. apply IH. intros Hin. apply Hx. now right.
Qed.

(** ** Closed forms and range edges of [aggregateClientSide] *)

Section ClosedForms.
Import Summary.
Variables today fromISO toISO : string.

Let run (l : list Activity) : Acc := fold_left (step today fromISO toISO) l init.
Local Abbreviation inr := (in_range today fromISO toISO).

Lemma in_set_nodup {V : Type} (k : string) (v : V) (m : JS.map string V)
    (k' : string) (v' : V) :
  NoDup (JS.keys m) ->
  In (k', v') (JS.set String.eqb k v m) ->
  (k' = k /\ v' = v) \/ (k' <> k /\ In (k', v') m).
Proof.
  unfold JS.keys. induction m as [|[k0 v0] m IH]; simpl; intros Hnd Hin.
  - destruct Hin as [[= <- <-] | []]. now left.
  - inversion Hnd as [|? ? Hk0 Hm]; subst.
    destruct (String.eqb_spec k k0) as [->|Hne]; simpl in Hin.
    + destruct Hin as [[= <- <-] | Hin]; [now left|].
      right. split; [|now right].
      intros ->. apply Hk0. apply in_map_iff. now exists (k0, v').
    + destruct Hin as [[= <- <-] | Hin].
      * right. split; [congruence | now left].
      * destruct (IH Hm Hin) as [H | [H1 H2]]; [now left | right].
        split; [assumption | now right].
Qed.

Lemma run_total_closed (l : list Activity) :
  totalK (run l) = sumZ (List.map rounded_kcal (filter inr l)).
Proof.
  induction l as [|a l IH] using rev_ind; [reflexivity|].
  unfold run in *. rewrite fold_left_app, filter_app, map_app, sumZ_app.
  simpl fold_left. unfold step at 1. fold (in_range today fromISO toISO a).
  simpl filter.
  destruct (inr a); simpl; [|rewrite IH; lia].
  rewrite IH. unfold rounded_kcal. lia.
Qed.

Lemma run_keys_nodup (l : list Activity) : NoDup (JS.keys (daysMap (run l))).
Proof.
  unfold run. rewrite (run_keys today fromISO toISO l).
  apply first_seen_NoDup.
Qed.

Lemma on_date_snoc (day : string) (l : list Activity) (a : Activity) :
  on_date today fromISO toISO day (l ++ [a]) =
  on_date today fromISO toISO day l ++
  (if inr a && String.eqb (activity_date today a) day then [a] else []).
Proof.
  unfold on_date. rewrite filter_app. simpl.
  destruct (inr a && String.eqb (activity_date today a) day); reflexivity.
Qed.

Lemma on_date_none (day : string) (l : list Activity) :
  ~ In day (JS.keys (daysMap (run l))) ->
  on_date today fromISO toISO day l = [].
Proof.
  unfold run. rewrite (run_keys today fromISO toISO l), first_seen_In.
  intros Hnot. unfold on_date.
  induction l as [|a l IH]; simpl in *; [reflexivity|].
  destruct (inr a) eqn:E; simpl in *.
  - destruct (String.eqb_spec (activity_date today a) day) as [Heq|Hne].
    + exfalso. apply Hnot. now left.
    + apply IH. intros Hin. apply Hnot. now right.
  - now apply IH.
Qed.

Lemma run_day_closed (l : list Activity) (k : string) (d : Day) :
  In (k, d) (daysMap (run l)) ->
  training_kcal d =
  sumZ (List.map rounded_kcal (on_date today fromISO toISO k l)).
Proof.
  revert k d. induction l as [|a l IH] using rev_ind; intros k d; [intros []|].
  assert (Hnd := run_keys_nodup l).
  assert (Hnone := fun day => on_date_none day l).
  rewrite on_date_snoc, map_app, sumZ_app.
  unfold run in *. rewrite fold_left_app. simpl fold_left.
  set (acc := fold_left (step today fromISO toISO) l init) in *.
  unfold step. fold (in_range today fromISO toISO a).
  destruct (inr a) eqn:E; simpl andb.
  - simpl negb. cbv iota. simpl daysMap. intros Hin.
    apply in_set_nodup in Hin; [|exact Hnd].
    destruct Hin as [[-> ->] | [Hne Hin]].
    + rewrite String.eqb_refl. simpl training_kcal.
      destruct (JS.get String.eqb (activity_date today a) (daysMap acc)) eqn:G.
      * apply get_in in G. rewrite (IH _ _ G). unfold rounded_kcal. simpl. lia.
      * rewrite Hnone by now apply get_None_keys.
        unfold rounded_kcal. simpl. lia.
    + apply String.eqb_neq in Hne. rewrite String.eqb_sym in Hne.
      rewrite Hne. simpl. rewrite (IH _ _ Hin). lia.
  - simpl. intros Hin. rewrite (IH _ _ Hin). lia.
Qed.

End ClosedForms.

Section RangeEdges.
Import Summary.

Lemma le_trans (a b c : string) :
  JS.le a b = true -> JS.le b c = true -> JS.le a c = true.
Proof.
  rewrite !le_lt_or_eq. intros [Hab | ->] [Hbc | ->]; auto.
  left. now apply lt_trans with (b := b).
Qed.

Lemma lt_not_le (a b : string) : JS.lt a b = true -> JS.le b a = false.
Proof.
  unfold JS.lt, JS.le, String.ltb. rewrite (String.compare_antisym b a).
  destruct (String.compare a b); simpl; congruence.
Qed.

Lemma filter_none {A : Type} (p : A -> bool) (l : list A) :
  (forall a, p a = false) -> filter p l = [].
Proof.
  intros H. induction l as [|a l IH]; simpl; [reflexivity|]. now rewrite H.
Qed.

Lemma filter_length_le {A : Type} (p q : A -> bool) (l : list A) :
  (forall a, p a = true -> q a = true) ->
  List.length (filter p l) <= List.length (filter q l).
Proof.
  intros H. induction l as [|a l IH]; simpl; [lia|].
  destruct (p a) eqn:E.
  - rewrite (H a E). simpl. lia.
  - destruct (q a); simpl; lia.
Qed.

End RangeEdges.

Section ExactSums.
Import Summary.

Lemma abs_sumZ {A : Type} (f : A -> Z) (l : list A) :
  (Z.abs (sumZ (List.map f l)) <= sumZ (List.map (fun a => Z.abs (f a)) l))%Z.
Proof. induction l as [|a l IH]; simpl; lia. Qed.

Lemma abs_sum_nonneg {A : Type} (f : A -> Z) (l : list A) :
  (0 <= sumZ (List.map (fun a => Z.abs (f a)) l))%Z.
Proof. induction l as [|a l IH]; simpl; lia. Qed.

Lemma abs_sum_filter {A : Type} (f : A -> Z) (p q : A -> bool) (l : list A) :
  (forall a, p a = true -> q a = true) ->
  (sumZ (List.map (fun a => Z.abs (f a)) (filter p l)) <=
   sumZ (List.map (fun a => Z.abs (f a)) (filter q l)))%Z.
Proof.
  intros Hpq. induction l as [|a l IH]; simpl; [lia|].
  destruct (p a) eqn:Ep.
  - rewrite (Hpq a Ep). simpl. lia.
  - destruct (q a); simpl; [|exact IH].
    assert (H := abs_sum_nonneg f (filter p l)). lia.
Qed.

Lemma sums_exact_app (today fromISO toISO : string) (a b : list Activity) :
  sums_exact today fromISO toISO (a ++ b) ->
  sums_exact today fromISO toISO a /\ sums_exact today fromISO toISO b.
Proof.
  unfold sums_exact. rewrite filter_app, map_app, sumZ_app. intros H.
  assert (Ha := abs_sum_nonneg rounded_kcal (filter (in_range today fromISO toISO) a)).
  assert (Hb := abs_sum_nonneg rounded_kcal (filter (in_range today fromISO toISO) b)).
  split; lia.
Qed.

End ExactSums.

(** X1: the totals of [aggregateClientSide] agree with one another.  For
    activities whose sums stay exact (the magnitudes of the rounded kcal of
    the counted ones add up to at most 2^53), the total is the sum over the
    days and the sum over the sports, and is itself at most 2^53 in
    magnitude; the count is the number of activities in range; the
    per-day breakdown adds up to the day's total as long as no counted
    activity has a sport that reads as the name of an inherited object
    member. *)
Theorem summary_totals_consistent
    (today : string) (items : list Activity) (fromISO toISO : string)
    (Hexact : sums_exact today fromISO toISO items) :
  let r := Summary.aggregateClientSide today items fromISO toISO in
  Summary.total_training_kcal r =
    Summary.sumZ (List.map Summary.training_kcal (Summary.days r)) /\
  Summary.total_training_kcal r =
    Summary.sumZ (List.map snd (Summary.totals_by_sport r)) /\
  (Z.abs (Summary.total_training_kcal r) <= 2 ^ 53)%Z /\
  Summary.activity_count r =
    List.length (filter (Summary.in_range today fromISO toISO) items) /\
  ((forall a, In a items -> Summary.in_range today fromISO toISO a = true ->
      Sport.inherited (Summary.prop_key (Sport.normalizeSport a)) = false) ->
   forall d, In d (Summary.days r) ->
     Summary.by_sport_sum (Summary.by_sport d) = Some (Summary.training_kcal d)).
Proof.
  intros r. unfold r, Summary.aggregateClientSide. simpl.
  split; [|split; [|split; [|split]]].
  - rewrite run_total_days. apply sumZ_perm. apply Permutation_map.
    apply Permutation_sym, sort_by_perm.
  - apply run_total_sports.
  - rewrite run_total_closed.
    eapply Z.le_trans; [apply abs_sumZ|exact Hexact].
  - apply run_count.
  - intros Hkeys d Hd.
    apply (Permutation_in _ (sort_by_perm _ _)) in Hd.
    unfold JS.values in Hd. apply in_map_iff in Hd.
    destruct Hd as [[k d'] [<- Hin]]. simpl.
    now apply (run_by_sport today fromISO toISO items Hkeys k d').
Qed.

Lemma summary_totals_january :
  sums_exact "2024-03-10" "2024-01-01" "2024-01-31" january_items /\
  Summary.total_training_kcal
    (Summary.aggregateClientSide "2024-03-10" january_items
       "2024-01-01" "2024-01-31") =
  Summary.sumZ
    (List.map Summary.training_kcal
       (Summary.days (Summary.aggregateClientSide "2024-03-10" january_items
                        "2024-01-01" "2024-01-31"))).
Proof.
  assert (H : sums_exact "2024-03-10" "2024-01-01" "2024-01-31" january_items)
    by (vm_compute; discriminate).
  split; [exact H|].
  exact (proj1 (summary_totals_consistent "2024-03-10" january_items
                  "2024-01-01" "2024-01-31" H)).
Defined.

(** X7: [aggregateClientSide] in closed form, for activities whose sums
    stay exact (the magnitudes of the rounded kcal of the counted ones add
    up to at most 2^53).  The total is the sum of the rounded kcal of the
    activities in range, and each returned day carries the sum of the
    rounded kcal of the activities in range that fall on its date; both
    are at most 2^53 in magnitude.  Counts and totals of two batches add
    up when the batches are aggregated together and their sums stay
    exact. *)
Theorem summary_closed_form
    (today : string) (items : list Activity) (fromISO toISO : string)
    (Hexact : sums_exact today fromISO toISO items) :
  let r := Summary.aggregateClientSide today items fromISO toISO in
  Summary.total_training_kcal r =
    Summary.sumZ (List.map rounded_kcal
                    (filter (Summary.in_range today fromISO toISO) items)) /\
  (Z.abs (Summary.total_training_kcal r) <= 2 ^ 53)%Z /\
  (forall d : Summary.Day,
      In d (Summary.days r) ->
      Summary.training_kcal d =
        Summary.sumZ (List.map rounded_kcal
                        (on_date today fromISO toISO (Summary.day_date d) items)) /\
      (Z.abs (Summary.training_kcal d) <= 2 ^ 53)%Z /\
      on_date today fromISO toISO (Summary.day_date d) items <> []) /\
  (forall more : list Activity,
      sums_exact today fromISO toISO (items ++ more) ->
      let r2 := Summary.aggregateClientSide today more fromISO toISO in
      let both := Summary.aggregateClientSide today (items ++ more) fromISO toISO in
      Summary.total_training_kcal both =
        (Summary.total_training_kcal r + Summary.total_training_kcal r2)%Z /\
      Summary.activity_count both =
        Summary.activity_count r + Summary.activity_count r2).
Proof.
  intros r.
  assert (Htotal : forall l,
             Summary.total_training_kcal
               (Summary.aggregateClientSide today l fromISO toISO) =
             Summary.sumZ (List.map rounded_kcal
                             (filter (Summary.in_range today fromISO toISO) l))).
  { intros l. apply run_total_closed. }
  split; [apply Htotal|]. split; [|split].
  - unfold r. rewrite Htotal.
    eapply Z.le_trans; [apply abs_sumZ|exact Hexact].
  - intros d Hd. unfold r, Summary.aggregateClientSide in Hd. simpl in Hd.
    apply (Permutation_in _ (sort_by_perm _ _)) in Hd.
    unfold JS.values in Hd. apply in_map_iff in Hd.
    destruct Hd as [[k d'] [Heq Hin]]. simpl in Heq. subst d'.
    assert (Hk := run_day_dates today fromISO toISO items k d Hin).
    rewrite Hk.
    assert (Hsum := run_day_closed today fromISO toISO items k d Hin).
    split; [exact Hsum|]. split.
    + rewrite Hsum.
      eapply Z.le_trans; [apply abs_sumZ|].
      eapply Z.le_trans; [|exact Hexact].
      unfold on_date. apply abs_sum_filter.
      intros a Ha. apply andb_true_iff in Ha. tauto.
    + intros Hnil.
      assert (Hkey : In k (JS.keys (Summary.daysMap
                 (fold_left (Summary.step today fromISO toISO) items Summary.init)))).
      { unfold JS.keys. apply in_map_iff. now exists (k, d). }
      rewrite (run_keys today fromISO toISO items), first_seen_In in Hkey.
      apply in_map_iff in Hkey. destruct Hkey as [a [Hdate Ha]].
      assert (Hin' : In a (on_date today fromISO toISO k items)).
      { unfold on_date. apply filter_In in Ha. apply filter_In.
        split; [tauto|]. destruct Ha as [_ ->]. simpl.
        now apply String.eqb_eq. }
      rewrite Hnil in Hin'. contradiction.
  - intros more _ r2 both. unfold both, r, r2. split.
    + rewrite !Htotal, filter_app, map_app. apply sumZ_app.
    + rewrite !aggregate_count, filter_app. apply length_app.
Qed.

Lemma summary_closed_form_january :
  sums_exact "2024-03-10" "2024-01-01" "2024-01-31" january_items /\
  Summary.total_training_kcal
    (Summary.aggregateClientSide "2024-03-10" january_items
       "2024-01-01" "2024-01-31") =
  Summary.sumZ
    (List.map rounded_kcal
       (filter (Summary.in_range "2024-03-10" "2024-01-01" "2024-01-31")
          january_items)).
Proof.
  assert (H : sums_exact "2024-03-10" "2024-01-01" "2024-01-31" january_items)
    by (vm_compute; discriminate).
  split; [exact H|].
  exact (proj1 (summary_closed_form "2024-03-10" january_items
                  "2024-01-01" "2024-01-31" H)).
Defined.

(** X8: a range whose end precedes its start counts nothing: the summary is
    the empty one, whatever the activities. *)
Theorem inverted_range_counts_nothing
    (today : string) (items : list Activity) (fromISO toISO : string) :
  JS.lt toISO fromISO = true ->
  Summary.aggregateClientSide today items fromISO toISO = empty_result /\
  SummaryPage.groupByDateAndSport today items fromISO toISO = [].
Proof.
  intros Hinv.
  assert (Hout : forall d, Summary.within fromISO toISO d = false).
  { intros d. unfold Summary.within, JS.ge.
    destruct (JS.le fromISO d) eqn:E1; [|reflexivity].
    destruct (JS.le d toISO) eqn:E2; [|reflexivity].
    assert (H := le_trans _ _ _ E1 E2).
    rewrite (lt_not_le _ _ Hinv) in H. discriminate. }
  split.
  - rewrite <- aggregate_filter.
    rewrite filter_none; [reflexivity|].
    intros a. apply Hout.
  - unfold SummaryPage.groupByDateAndSport.
    induction items as [|a l IH] using rev_ind; [reflexivity|].
    rewrite fold_left_app, IH. simpl. unfold SummaryPage.step.
    change (SummaryPage.inRange (Summary.activity_date today a) fromISO toISO)
      with (Summary.within fromISO toISO (Summary.activity_date today a)).
    now rewrite Hout.
Qed.

Lemma inverted_range_january :
  JS.lt "2024-01-01" "2024-01-31" = true /\
  (Summary.aggregateClientSide "2024-03-10" january_items
     "2024-01-31" "2024-01-01" = empty_result /\
   SummaryPage.groupByDateAndSport "2024-03-10" january_items
     "2024-01-31" "2024-01-01" = []).
Proof.
  split; [reflexivity|].
  apply (inverted_range_counts_nothing
           "2024-03-10" january_items "2024-01-31" "2024-01-01").
  reflexivity.
Defined.

(** X9: widening the range never loses an activity: with an earlier start
    and a later end, every activity counted before is still counted, so the
    activity count does not decrease. *)
Theorem wider_range_counts_more
    (today : string) (items : list Activity) (from1 to1 from2 to2 : string) :
  JS.le from2 from1 = true -> JS.le to1 to2 = true ->
  (forall a, Summary.in_range today from1 to1 a = true ->
             Summary.in_range today from2 to2 a = true) /\
  Summary.activity_count (Summary.aggregateClientSide today items from1 to1) <=
  Summary.activity_count (Summary.aggregateClientSide today items from2 to2).
Proof.
  intros Hfrom Hto.
  assert (Hin : forall a, Summary.in_range today from1 to1 a = true ->
                          Summary.in_range today from2 to2 a = true).
  { intros a. unfold Summary.in_range, Summary.within, JS.ge.
    rewrite !andb_true_iff. intros [H1 H2]. split.
    - now apply le_trans with (b := from1).
    - now apply le_trans with (b := to1). }
  split; [exact Hin|].
  rewrite !aggregate_count. now apply filter_length_le.
Qed.

Lemma wider_range_january :
  (JS.le "2024-01-01" "2024-01-10" = true /\
   JS.le "2024-01-20" "2024-02-28" = true) /\
  ((forall a, Summary.in_range "2024-03-10" "2024-01-10" "2024-01-20" a = true ->
              Summary.in_range "2024-03-10" "2024-01-01" "2024-02-28" a = true) /\
   Summary.activity_count
     (Summary.aggregateClientSide "2024-03-10" january_items
        "2024-01-10" "2024-01-20") <=
   Summary.activity_count
     (Summary.aggregateClientSide "2024-03-10" january_items
        "2024-01-01" "2024-02-28")).
Proof.
  split; [split; reflexivity|].
  apply (wider_range_counts_more "2024-03-10" january_items
           "2024-01-10" "2024-01-20" "2024-01-01" "2024-02-28"); reflexivity.
Defined.

(** ** The token store of the module build *)

Section TokenStore.
Import WebApp.

Lemma getItem_setItem (k v : string) (s : Storage) :
  getItem k (setItem k v s) = Some v.
Proof.
  unfold getItem, setItem.
  induction s as [|[k' v'] r IH]; cbn.
  - now rewrite String.eqb_refl.
  - destruct (String.eqb k k') eqn:E; cbn.
    + now rewrite String.eqb_refl.
    + now rewrite E.
Qed.

Lemma getItem_removeItem (k k' : string) (s : Storage) :
  getItem k (removeItem k' s) =
  if String.eqb k k' then None else getItem k s.
Proof.
  unfold getItem, removeItem.
  induction s as [|[k0 v0] r IH]; cbn.
  - now destruct (String.eqb k k').
  - destruct (String.eqb k0 k') eqn:E0; cbn.
    + apply String.eqb_eq in E0. subst k0. rewrite IH.
      now destruct (String.eqb k k').
    + rewrite IH. destruct (String.eqb k k0) eqn:E1.
      * apply String.eqb_eq in E1. subst k0. now rewrite E0.
      * reflexivity.
Qed.

Lemma getItem_cleared_local (k : string) (b : Browser) :
  getItem k (localStorage (clearToken b)) =
  if existsb (String.eqb k) token_keys then None
  else getItem k (localStorage b).
Proof.
  unfold clearToken, token_keys.
  cbn [fold_left localStorage sessionStorage with_access existsb].
  rewrite !getItem_removeItem.
  repeat match goal with |- context [String.eqb k ?x] =>
    destruct (String.eqb k x); cbn; try reflexivity end.
Qed.

Lemma getItem_cleared_session (k : string) (b : Browser) :
  getItem k (sessionStorage (clearToken b)) =
  if existsb (String.eqb k) token_keys then None
  else getItem k (sessionStorage b).
Proof.
  unfold clearToken, token_keys.
  cbn [fold_left localStorage sessionStorage with_access existsb].
  rewrite !getItem_removeItem.
  repeat match goal with |- context [String.eqb k ?x] =>
    destruct (String.eqb k x); cbn; try reflexivity end.
Qed.

Lemma stored_cleared (b : Browser) : stored (clearToken b) = None.
Proof.
  unfold stored.
  now rewrite !getItem_cleared_local, !getItem_cleared_session.
Qed.

Lemma stored_with_access (a : option string) (b : Browser) :
  stored (with_access a b) = stored b.
Proof. reflexivity. Qed.

End TokenStore.

(** X10: a token stored with setToken is the one getToken returns after
    the page is loaded again (window.ACCESS gone, storages kept),
    whatever older tokens sit under the legacy keys; and that call puts
    the page back in the state setToken left.  The token must not be the
    empty string. *)
Theorem setToken_survives_reload (t : string) (b : WebApp.Browser)
    (Ht : t <> "") :
  WebApp.getToken (WebApp.reload (WebApp.setToken t b)) =
  (t, WebApp.setToken t b).
Proof.
  unfold WebApp.getToken, WebApp.reload. cbn [WebApp.ACCESS WebApp.with_access].
  unfold WebApp.stored. cbn [WebApp.localStorage WebApp.sessionStorage
    WebApp.with_access WebApp.setToken].
  rewrite getItem_setItem.
  destruct t as [|c t]; [congruence|].
  reflexivity.
Qed.

Lemma setToken_survives_reload_abc :
  "abc" <> "" /\
  WebApp.getToken
    (WebApp.reload
       (WebApp.setToken "abc"
          {| WebApp.ACCESS := None;
             WebApp.localStorage := [("token", "old")];
             WebApp.sessionStorage := [];
             WebApp.pathname := "/ui/plan.html";
             WebApp.search := "";
             WebApp.replaced := [] |})) =
  ("abc",
   WebApp.setToken "abc"
     {| WebApp.ACCESS := None;
        WebApp.localStorage := [("token", "old")];
        WebApp.sessionStorage := [];
        WebApp.pathname := "/ui/plan.html";
        WebApp.search := "";
        WebApp.replaced := [] |}).
Proof.
  split; [discriminate|].
  apply (setToken_survives_reload "abc"). discriminate.
Defined.

(** X11: after clearToken no token is left anywhere: getToken returns the
    empty string at once and after a reload, without changing the state,
    and ensureAuthOrRedirect sends the page to the login page with the
    current path as the return address.  Entries of the storages under
    other keys than the four token keys are kept. *)
Theorem clearToken_forgets (b : WebApp.Browser) :
  WebApp.getToken (WebApp.clearToken b) = ("", WebApp.clearToken b) /\
  WebApp.getToken (WebApp.reload (WebApp.clearToken b)) =
    ("", WebApp.reload (WebApp.clearToken b)) /\
  (forall returnUrl,
     WebApp.replaced (snd (WebApp.ensureAuthOrRedirect returnUrl (WebApp.clearToken b))) =
     WebApp.replaced b ++
     [WebApp.login_target
        (if JS.falsy returnUrl
         then (WebApp.pathname b ++ WebApp.search b)%string else returnUrl)]) /\
  (forall k, ~ In k WebApp.token_keys ->
     WebApp.getItem k (WebApp.localStorage (WebApp.clearToken b)) =
       WebApp.getItem k (WebApp.localStorage b) /\
     WebApp.getItem k (WebApp.sessionStorage (WebApp.clearToken b)) =
       WebApp.getItem k (WebApp.sessionStorage b)).
Proof.
  assert (G : WebApp.getToken (WebApp.clearToken b) = ("", WebApp.clearToken b)).
  { unfold WebApp.getToken. rewrite stored_cleared.
    now destruct (WebApp.ACCESS (WebApp.clearToken b)) as [[|c a]|] eqn:E;
      [| unfold WebApp.clearToken in E; cbn in E; discriminate |]. }
  split; [exact G|]. split; [|split].
  - unfold WebApp.getToken, WebApp.reload.
    rewrite stored_with_access, stored_cleared. reflexivity.
  - intros returnUrl. unfold WebApp.ensureAuthOrRedirect. rewrite G.
    cbn [JS.falsy negb WebApp.replaced]. reflexivity.
  - intros k Hk.
    rewrite getItem_cleared_local, getItem_cleared_session.
    destruct (existsb (String.eqb k) WebApp.token_keys) eqn:E; [|now split].
    apply existsb_exists in E. destruct E as [x [Hx E]].
    apply String.eqb_eq in E. subst x. contradiction.
Qed.

(** X12: getToken is a cache: it changes nothing but window.ACCESS, a
    second call returns the same token and leaves the state as the first
    left it, and a token it returned once is returned again even after
    both storages were emptied by another tab. *)
Theorem getToken_caches (b : WebApp.Browser) :
  let t := fst (WebApp.getToken b) in
  let b' := snd (WebApp.getToken b) in
  WebApp.getToken b' = (t, b') /\
  WebApp.localStorage b' = WebApp.localStorage b /\
  WebApp.sessionStorage b' = WebApp.sessionStorage b /\
  WebApp.replaced b' = WebApp.replaced b /\
  (t <> "" ->
   forall ls ss,
     fst (WebApp.getToken
            {| WebApp.ACCESS := WebApp.ACCESS b';
               WebApp.localStorage := ls; WebApp.sessionStorage := ss;
               WebApp.pathname := WebApp.pathname b';
               WebApp.search := WebApp.search b';
               WebApp.replaced := WebApp.replaced b' |}) = t).
Proof.
  cbv zeta. unfold WebApp.getToken.
  destruct (WebApp.ACCESS b) as [[|c a]|] eqn:EA.
  - destruct (WebApp.stored b) as [[|c t]|] eqn:ES; cbn.
    + rewrite EA, ES. repeat split; congruence.
    + repeat split; congruence.
    + rewrite EA, ES. repeat split; congruence.
  - cbn. rewrite EA. repeat split; congruence.
  - destruct (WebApp.stored b) as [[|c t]|] eqn:ES; cbn.
    + rewrite EA, ES. repeat split; congruence.
    + repeat split; congruence.
    + rewrite EA, ES. repeat split; congruence.
Qed.

(** X13: when the API wrapper sends the page to the login page.  It
    never touches the storages.  It calls location.replace exactly when
    the status is 401, the body could be read and no token is stored, and
    then the error thrown is the one of the redirect, not the body.  With
    a token stored, also one the server no longer accepts, a 401 is
    reported like any other failure, with the body as the message, and
    the page stays.  Data is returned only for a 2xx status. *)
Theorem api_redirects_only_without_token
    (stringify : Http.json -> string) (b : WebApp.Browser)
    (res : Http.Response) :
  let out := WebApp.api stringify b res in
  let target :=
    WebApp.login_target (WebApp.pathname b ++ WebApp.search b)%string in
  WebApp.localStorage (snd out) = WebApp.localStorage b /\
  WebApp.sessionStorage (snd out) = WebApp.sessionStorage b /\
  (forall data, WebApp.read_body res = Some data ->
     Http.status res = 401 ->
     (fst (WebApp.getToken b) = "" ->
        fst out = WebApp.Thrown ("Auth required; redirecting to " ++ target)%string /\
        WebApp.replaced (snd out) = WebApp.replaced b ++ [target]) /\
     (fst (WebApp.getToken b) <> "" ->
        fst out =
          WebApp.Thrown (match data with
                         | Http.Data j => stringify j
                         | Http.Text t => t
                         end) /\
        WebApp.replaced (snd out) = WebApp.replaced b)) /\
  (Http.status res <> 401 \/ WebApp.read_body res = None ->
     WebApp.replaced (snd out) = WebApp.replaced b) /\
  (forall v, fst out = WebApp.Returned v ->
     Http.ok res = true /\ WebApp.read_body res = Some v).
Proof.
  cbv zeta. unfold WebApp.api.
  assert (G : WebApp.localStorage (snd (WebApp.getToken b)) = WebApp.localStorage b /\
              WebApp.sessionStorage (snd (WebApp.getToken b)) = WebApp.sessionStorage b /\
              WebApp.replaced (snd (WebApp.getToken b)) = WebApp.replaced b /\
              WebApp.pathname (snd (WebApp.getToken b)) = WebApp.pathname b /\
              WebApp.search (snd (WebApp.getToken b)) = WebApp.search b).
  { unfold WebApp.getToken.
    destruct (WebApp.ACCESS b) as [[|c a]|];
      destruct (WebApp.stored b) as [[|c' t]|]; cbn; repeat split. }
  destruct G as (G1 & G2 & G3 & G4 & G5).
  destruct (WebApp.read_body res) as [data|] eqn:EB.
  2:{ cbn [fst snd]. repeat split; intros; try reflexivity; try congruence. }
  destruct (Http.ok res) eqn:EO; cbn [negb].
  { assert (N : Http.status res = 401 -> False).
    { intros Hs. unfold Http.ok in EO. rewrite Hs in EO. discriminate. }
    cbn [fst snd].
    repeat split; intros; try reflexivity; try congruence;
      exfalso; auto. }
  destruct (Http.status res =? 401) eqn:ES.
  2:{ apply Nat.eqb_neq in ES. cbn [fst snd].
      repeat split; intros; try reflexivity; try congruence;
        exfalso; auto. }
  apply Nat.eqb_eq in ES.
  unfold WebApp.ensureAuthOrRedirect.
  destruct (WebApp.getToken b) as [t b1] eqn:EG. cbn [fst snd] in *.
  destruct t as [|c t]; cbn [JS.falsy negb fst snd WebApp.localStorage
    WebApp.sessionStorage WebApp.replaced].
  - rewrite G1, G2, G3, G4, G5.
    assert (T : (if JS.falsy (WebApp.pathname b ++ WebApp.search b)
                 then (WebApp.pathname b ++ WebApp.search b)%string
                 else (WebApp.pathname b ++ WebApp.search b)%string) =
                (WebApp.pathname b ++ WebApp.search b)%string)
      by now destruct (JS.falsy _).
    rewrite T.
    repeat split; intros; try reflexivity; try congruence.
    destruct H; congruence.
  - rewrite G1, G2, G3.
    repeat split; intros; try reflexivity; try congruence.
    injection H as <-. reflexivity.
Qed.

(** ** Loads of the week that fail *)

Section FailedLoads.
Import Week.





End FailedLoads.



(** ** From a 401 to the login page and back *)

Section ReturnPath.

Ltac each_char c :=
  destruct c as [b0 b1 b2 b3 b4 b5 b6 b7];
  destruct b0, b1, b2, b3, b4, b5, b6, b7.

Lemma encodeURIComponent_cons (c : ascii) (r : string) :
  Http.encodeURIComponent (String c r) =
  (Http.encodeURIComponent (String c "") ++ Http.encodeURIComponent r)%string.
Proof.
  cbn [Http.encodeURIComponent].
  now rewrite str_app_nil_r.
Qed.

Lemma query_encode_app (a b : string) :
  Url.query_encode (a ++ b) = (Url.query_encode a ++ Url.query_encode b)%string.
Proof.
  induction a as [|c a IH]; [reflexivity|].
  cbn [String.append Url.query_encode]. rewrite IH.
  now rewrite str_app_assoc.
Qed.

Lemma query_of_encoded_cons (c : ascii) (r : string) :
  Url.query_encode (Http.encodeURIComponent (String c r)) =
  (escaped_in_query c ++ Url.query_encode (Http.encodeURIComponent r))%string.
Proof.
  now rewrite encodeURIComponent_cons, query_encode_app.
Qed.

Lemma quiet_text_app (a b : string) :
  quiet_text (a ++ b) = quiet_text a && quiet_text b.
Proof.
  induction a as [|c a IH]; [reflexivity|].
  cbn [String.append quiet_text]. now rewrite IH, andb_assoc.
Qed.

Lemma quiet_escaped (c : ascii) :
  quiet_text (Http.encodeURIComponent (String c "")) = true /\
  quiet_text (escaped_in_query c) = true.
Proof. each_char c; split; reflexivity. Qed.

Lemma quiet_encoded (s : string) :
  quiet_text (Http.encodeURIComponent s) = true /\
  quiet_text (Url.query_encode (Http.encodeURIComponent s)) = true.
Proof.
  induction s as [|c s [IH1 IH2]]; [split; reflexivity|].
  rewrite query_of_encoded_cons, encodeURIComponent_cons, !quiet_text_app.
  destruct (quiet_escaped c) as [-> ->]. now rewrite IH1, IH2.
Qed.

Lemma decode_escaped (c : ascii) (r : string) :
  Url.decode (escaped_in_query c ++ r) = option_map (String c) (Url.decode r).
Proof. unfold Url.decode. each_char c; reflexivity. Qed.

Lemma decode_encoded (s : string) :
  Url.decode (Url.query_encode (Http.encodeURIComponent s)) = Some s.
Proof.
  induction s as [|c s IH]; [reflexivity|].
  now rewrite query_of_encoded_cons, decode_escaped, IH.
Qed.

Lemma quiet_char_facts (c : ascii) :
  quiet_char c = true ->
  Url.c0_or_space c = false /\ Url.is_char 9 c = false /\
  Url.is_char 10 c = false /\ Url.is_char 13 c = false /\
  Url.is_char 35 c = false /\ Url.is_char 38 c = false /\
  (nat_of_ascii c <? 128) = true.
Proof.
  unfold quiet_char, Url.c0_or_space, Url.is_char.
  intros H. apply andb_true_iff in H. destruct H as [H H43].
  apply andb_true_iff in H. destruct H as [H H38].
  apply andb_true_iff in H. destruct H as [H H35].
  apply andb_true_iff in H. destruct H as [H32 H128].
  apply Nat.ltb_lt in H32.
  apply negb_true_iff in H35, H38, H43.
  rewrite H35, H38, H128.
  repeat split; try reflexivity.
  - apply Nat.leb_gt. lia.
  - apply Nat.eqb_neq. lia.
  - apply Nat.eqb_neq. lia.
  - apply Nat.eqb_neq. lia.
Qed.

Lemma quiet_strip (s : string) :
  quiet_text s = true -> Url.strip_tab_newline s = s.
Proof.
  induction s as [|c s IH]; [reflexivity|]. cbn [quiet_text].
  intros H. apply andb_true_iff in H. destruct H as [Hc Hs].
  destruct (quiet_char_facts c Hc) as (_ & H9 & H10 & H13 & _).
  cbn [Url.strip_tab_newline]. rewrite H9, H10, H13. cbn [orb].
  now rewrite IH.
Qed.

Lemma quiet_drop_leading (s : string) :
  quiet_text s = true -> Url.drop_leading s = s.
Proof.
  destruct s as [|c s]; [reflexivity|]. cbn [quiet_text].
  intros H. apply andb_true_iff in H. destruct H as [Hc Hs].
  destruct (quiet_char_facts c Hc) as (H0 & _).
  cbn [Url.drop_leading]. now rewrite H0.
Qed.

Lemma quiet_drop_trailing (s : string) :
  quiet_text s = true -> Url.drop_trailing s = s.
Proof.
  induction s as [|c s IH]; [reflexivity|]. cbn [quiet_text].
  intros H. apply andb_true_iff in H. destruct H as [Hc Hs].
  destruct (quiet_char_facts c Hc) as (H0 & _).
  cbn [Url.drop_trailing]. rewrite (IH Hs), H0.
  now destruct s.
Qed.

Lemma quiet_before_hash (s : string) :
  quiet_text s = true -> Url.before 35 s = s.
Proof.
  induction s as [|c s IH]; [reflexivity|]. cbn [quiet_text].
  intros H. apply andb_true_iff in H. destruct H as [Hc Hs].
  destruct (quiet_char_facts c Hc) as (_ & _ & _ & _ & H35 & _).
  cbn [Url.before]. rewrite H35. now rewrite IH.
Qed.

Lemma quiet_utf8_encode (s : string) :
  quiet_text s = true -> Url.utf8_encode s = s.
Proof.
  induction s as [|c s IH]; [reflexivity|]. cbn [quiet_text].
  intros H. apply andb_true_iff in H. destruct H as [Hc Hs].
  destruct (quiet_char_facts c Hc) as (_ & _ & _ & _ & _ & _ & H128).
  cbn [Url.utf8_encode]. unfold Url.utf8_bytes. rewrite H128.
  cbn [List.map string_of_list_ascii String.append].
  now rewrite ascii_nat_embedding, IH.
Qed.

Lemma quiet_sequences (s : string) :
  quiet_text s = true -> Url.sequences s = [s].
Proof.
  induction s as [|c s IH]; [reflexivity|]. cbn [quiet_text].
  intros H. apply andb_true_iff in H. destruct H as [Hc Hs].
  destruct (quiet_char_facts c Hc) as (_ & _ & _ & _ & _ & H38 & _).
  cbn [Url.sequences]. rewrite H38. now rewrite IH.
Qed.

Lemma query_of_login_target (s : string) :
  Url.query_of (WebApp.login_target s) =
  Some ("return=" ++ Url.query_encode (Http.encodeURIComponent s))%string.
Proof.
  unfold Url.query_of, WebApp.login_target.
  assert (Q : quiet_text ("/ui/login.html?return=" ++ Http.encodeURIComponent s) = true).
  { rewrite quiet_text_app. now rewrite (proj1 (quiet_encoded s)). }
  rewrite (quiet_drop_leading _ Q), (quiet_drop_trailing _ Q),
    (quiet_strip _ Q), (quiet_before_hash _ Q).
  reflexivity.
Qed.

Lemma get_return_of_login_target (s : string) :
  Url.searchParams_get "return" (Url.query_of (WebApp.login_target s)) =
  Some (Some s).
Proof.
  rewrite query_of_login_target.
  unfold Url.searchParams_get, Url.parse.
  assert (Q : quiet_text ("return=" ++ Url.query_encode (Http.encodeURIComponent s)) = true).
  { rewrite quiet_text_app. now rewrite (proj2 (quiet_encoded s)). }
  rewrite (quiet_utf8_encode _ Q), (quiet_sequences _ Q).
  assert (T : forall v, Url.tuple ("return=" ++ v) = (Some "return", Url.decode v))
    by reflexivity.
  cbn [filter].
  replace (negb (JS.falsy ("return=" ++ Url.query_encode (Http.encodeURIComponent s))))
    with true by reflexivity.
  cbn [List.map]. rewrite T.
  rewrite decode_encoded. reflexivity.
Qed.

End ReturnPath.

(** X15: the way back after a 401.  The address that fetchJSON assigns to
    location.href, and the one ensureAuthOrRedirect hands to
    location.replace, carry the page's path and query through
    encodeURIComponent; on the login page getReturnPath reads it back
    through the query of the URL and searchParams.get.  What it gives is
    the very text that was encoded, whatever characters it holds, if that
    text begins with a slash, and the plan page otherwise.  So a page
    whose path begins with a slash is the page the login returns to.  The
    test is on the first character only: a text that begins with two
    slashes, which names another host, is returned as well. *)
Theorem login_returns_to_the_page :
  (forall s,
     Login.getReturnPath (WebApp.login_target s) =
     Some (if Login.startsWith_slash s then s else "/ui/plan.html")) /\
  (forall loc res,
     Http.status res = 401 ->
     exists href,
       Http.assigned (snd (Http.fetchJSON loc res)) =
         Http.assigned loc ++ [href] /\
       Login.getReturnPath href =
         Some (if Login.startsWith_slash (Http.pathname loc ++ Http.search loc)
               then (Http.pathname loc ++ Http.search loc)%string
               else "/ui/plan.html")) /\
  (forall b,
     fst (WebApp.getToken b) = "" ->
     Login.startsWith_slash (WebApp.pathname b) = true ->
     exists target,
       WebApp.replaced (snd (WebApp.ensureAuthOrRedirect "" b)) =
         WebApp.replaced b ++ [target] /\
       Login.getReturnPath target =
         Some (WebApp.pathname b ++ WebApp.search b)%string) /\
  (forall host,
     Login.getReturnPath (WebApp.login_target ("//" ++ host)) =
     Some ("//" ++ host)%string).
Proof.
  assert (R : forall s,
     Login.getReturnPath (WebApp.login_target s) =
     Some (if Login.startsWith_slash s then s else "/ui/plan.html")).
  { intros s. unfold Login.getReturnPath.
    rewrite get_return_of_login_target.
    now destruct s. }
  split; [exact R|]. split; [|split].
  - intros loc res H401. unfold Http.fetchJSON. rewrite H401.
    cbn [Nat.eqb snd Http.assigned].
    exists (Http.login_url loc). split; [reflexivity|].
    apply (R (Http.pathname loc ++ Http.search loc)%string).
  - intros b Ht Hs. unfold WebApp.ensureAuthOrRedirect.
    assert (G : WebApp.getToken b = ("", b)).
    { revert Ht. unfold WebApp.getToken.
      destruct (WebApp.ACCESS b) as [[|c a]|];
        destruct (WebApp.stored b) as [[|c' t]|]; cbn; congruence. }
    rewrite G. cbn [JS.falsy negb snd WebApp.replaced].
    eexists. split; [reflexivity|].
    rewrite R.
    destruct (WebApp.pathname b) as [|c p]; [discriminate|].
    cbn [String.append Login.startsWith_slash] in *. now rewrite Hs.
  - intros host. rewrite R. reflexivity.
Qed.

(** ** One login at a time *)

Section SingleFlight.
Import LoginForm.

Lemma falsy_false (s : string) : JS.falsy s = false -> s <> "".
Proof. destruct s; [discriminate|discriminate]. Qed.

Lemma step_form_ok (n : nat) (f f' : Form) (e : event) :
  form_ok n f -> step f e = Some f' ->
  form_ok (if is_settle e then S n else n) f'.
Proof.
  intros (Ha & Hi & Hd & Hl & Hs) Hstep.
  destruct e as [email password|error]; cbn in Hstep.
  - injection Hstep as <-. unfold submit. cbn [is_settle].
    destruct (inFlight f) eqn:Ei.
    + repeat split; auto; congruence.
    + destruct (JS.falsy (JS.or_empty (option_map JS.trim email))) eqn:E1;
        [|destruct (JS.falsy (JS.or_empty password)) eqn:E2]; cbn [orb].
      * repeat split; cbn; auto; congruence.
      * repeat split; cbn; auto; congruence.
      * assert (A0 : awaiting f = 0).
        { destruct (awaiting f) as [|[|k]]; [reflexivity|discriminate|lia]. }
        repeat split; cbn.
        -- lia.
        -- now rewrite A0.
        -- rewrite length_app. cbn. lia.
        -- apply Forall_app. split; [exact Hs|].
           constructor; [|constructor]. cbn.
           split; [now apply falsy_false|].
           split; [|now apply falsy_false].
           destruct email as [em|]; cbn in *; [|discriminate].
           apply trim_idempotent.
  - destruct (awaiting f =? 0) eqn:E0; [discriminate|].
    injection Hstep as <-. apply Nat.eqb_neq in E0.
    assert (A1 : awaiting f = 1) by lia.
    cbn [is_settle].
    destruct error as [message|]; repeat split; cbn; auto; try lia;
      rewrite A1; reflexivity.
Qed.

Lemma run_form_ok (trace : list event) (n : nat) (f f' : Form) :
  form_ok n f -> run f trace = Some f' ->
  form_ok (n + List.length (filter is_settle trace)) f'.
Proof.
  revert n f. induction trace as [|e rest IH]; intros n f Hok Hrun.
  - injection Hrun as <-. cbn. now rewrite Nat.add_0_r.
  - cbn in Hrun. destruct (step f e) as [g|] eqn:Hs; [|discriminate].
    pose proof (step_form_ok n f g e Hok Hs) as Hg.
    specialize (IH _ g Hg Hrun).
    cbn [filter]. destruct (is_settle e); cbn [List.length] in *.
    + now replace (n + S (List.length (filter is_settle rest)))
        with (S n + List.length (filter is_settle rest)) by lia.
    + exact IH.
Qed.

End SingleFlight.

(** X16: the login form sends one request at a time.  Whatever the
    sequence of submits and answers, at most one call of doLogin waits
    for its answer; the flag and the disabled button say exactly whether
    one does; the calls made are one more than the answers received
    while one waits and as many otherwise, so a submit during a login
    sends nothing; and no call is made with an empty password or with an
    e-mail address that is empty once trimmed: the address is sent
    trimmed. *)
Theorem login_one_request_at_a_time (trace : list LoginForm.event)
    (f : LoginForm.Form)
    (Hrun : LoginForm.run LoginForm.fresh trace = Some f) :
  LoginForm.awaiting f <= 1 /\
  LoginForm.inFlight f = (LoginForm.awaiting f =? 1) /\
  LoginForm.disabled f = LoginForm.inFlight f /\
  List.length (LoginForm.sent f) =
    List.length (filter LoginForm.is_settle trace) + LoginForm.awaiting f /\
  Forall (fun c => fst c <> "" /\ JS.trim (fst c) = fst c /\ snd c <> "")
         (LoginForm.sent f).
Proof.
  apply (run_form_ok trace 0 LoginForm.fresh f); [|exact Hrun].
  repeat split; auto.
Qed.

Lemma login_one_request_impatient :
  exists f,
    LoginForm.run LoginForm.fresh impatient_login = Some f /\
    LoginForm.sent f =
      [("ann@example.org", "secret"); ("ann@example.org", "Secret")] /\
    LoginForm.awaiting f <= 1.
Proof.
  eexists. split; [reflexivity|]. split; [reflexivity|].
  eapply (login_one_request_at_a_time impatient_login). reflexivity.
Defined.

(** ** Paging stays within the activities there are *)

Section Paging.
Import ActivitiesPage.

Lemma step_pager_ok (T : nat) (p : Pager) (e : event) :
  counts T e = true -> pager_ok T p -> pager_ok T (step p e).
Proof.
  intros He (Hp & Ht & Hr & Hm).
  destruct e as [| | |total items]; cbn [step].
  - repeat split; cbn; auto.
    + left. reflexivity.
    + apply Forall_app. split; [exact Hr|]. repeat constructor.
  - destruct (1 <? page p) eqn:E; [|repeat split; auto].
    apply Nat.ltb_lt in E.
    assert (Hq : page_exists T (page p - 1)).
    { destruct Hp as [H1|[H1 H2]]; [lia|].
      right. split; [lia|]. unfold pageSize in *. nia. }
    repeat split; cbn; auto.
    apply Forall_app. split; [exact Hr|]. constructor; [exact Hq|constructor].
  - destruct (page p * pageSize <? lastTotal p) eqn:E; [|repeat split; auto].
    apply Nat.ltb_lt in E.
    assert (Hq : page_exists T (page p + 1)).
    { right. split; [lia|].
      replace (page p + 1 - 1) with (page p) by lia.
      destruct Ht as [H0|H0]; rewrite H0 in E; [lia|exact E]. }
    repeat split; cbn; auto.
    apply Forall_app. split; [exact Hr|]. constructor; [exact Hq|constructor].
  - cbn in He. apply Nat.eqb_eq in He.
    unfold renderTable. rewrite He.
    split; [exact Hp|]. split; [right; reflexivity|]. split; [exact Hr|].
    cbn [metaEl].
    destruct (T =? 0) eqn:E0; cbn [meta_ok].
    + now apply Nat.eqb_eq in E0.
    + apply Nat.eqb_neq in E0. unfold pageSize in *.
      destruct Hp as [H1|[H1 H2]].
      * rewrite H1. repeat split; lia.
      * unfold pageSize in H2. repeat split; lia.
Qed.

Lemma run_pager_ok (T : nat) (trace : list event) (p : Pager) :
  forallb (counts T) trace = true -> pager_ok T p -> pager_ok T (run p trace).
Proof.
  revert p. induction trace as [|e rest IH]; intros p Hall Hok; [exact Hok|].
  cbn in Hall. apply andb_true_iff in Hall. destruct Hall as [He Hrest].
  cbn [run fold_left]. apply (IH (step p e) Hrest).
  now apply step_pager_ok.
Qed.

End Paging.

(** X17: paging of the activities page never leaves the activities there
    are.  While every payload reports the same number T of activities,
    whatever the user clicks and whenever the payloads arrive, the
    current page and every page asked of the server is the first page or
    one that holds at least one of the T activities, and the line below
    the table shows a range first..last with 1 <= first <= last <= T and
    at most 25 entries, or that there are no activities when T is 0. *)
Theorem paging_stays_within_total (T : nat)
    (trace : list ActivitiesPage.event)
    (Hsame : forallb (counts T) trace = true) :
  let p := ActivitiesPage.run ActivitiesPage.opened trace in
  page_exists T (ActivitiesPage.page p) /\
  Forall (page_exists T) (ActivitiesPage.requested p) /\
  meta_ok T (ActivitiesPage.metaEl p).
Proof.
  cbv zeta.
  destruct (run_pager_ok T trace ActivitiesPage.opened Hsame) as (H1 & _ & H3 & H4).
  - repeat split; cbn; auto.
    + left. reflexivity.
    + repeat constructor.
  - auto.
Qed.

Lemma paging_forward_stops_at_three :
  forallb (counts 60) paging_forward = true /\
  ActivitiesPage.requested (ActivitiesPage.run ActivitiesPage.opened paging_forward)
    = [1; 2; 3] /\
  page_exists 60
    (ActivitiesPage.page (ActivitiesPage.run ActivitiesPage.opened paging_forward)).
Proof.
  split; [reflexivity|]. split; [reflexivity|].
  apply (paging_stays_within_total 60 paging_forward). reflexivity.
Defined.
